(** * Forecast and price-optimisation engines: a shallow embedding

    The two numeric modules of the dashboard, [utils/forecast.ts] and
    [utils/priceOptimization.ts], are embedded function by function.

    Numbers.  A JavaScript number is modelled by [num]: a finite value
    carried as an exact rational, or one of the three special values
    [+Infinity], [-Infinity] and [NaN].  Finite arithmetic is exact (no
    rounding error, no overflow) and zero carries no sign; the special
    values follow IEEE 754 as JavaScript exposes it, so a division by
    zero yields an infinity or [NaN] exactly where the engines would.
    Where a double rounds, the value of the model is the exact one:
    [(29 / 200) * 100] is 14.5 here and 14.499999999999998 in
    JavaScript.

    Effects.  The only exception the engines can raise by themselves is
    the [TypeError] of [Array.prototype.reduce] on an empty array without
    an initial value; it is threaded through the [result] monad.
    Console output is not modelled. *)

From Stdlib Require Import ZArith QArith Qround Qabs List Bool Lia Lqa.
From Stdlib Require Import Permutation Sorted.
From Stdlib Require Strings.String.
Import ListNotations.

Set Implicit Arguments.

(* ================================================================== *)
(** * JavaScript numbers *)
(* ================================================================== *)

Inductive num : Type :=
| Fin (q : Q)
| PInf
| NInf
| NaN.

Declare Scope num_scope.
Delimit Scope num_scope with num.
Bind Scope num_scope with num.

Module JS.

(** A finite result, kept in lowest terms; [Qred] leaves the value as it
    is and keeps numerators and denominators small under evaluation. *)
Definition fin (q : Q) : num := Fin (Qred q).

Definition of_Z (z : Z) : num := Fin (inject_Z z).
Definition of_nat (n : nat) : num := of_Z (Z.of_nat n).

Definition neg (a : num) : num :=
  match a with
  | Fin q => Fin (- q)
  | PInf => NInf
  | NInf => PInf
  | NaN => NaN
  end.

Definition add (a b : num) : num :=
  match a, b with
  | NaN, _ | _, NaN => NaN
  | Fin p, Fin q => fin (p + q)
  | PInf, NInf | NInf, PInf => NaN
  | PInf, _ | _, PInf => PInf
  | NInf, _ | _, NInf => NInf
  end.

Definition sub (a b : num) : num := add a (neg b).

(** An infinity scaled by a finite value: the sign of the value decides,
    and a zero factor gives [NaN]. *)
Definition scale_inf (positive : bool) (q : Q) : num :=
  match q ?= 0 with
  | Eq => NaN
  | Gt => if positive then PInf else NInf
  | Lt => if positive then NInf else PInf
  end.

Definition mul (a b : num) : num :=
  match a, b with
  | NaN, _ | _, NaN => NaN
  | Fin p, Fin q => fin (p * q)
  | PInf, Fin q | Fin q, PInf => scale_inf true q
  | NInf, Fin q | Fin q, NInf => scale_inf false q
  | PInf, PInf | NInf, NInf => PInf
  | PInf, NInf | NInf, PInf => NaN
  end.

(** [x / 0] is an infinity of the sign of [x], and [0 / 0] is [NaN];
    an infinity over a finite divisor keeps or flips its sign with the
    divisor (a zero divisor counting as positive). *)
Definition div (a b : num) : num :=
  match a, b with
  | NaN, _ | _, NaN => NaN
  | Fin p, Fin q =>
      if Qeq_bool q 0 then
        match p ?= 0 with Eq => NaN | Gt => PInf | Lt => NInf end
      else fin (p / q)
  | Fin _, (PInf | NInf) => Fin 0
  | PInf, Fin q => match q ?= 0 with Lt => NInf | _ => PInf end
  | NInf, Fin q => match q ?= 0 with Lt => PInf | _ => NInf end
  | (PInf | NInf), (PInf | NInf) => NaN
  end.

(** The relational operators; every comparison with [NaN] is false. *)
Definition ltb (a b : num) : bool :=
  match a, b with
  | NaN, _ | _, NaN => false
  | Fin p, Fin q => match p ?= q with Lt => true | _ => false end
  | NInf, NInf | PInf, _ | _, NInf => false
  | NInf, _ | _, PInf => true
  end.

Definition gtb (a b : num) : bool := ltb b a.

Definition leb (a b : num) : bool :=
  match a, b with
  | NaN, _ | _, NaN => false
  | Fin p, Fin q => Qle_bool p q
  | NInf, _ | _, PInf => true
  | PInf, _ | _, NInf => false
  end.

Definition geb (a b : num) : bool := leb b a.

(** [a === b] on numbers. *)
Definition eqb (a b : num) : bool :=
  match a, b with
  | Fin p, Fin q => Qeq_bool p q
  | PInf, PInf | NInf, NInf => true
  | _, _ => false
  end.

(** Truthiness of a number: [0] and [NaN] are falsy. *)
Definition truthy (a : num) : bool :=
  match a with
  | Fin q => negb (Qeq_bool q 0)
  | NaN => false
  | PInf | NInf => true
  end.

(** [a || b] on numbers. *)
Definition or_else (a b : num) : num := if truthy a then a else b.

Definition Math_max (a b : num) : num :=
  match a, b with
  | NaN, _ | _, NaN => NaN
  | _, _ => if ltb a b then b else a
  end.

Definition Math_min (a b : num) : num :=
  match a, b with
  | NaN, _ | _, NaN => NaN
  | _, _ => if ltb b a then b else a
  end.

Definition Math_abs (a : num) : num :=
  match a with
  | Fin q => Fin (Qabs q)
  | PInf | NInf => PInf
  | NaN => NaN
  end.

Definition Math_floor (a : num) : num :=
  match a with
  | Fin q => of_Z (Qfloor q)
  | _ => a
  end.

(** [Math.round]: to the nearest integer, a tie going up. *)
Definition Math_round (a : num) : num :=
  match a with
  | Fin q => of_Z (Qfloor (q + 0.5))
  | _ => a
  end.

(** [Math.pow(a, 2)]. *)
Definition sqr (a : num) : num := mul a a.

(** [Number(a.toFixed(2))]: two decimals, a tie going away from zero.
    The tie is the one of the exact value: for 201/200 this gives 1.01,
    where the double nearest to 1.005 lies below the tie and JavaScript
    gives 1. *)
Definition toFixed2 (a : num) : num :=
  match a with
  | Fin q =>
      let n := Qfloor (Qabs q * 100 + 0.5) in
      fin ((if Qle_bool 0 q then inject_Z n else - inject_Z n) / 100)
  | _ => a
  end.

(** Two numbers denote the same value. *)
Definition same (a b : num) : Prop :=
  match a, b with
  | Fin p, Fin q => p == q
  | PInf, PInf | NInf, NInf | NaN, NaN => True
  | _, _ => False
  end.

End JS.

Notation "a + b" := (JS.add a b) : num_scope.
Notation "a - b" := (JS.sub a b) : num_scope.
Notation "a * b" := (JS.mul a b) : num_scope.
Notation "a / b" := (JS.div a b) : num_scope.
Notation "a <? b" := (JS.ltb a b) : num_scope.
Notation "a >? b" := (JS.gtb a b) : num_scope.
Notation "a <=? b" := (JS.leb a b) : num_scope.
Notation "a >=? b" := (JS.geb a b) : num_scope.
Notation "a === b" := (JS.eqb a b) (at level 70, no associativity) : num_scope.
Notation "a =n= b" := (JS.same a b) (at level 70, no associativity) : num_scope.

(** Numeric literals of the sources. *)
Definition lit (q : Q) : num := Fin q.

Local Open Scope num_scope.

(* ================================================================== *)
(** * Exceptions and arrays *)
(* ================================================================== *)

Inductive error : Type :=
| TypeError.   (* "Reduce of empty array with no initial value" *)

Inductive result (A : Type) : Type :=
| Ok (a : A)
| Throw (e : error).

Arguments Ok {A} a.
Arguments Throw {A} e.

Definition bind {A B : Type} (c : result A) (k : A -> result B) : result B :=
  match c with
  | Ok a => k a
  | Throw e => Throw e
  end.

Notation "x <- c ;; k" := (bind c (fun x => k))
  (at level 61, c at next level, right associativity).

Module Arr.

(** [l[k]] read as a number; past the end JavaScript yields [undefined],
    which every arithmetic use in the engines turns into [NaN]. *)
Definition get (l : list num) (k : nat) : num := nth k l NaN.

(** [l.reduce(f)] without an initial value. *)
Definition reduce1 (f : num -> num -> num) (l : list num) : result num :=
  match l with
  | [] => Throw TypeError
  | x :: xs => Ok (fold_left f xs x)
  end.

(** [l.reduce(f, init)], the callback also receiving the index. *)
Fixpoint reducei_from {A B : Type} (i : nat) (f : B -> A -> nat -> B)
         (l : list A) (acc : B) : B :=
  match l with
  | [] => acc
  | a :: l' => reducei_from (S i) f l' (f acc a i)
  end.

Definition reducei {A B : Type} (f : B -> A -> nat -> B) (l : list A)
           (init : B) : B :=
  reducei_from 0 f l init.

(** [l.map((v, i) => ...)]. *)
Fixpoint mapi_from {A B : Type} (i : nat) (f : A -> nat -> B)
         (l : list A) : list B :=
  match l with
  | [] => []
  | a :: l' => f a i :: mapi_from (S i) f l'
  end.

Definition mapi {A B : Type} (f : A -> nat -> B) (l : list A) : list B :=
  mapi_from 0 f l.

(** [l.filter((v, i) => ...)]. *)
Fixpoint filteri_from {A : Type} (i : nat) (f : A -> nat -> bool)
         (l : list A) : list A :=
  match l with
  | [] => []
  | a :: l' =>
      if f a i then a :: filteri_from (S i) f l'
      else filteri_from (S i) f l'
  end.

Definition filteri {A : Type} (f : A -> nat -> bool) (l : list A) : list A :=
  filteri_from 0 f l.

(** [l.slice(start, stop)] for [0 <= start]. *)
Definition slice {A : Type} (start stop : nat) (l : list A) : list A :=
  firstn (stop - start) (skipn start l).

(** [l[k] = f(l[k])] for an index inside the array; the engines never
    write past the end, and there the array is left as it is. *)
Fixpoint update {A : Type} (k : nat) (f : A -> A) (l : list A) : list A :=
  match l, k with
  | [], _ => []
  | a :: l', O => f a :: l'
  | a :: l', S k' => a :: update k' f l'
  end.

(** [[...l].sort(cmp)]: a stable sort; [cmp a b > 0] moves [a] behind
    [b], any other outcome (a [NaN] included) leaves the pair alone. *)
Fixpoint insert {A : Type} (cmp : A -> A -> num) (a : A) (l : list A)
  : list A :=
  match l with
  | [] => [a]
  | b :: l' =>
      if (cmp a b >? lit 0) then b :: insert cmp a l' else a :: b :: l'
  end.

Definition sort {A : Type} (cmp : A -> A -> num) (l : list A) : list A :=
  fold_right (insert cmp) [] l.

(** [Math.floor(n * c)] used as an array index. *)
Definition floor_index (n : nat) (c : Q) : nat :=
  match JS.Math_floor (JS.of_nat n * lit c) with
  | Fin q => Z.to_nat (Qfloor q)
  | _ => 0
  end.

End Arr.

(* ================================================================== *)
(** * The host: dates, [Math.sqrt] and the regression package *)
(* ================================================================== *)

(** A [Date] is its epoch time in milliseconds; timestamps are taken as
    already parsed ([new Date(s)], [parseISO(s)]) and valid. *)
Definition Date : Type := Z.

Definition msPerDay : Z := 1000 * 60 * 60 * 24.

(** [(a.getTime() - b.getTime()) / (1000 * 60 * 60 * 24)]. *)
Definition daysBetween (a b : Date) : num :=
  JS.of_Z (a - b) / JS.of_Z msPerDay.

(** [addDays(d, i)] of date-fns, on a calendar without clock changes. *)
Definition addDays (d : Date) (i : Z) : Date := (d + i * msPerDay)%Z.

(** [differenceInDays(a, b)] of date-fns: the full days between the two
    dates, truncated towards zero; as [addDays], on a calendar without
    clock changes (date-fns counts days of the local calendar, so a
    period that spans a clock change can count one day more). *)
Definition differenceInDays (a b : Date) : Z := Z.quot (a - b) msPerDay.

(** What the engines take from their environment: the calendar of the
    local time zone, the clock, and the square root.  The day and the
    month of a real calendar stay below 7 and 12, so the engines read and
    write their bucket arrays inside their bounds. *)
Class Platform : Type := {
  getDay : Date -> nat;                 (* 0 = Sunday ... 6 = Saturday *)
  getMonth : Date -> nat;               (* 0 = January ... 11 = December *)
  startOfToday : Date;                  (* startOfDay(new Date()) *)
  sqrtQ : Q -> Q                        (* Math.sqrt on a finite value >= 0 *)
}.

Definition Math_sqrt `{Platform} (a : num) : num :=
  match a with
  | Fin q => if Qle_bool 0 q then Fin (sqrtQ q) else NaN
  | PInf => PInf
  | NInf | NaN => NaN
  end.

(** The interface of [SimpleLinearRegression] (package ml-regression) that
    the engines use: construction from two arrays, and [predict]. *)
Class Regression : Type := {
  model : Type;
  SimpleLinearRegression : list num -> list num -> model;
  predict : model -> num -> num
}.

(** Sum of an array from zero, [l.reduce((s, v) => s + v, 0)]. *)
Definition sum0 (l : list num) : num := fold_left JS.add l (lit 0).

Record line : Type := { slope : num; intercept : num }.

(** Modelled from the spec: the constructor of [SimpleLinearRegression]
    lives in the ml-regression package, outside this repository; the spec
    describes it as the simple ordinary-least-squares line [y = a + b x].
    The closed form of that line, evaluated in JavaScript arithmetic. *)
Definition regress (x y : list num) : line :=
  let n := JS.of_nat (length x) in
  let xSum := sum0 x in
  let ySum := sum0 y in
  let xSquared := sum0 (map JS.sqr x) in
  let xY := sum0 (map (fun p => fst p * snd p) (combine x y)) in
  let numerator := n * xY - xSum * ySum in
  let b := numerator / (n * xSquared - xSum * xSum) in
  let a := (lit 1 / n) * ySum - b * (lit 1 / n) * xSum in
  {| slope := b; intercept := a |}.

Definition line_predict (l : line) (v : num) : num :=
  slope l * v + intercept l.

Definition OLS : Regression :=
  {| model := line;
     SimpleLinearRegression := regress;
     predict := line_predict |}.

(* ================================================================== *)
(** * utils/forecast.ts *)
(* ================================================================== *)

Module Forecast.

Record Metrics : Type := {
  timestamp : Date;
  sales : num;
  orders : num
}.

Record ForecastResult : Type := {
  fr_timestamp : Date;
  fr_sales : num;
  fr_orders : num;
  salesLower : num;
  salesUpper : num;
  ordersLower : num;
  ordersUpper : num;
  isForecast : bool
}.

Inductive ForecastRange : Type :=
| R7d | R14d | R1month | R3months | R6months.

Record Forecast : Type := {
  forecastData : list ForecastResult;
  confidence : num
}.

Definition getDaysForRange (range : ForecastRange) : nat :=
  match range with
  | R7d => 7
  | R14d => 14
  | R1month => 30
  | R3months => 90
  | R6months => 180
  end.

(** The fences [(lowerBound, upperBound)] from the quartiles of the
    sorted copy. *)
Definition fences (data : list num) : num * num :=
  let sorted := Arr.sort JS.sub data in
  let q1 := Arr.get sorted (Arr.floor_index (length sorted) 0.25) in
  let q3 := Arr.get sorted (Arr.floor_index (length sorted) 0.75) in
  let iqr := q3 - q1 in
  (q1 - lit 1.5 * iqr, q3 + lit 1.5 * iqr).

(** The replacement of an outlier at [index]: the mean of the values of
    the window [index - 3, index + 4) that lie inside the fences, or the
    value itself when there is none. *)
Definition movingAverage (lowerBound upperBound : num) (data : list num)
           (value : num) (index : nat) : num :=
  let start := Nat.max 0 (index - 3) in
  let stop := Nat.min (length data) (index + 4) in
  let window :=
    filter (fun v => (v >=? lowerBound) && (v <=? upperBound))
           (Arr.slice start stop data) in
  match window with
  | [] => value
  | w :: ws => fold_left JS.add ws w / JS.of_nat (length window)
  end.

Definition handleOutliers (data : list num) : list num :=
  if (length data <? 4)%nat then data else
  let '(lowerBound, upperBound) := fences data in
  Arr.mapi (fun value index =>
    if (value <? lowerBound) || (value >? upperBound) then
      movingAverage lowerBound upperBound data value index
    else value) data.

Record Seasonality : Type := {
  daily : list num;
  weekly : list num;
  monthly : list num
}.

(** The four accumulators of the [forEach] of [calculateSeasonality]. *)
Record Buckets : Type := {
  dailyPatterns : list num;
  dailyCounts : list nat;
  monthlyPatterns : list num;
  monthlyCounts : list nat
}.

Section WithPlatform.
Context `{Platform}.

(** One turn of the [forEach]; a value whose date is missing
    ([dates[index]] undefined, day and month [NaN]) touches no bucket. *)
Definition accumulate (dates : list Date) (b : Buckets) (value : num)
           (index : nat) : Buckets :=
  match nth_error dates index with
  | None => b
  | Some date =>
      let dayOfWeek := getDay date in
      let month := getMonth date in
      {| dailyPatterns :=
           Arr.update dayOfWeek (fun s => s + value) (dailyPatterns b);
         dailyCounts := Arr.update dayOfWeek S (dailyCounts b);
         monthlyPatterns :=
           Arr.update month (fun s => s + value) (monthlyPatterns b);
         monthlyCounts := Arr.update month S (monthlyCounts b) |}
  end.

(** [getDay(dates[index]) === i]. *)
Definition onDay (dates : list Date) (i : nat) (index : nat) : bool :=
  match nth_error dates index with
  | None => false
  | Some date => (getDay date =? i)%nat
  end.

Definition calculateSeasonality (data : list num) (dates : list Date)
  : result Seasonality :=
  let b := Arr.reducei (accumulate dates) data
             {| dailyPatterns := repeat (lit 0) 7;
                dailyCounts := repeat 0%nat 7;
                monthlyPatterns := repeat (lit 0) 12;
                monthlyCounts := repeat 0%nat 12 |} in
  total <- Arr.reduce1 JS.add data ;;
  let overallAverage := total / JS.of_nat (length data) in
  let dailyFactors :=
    Arr.mapi (fun s i =>
      match nth i (dailyCounts b) 0%nat with
      | O => lit 1
      | c => s / JS.of_nat c / overallAverage
      end) (dailyPatterns b) in
  let weeklyFactors :=
    Arr.mapi (fun (_ : num) i =>
      let weekValues := Arr.filteri (fun _ index => onDay dates i index) data in
      match weekValues with
      | [] => lit 1
      | w :: ws =>
          fold_left JS.add ws w / JS.of_nat (length weekValues)
            / overallAverage
      end) (repeat (lit 1) 7) in
  let monthlyFactors :=
    Arr.mapi (fun s i =>
      match nth i (monthlyCounts b) 0%nat with
      | O => lit 1
      | c => s / JS.of_nat c / overallAverage
      end) (monthlyPatterns b) in
  Ok {| daily := dailyFactors;
        weekly := weeklyFactors;
        monthly := monthlyFactors |}.

Context `{Regression}.

Record Interval : Type := { lower : num; upper : num }.

Definition calculateConfidenceIntervals (regression : model)
           (x y : list num) (forecastX : num) : result Interval :=
  let predictions := map (predict regression) x in
  let residuals :=
    Arr.mapi (fun actual i => actual - Arr.get predictions i) y in
  let stdError :=
    Math_sqrt (fold_left (fun s r => s + r * r) residuals (lit 0)
               / (JS.of_nat (length y) - lit 2)) in
  xTotal <- Arr.reduce1 JS.add x ;;
  let xMean := xTotal / JS.of_nat (length x) in
  let xSquaredSum :=
    fold_left (fun s val => s + JS.sqr (val - xMean)) x (lit 0) in
  let predictionError :=
    stdError *
    Math_sqrt (lit 1 + lit 1 / JS.of_nat (length y)
               + JS.sqr (forecastX - xMean) / xSquaredSum) in
  let predicted := predict regression forecastX in
  Ok {| lower := JS.Math_max (lit 0) (predicted - lit 1.96 * predictionError);
        upper := predicted + lit 1.96 * predictionError |}.

(** The arithmetic of the [try] does not throw: every [reduce] has an
    initial value.  Its logging spreads both arrays into [Math.min] and
    [Math.max], which throws on a series too long for the stack of the
    engine; the [catch] then returns 50.  The model is the function on
    series below that length. *)
Definition calculateConfidence (regression : model) (x y : list num)
  : num :=
  let predictions := map (predict regression) x in
  let meanY := sum0 y / JS.of_nat (length y) in
  let ssRes :=
    Arr.reducei (fun s actual i =>
      s + JS.sqr (actual - Arr.get predictions i)) y (lit 0) in
  let ssTot :=
    fold_left (fun s actual => s + JS.sqr (actual - meanY)) y (lit 0) in
  if ssTot === lit 0 then lit 50 else
  let rSquared :=
    JS.Math_max (lit 0) (JS.Math_min (lit 1) (lit 1 - ssRes / ssTot)) in
  let baseConfidence := rSquared * lit 100 in
  let dataPointsScore :=
    JS.Math_min (lit 1) (JS.of_nat (length x) / lit 30) in
  let meanAbsError :=
    Arr.reducei (fun s actual i =>
      s + JS.Math_abs (actual - Arr.get predictions i)) y (lit 0)
    / JS.of_nat (length y) in
  let errorScore := JS.Math_max (lit 0) (lit 1 - meanAbsError / meanY) in
  let finalConfidence :=
    JS.Math_round (baseConfidence * lit 0.4
                   + dataPointsScore * lit 30
                   + errorScore * lit 30) in
  JS.Math_min (lit 100) (JS.Math_max (lit 0) finalConfidence).

Definition calculateVariation (factors : list num) : result num :=
  total <- Arr.reduce1 JS.add factors ;;
  let mean := total / JS.of_nat (length factors) in
  let variance :=
    fold_left (fun s val => s + JS.sqr (val - mean)) factors (lit 0)
    / JS.of_nat (length factors) in
  Ok (Math_sqrt variance).

(** [try { ... } catch { return 0.8 }]. *)
Definition calculateSeasonalityStrength
           (salesSeasonality ordersSeasonality : Seasonality) : num :=
  let body :=
    salesVariation <-
      calculateVariation (daily salesSeasonality ++ monthly salesSeasonality) ;;
    ordersVariation <-
      calculateVariation (daily ordersSeasonality ++ monthly ordersSeasonality) ;;
    let normalizedSalesVar := JS.Math_min (lit 1) salesVariation in
    let normalizedOrdersVar := JS.Math_min (lit 1) ordersVariation in
    Ok (lit 0.8
        + JS.Math_min (lit 0.2)
            ((normalizedSalesVar + normalizedOrdersVar) / lit 4)) in
  match body with
  | Ok seasonalityScore => seasonalityScore
  | Throw _ => lit 0.8
  end.

(** The [for] loop counting the gaps, [i] running from 1. *)
Fixpoint countGaps (prev : Date) (rest : list Date) : nat :=
  match rest with
  | [] => 0
  | d :: rest' =>
      let daysDiff := daysBetween d prev in
      ((if daysDiff >? lit 1 then 1 else 0) + countGaps d rest')%nat
  end.

Definition calculateDataConsistency (dates : list Date) : num :=
  if (length dates <? 2)%nat then lit 0.5 else
  let gapCount :=
    match dates with
    | [] => 0%nat
    | d :: rest => countGaps d rest
    end in
  JS.Math_max (lit 0.5)
    (lit 1 - JS.of_nat gapCount / JS.of_nat (length dates)).

(** The sort comparator, [new Date(a.timestamp).getTime() -
    new Date(b.timestamp).getTime()]. *)
Definition byTimestamp (a b : Metrics) : num :=
  JS.of_Z (timestamp a - timestamp b).

(** One turn of the forecasting loop, for day offset [i]. *)
Definition forecastDay (firstDate : Date) (x ySales yOrders : list num)
           (salesRegression ordersRegression : model)
           (salesSeasonality ordersSeasonality : Seasonality) (i : nat)
  : result ForecastResult :=
  let forecastDate := addDays startOfToday (Z.of_nat i) in
  let daysSinceStart := daysBetween forecastDate firstDate in
  let dayOfWeek := getDay forecastDate in
  let month := getMonth forecastDate in
  salesIntervals <-
    calculateConfidenceIntervals salesRegression x ySales daysSinceStart ;;
  ordersIntervals <-
    calculateConfidenceIntervals ordersRegression x yOrders daysSinceStart ;;
  let salesSeasonalFactor :=
    Arr.get (daily salesSeasonality) dayOfWeek
    * Arr.get (monthly salesSeasonality) month in
  let ordersSeasonalFactor :=
    Arr.get (daily ordersSeasonality) dayOfWeek
    * Arr.get (monthly ordersSeasonality) month in
  let predictedSales :=
    JS.Math_max (lit 0)
      (JS.Math_round (predict salesRegression daysSinceStart
                      * salesSeasonalFactor)) in
  let predictedOrders :=
    JS.Math_max (lit 0)
      (JS.Math_round (predict ordersRegression daysSinceStart
                      * ordersSeasonalFactor)) in
  Ok {| fr_timestamp := forecastDate;
        fr_sales := predictedSales;
        fr_orders := predictedOrders;
        salesLower :=
          JS.Math_max (lit 0)
            (JS.Math_round (lower salesIntervals * salesSeasonalFactor));
        salesUpper :=
          JS.Math_round (upper salesIntervals * salesSeasonalFactor);
        ordersLower :=
          JS.Math_max (lit 0)
            (JS.Math_round (lower ordersIntervals * ordersSeasonalFactor));
        ordersUpper :=
          JS.Math_round (upper ordersIntervals * ordersSeasonalFactor);
        isForecast := true |}.

(** The [for] loop: the days are produced in order, the first
    exception ending the loop. *)
Fixpoint forEachDay (f : nat -> result ForecastResult) (days : list nat)
  : result (list ForecastResult) :=
  match days with
  | [] => Ok []
  | i :: days' =>
      p <- f i ;;
      ps <- forEachDay f days' ;;
      Ok (p :: ps)
  end.

Definition generateSalesForecast (historicalData : list Metrics)
           (range : ForecastRange) : result Forecast :=
  if (length historicalData =? 0)%nat then
    Ok {| forecastData := []; confidence := lit 0 |}
  else if (length historicalData <? 7)%nat then
    Ok {| forecastData := [];
          confidence :=
            JS.Math_min (lit 50)
              (JS.of_nat (length historicalData) * lit 7) |}
  else
  let sortedData := Arr.sort byTimestamp historicalData in
  let dates := map timestamp sortedData in
  let firstDate := nth 0 dates 0%Z in
  let x := map (fun d => daysBetween d firstDate) dates in
  let rawSales := map (fun d => JS.or_else (sales d) (lit 0)) sortedData in
  let rawOrders := map (fun d => JS.or_else (orders d) (lit 0)) sortedData in
  if forallb (fun v => v === lit 0) rawSales
     || forallb (fun v => v === lit 0) rawOrders then
    Ok {| forecastData := []; confidence := lit 0 |}
  else
  let ySales := handleOutliers rawSales in
  let yOrders := handleOutliers rawOrders in
  let salesRegression := SimpleLinearRegression x ySales in
  let ordersRegression := SimpleLinearRegression x yOrders in
  salesSeasonality <- calculateSeasonality ySales dates ;;
  ordersSeasonality <- calculateSeasonality yOrders dates ;;
  let daysToForecast := getDaysForRange range in
  forecast <-
    forEachDay
      (forecastDay firstDate x ySales yOrders salesRegression
         ordersRegression salesSeasonality ordersSeasonality)
      (seq 0 daysToForecast) ;;
  let salesConfidence := calculateConfidence salesRegression x ySales in
  let ordersConfidence := calculateConfidence ordersRegression x yOrders in
  let dataQualityScore :=
    JS.Math_min (lit 1) (JS.of_nat (length historicalData) / lit 60) in
  let consistencyScore := calculateDataConsistency dates in
  let seasonalityScore :=
    calculateSeasonalityStrength salesSeasonality ordersSeasonality in
  let averageConfidence :=
    JS.Math_round
      ((salesConfidence + ordersConfidence) / lit 2
       * dataQualityScore * seasonalityScore * consistencyScore) in
  Ok {| forecastData := forecast;
        confidence :=
          JS.Math_min (lit 100) (JS.Math_max (lit 0) averageConfidence) |}.

End WithPlatform.

End Forecast.

(* ================================================================== *)
(** * utils/priceOptimization.ts *)
(* ================================================================== *)

Module PriceOptimization.

Import String.
Local Open Scope string_scope.
Local Open Scope num_scope.

Record SalesData : Type := {
  price : num;
  quantity : num;
  timestamp : Date
}.

Record ExpectedQuantity : Type := { eq_daily : num; eq_total : num }.

Record PriceElasticity : Type := {
  value : num;
  interpretation : string
}.

Record OptimizationResult : Type := {
  optimalDiscount : num;
  optimalPrice : num;
  originalPrice : num;
  expectedRevenue : num;
  expectedProfit : num;
  confidence : num;
  dailyRevenue : num;
  dailyProfit : num;
  campaignDays : num;
  expectedQuantity : ExpectedQuantity;
  priceElasticity : PriceElasticity
}.

Record CampaignPeriod : Type := { startDate : Date; endDate : Date }.

Inductive Goal : Type := profit | sales | inventory.

Definition interpretElasticity (elasticity : num) : string :=
  if elasticity <? lit 0.5 then
    "Inelastic - Demand is not very sensitive to price changes"
  else if elasticity <? lit 1 then
    "Moderately elastic - Demand shows some response to price changes"
  else if elasticity <? lit 2 then
    "Elastic - Demand is sensitive to price changes"
  else "Highly elastic - Demand is very sensitive to price changes".

(** Past the guard the array has at least two elements, so both reads
    of the sorted copy are inside it. *)
Definition calculatePriceElasticity (salesData : list SalesData) : num :=
  if (List.length salesData <? 2)%nat then lit (-1) else
  let sortedByPrice := Arr.sort (fun a b => price a - price b) salesData in
  let p1 := Arr.get (map price sortedByPrice) 0 in
  let p2 :=
    Arr.get (map price sortedByPrice) (List.length sortedByPrice - 1) in
  let at1 := filter (fun d => price d === p1) salesData in
  let at2 := filter (fun d => price d === p2) salesData in
  let q1 := sum0 (map quantity at1) / JS.of_nat (List.length at1) in
  let q2 := sum0 (map quantity at2) / JS.of_nat (List.length at2) in
  let percentPriceChange := (p2 - p1) / p1 in
  let percentQuantityChange := (q2 - q1) / q1 in
  JS.Math_abs (percentQuantityChange / percentPriceChange).

Definition calculateTimePressureFactor (campaignDays : num) : num :=
  let maxPressure := lit 1.5 in
  let minPressure := lit 1.0 in
  let shortCampaign := lit 7 in
  let longCampaign := lit 30 in
  if campaignDays <=? shortCampaign then maxPressure
  else if campaignDays >=? longCampaign then minPressure
  else
    let pressureRange := maxPressure - minPressure in
    let daysRange := longCampaign - shortCampaign in
    let daysFromShort := campaignDays - shortCampaign in
    maxPressure - (pressureRange * daysFromShort / daysRange).

(** The variables the search loop assigns. *)
Record Best : Type := {
  bestPrice : num;               (* optimalPrice *)
  maxObjectiveValue : num;
  optimalDailyQuantity : num;
  optimalTotalQuantity : num
}.

Section WithHost.
Context `{Platform} `{Regression}.

Definition calculateSeasonalityFactor (date : Date) : num :=
  let dayOfWeek := getDay date in
  if (dayOfWeek =? 0)%nat then lit 1.1
  else if ((dayOfWeek =? 5) || (dayOfWeek =? 6))%nat then lit 1.3
  else lit 0.9.

(** [Array.from({ length: 50 }, (_, i) => ...)]. *)
Definition pricePoints (minPrice maxPrice : num) : list num :=
  map (fun i =>
         JS.Math_round
           (minPrice + JS.of_nat i * (maxPrice - minPrice) / lit 49))
      (seq 0 50).

(** [Math.round(seasonalityFactors.reduce((s, f) => s + base * f, 0))]. *)
Definition campaignQuantity (seasonalityFactors : list num)
           (baseQuantity : num) : num :=
  JS.Math_round
    (fold_left (fun s factor => s + baseQuantity * factor)
               seasonalityFactors (lit 0)).

(** The body of [pricePoints.forEach]. *)
Definition tryPrice (regression : model) (cost : num) (goal : Goal)
           (campaignDays : num) (seasonalityFactors : list num)
           (timePressureFactor avgDailyQuantity : num)
           (best : Best) (price : num) : Best :=
  let baseQuantity :=
    JS.Math_max (lit 0) (JS.Math_round (predict regression price)) in
  let totalQuantity := campaignQuantity seasonalityFactors baseQuantity in
  let dailyQuantity := JS.Math_round (totalQuantity / campaignDays) in
  let revenue := price * totalQuantity in
  let profitValue := (price - cost) * totalQuantity in
  let objectiveValue :=
    match goal with
    | profit => profitValue
    | sales => revenue
    | inventory =>
        let profitMargin := (price - cost) / price in
        let quantityImprovement := dailyQuantity / avgDailyQuantity in
        (quantityImprovement * lit 0.6 * timePressureFactor
         + profitMargin * lit 0.4) * totalQuantity
    end in
  if objectiveValue >? maxObjectiveValue best then
    {| bestPrice := price;
       maxObjectiveValue := objectiveValue;
       optimalDailyQuantity := dailyQuantity;
       optimalTotalQuantity := totalQuantity |}
  else best.

Definition optimizePrice (currentPrice cost : num)
           (salesData : list SalesData) (goal : Goal)
           (minDiscount maxDiscount : num)
           (campaignPeriod : option CampaignPeriod)
  : result OptimizationResult :=
  let elasticity := calculatePriceElasticity salesData in
  let minPrice := currentPrice * (lit 1 - maxDiscount / lit 100) in
  let maxPrice := currentPrice * (lit 1 - minDiscount / lit 100) in
  let points := pricePoints minPrice maxPrice in
  let initial :=
    {| bestPrice := currentPrice;
       maxObjectiveValue := lit 0;
       optimalDailyQuantity := lit 0;
       optimalTotalQuantity := lit 0 |} in
  let x := map price salesData in
  let y := map quantity salesData in
  let regression := SimpleLinearRegression x y in
  let predictedY := map (predict regression) x in
  yTotal <- Arr.reduce1 JS.add y ;;
  let meanY := yTotal / JS.of_nat (List.length y) in
  let ssRes :=
    Arr.reducei (fun s actual i =>
      s + JS.sqr (actual - Arr.get predictedY i)) y (lit 0) in
  let ssTot :=
    fold_left (fun s actual => s + JS.sqr (actual - meanY)) y (lit 0) in
  let rSquared := lit 1 - ssRes / ssTot in
  let '(campaignDays, seasonalityFactors, timePressureFactor) :=
    match campaignPeriod with
    | None => (lit 1, [lit 1], lit 1)
    | Some period =>
        let days :=
          (differenceInDays (endDate period) (startDate period) + 1)%Z in
        (JS.of_Z days,
         map (fun i =>
                calculateSeasonalityFactor
                  (addDays (startDate period) (Z.of_nat i)))
             (seq 0 (Z.to_nat days)),
         calculateTimePressureFactor (JS.of_Z days))
    end in
  let avgDailyQuantity := sum0 y / JS.of_nat (List.length y) in
  let best :=
    fold_left
      (tryPrice regression cost goal campaignDays seasonalityFactors
         timePressureFactor avgDailyQuantity)
      points initial in
  let optimal := bestPrice best in
  let discountPercentage :=
    (currentPrice - optimal) / currentPrice * lit 100 in
  let baseQuantity :=
    JS.Math_max (lit 0) (JS.Math_round (predict regression optimal)) in
  let totalQuantity := campaignQuantity seasonalityFactors baseQuantity in
  let dailyRevenue' :=
    JS.Math_round (optimal * totalQuantity / campaignDays) in
  let dailyProfit' :=
    JS.Math_round ((optimal - cost) * totalQuantity / campaignDays) in
  let campaignRevenue := dailyRevenue' * campaignDays in
  let campaignProfit := dailyProfit' * campaignDays in
  Ok {| optimalDiscount := JS.Math_round discountPercentage;
        optimalPrice := JS.Math_round optimal;
        originalPrice := JS.Math_round currentPrice;
        expectedRevenue := JS.Math_round campaignRevenue;
        expectedProfit := JS.Math_round campaignProfit;
        dailyRevenue := JS.Math_round dailyRevenue';
        dailyProfit := JS.Math_round dailyProfit';
        campaignDays := campaignDays;
        confidence := JS.Math_round (rSquared * lit 100);
        expectedQuantity :=
          {| eq_daily := JS.Math_round (optimalDailyQuantity best);
             eq_total := JS.Math_round (optimalTotalQuantity best) |};
        priceElasticity :=
          {| value := JS.toFixed2 elasticity;
             interpretation := interpretElasticity elasticity |} |}.

End WithHost.

End PriceOptimization.

(* ================================================================== *)
(** * A concrete host: the UTC calendar *)
(* ================================================================== *)

Module UTC.

Local Open Scope Z_scope.

(** Whole days since 1970-01-01, a Thursday. *)
Definition dayNumber (d : Date) : Z := d / msPerDay.

Definition utcDay (d : Date) : nat := Z.to_nat ((dayNumber d + 4) mod 7).

(** Month of the proleptic Gregorian calendar, counted from March inside
    a 400-year era and shifted back to January = 0. *)
Definition utcMonth (d : Date) : nat :=
  let z := dayNumber d + 719468 in
  let doe := z mod 146097 in
  let yoe := (doe - doe / 1460 + doe / 36524 - doe / 146096) / 365 in
  let doy := doe - (365 * yoe + yoe / 4 - yoe / 100) in
  let mp := (5 * doy + 2) / 153 in
  Z.to_nat ((mp + 2) mod 12).

(** The square root of a non-negative rational, truncated to 52 binary
    digits after the point of the scaled numerator. *)
Definition sqrtTrunc (q : Q) : Q :=
  let d := Z.pos (Qden q) in
  Qred (Qmake (Z.sqrt (Qnum q * d * 2 ^ 104)) (Pos.mul (Qden q) (2 ^ 52))).

(** The host whose clock reads [today] at the start of the day. *)
Definition host (today : Date) : Platform :=
  {| getDay := utcDay;
     getMonth := utcMonth;
     startOfToday := today;
     sqrtQ := sqrtTrunc |}.

(** Midnight UTC of a day given by its day number. *)
Definition midnight (day : Z) : Date := day * msPerDay.

End UTC.

(* ================================================================== *)
(** * The vocabulary of the claims and the sample inputs *)
(* ================================================================== *)

Module PriceClaims.

Import PriceOptimization.
Import String.
Local Open Scope string_scope.
Local Open Scope num_scope.

(** An observation with an integer price and quantity. *)
Definition obs (p q : Z) : SalesData :=
  {| price := JS.of_Z p; quantity := JS.of_Z q; timestamp := 0%Z |}.

(** The campaign length the optimiser works with is an integer. *)
Definition campaignLength (period : option CampaignPeriod) : Z :=
  match period with
  | None => 1
  | Some p => differenceInDays (endDate p) (startDate p) + 1
  end.




End PriceClaims.

Module ForecastClaims.

Import Forecast.
Local Open Scope num_scope.

(** An observation at midnight UTC of day number [day]. *)
Definition at_day (day s o : Z) : Metrics :=
  {| timestamp := UTC.midnight day; sales := JS.of_Z s; orders := JS.of_Z o |}.

(** Every value of the field is zero. *)
Definition allZero (field : Metrics -> num) (hist : list Metrics) : Prop :=
  Forall (fun d => field d =n= lit 0) hist.

(** Position [i] of the output holds the input value or its moving
    average; both arrays end at the same position. *)
Definition repairedAt (lowerBound upperBound : num) (data out : list num)
           (i : nat) : Prop :=
  match nth_error data i, nth_error out i with
  | Some v, Some w =>
      w = v \/ w = movingAverage lowerBound upperBound data v i
  | None, None => True
  | _, _ => False
  end.

Section Days.
Context `{Platform}.
Variable dates : list Date.

(** The values of [data] that fall on day [i], the first value having
    index [k]. *)
Definition onDayValues (i k : nat) (data : list num) : list num :=
  Arr.filteri_from k (fun _ index => onDay dates i index) data.

(** The mean of an array, summed from zero. *)
Definition mean (l : list num) : num := sum0 l / JS.of_nat (length l).

(** The factor of day [i] in the words of the specification: the average
    of the values falling on that day of the week divided by the overall
    average, and 1 for a day without values. *)
Definition dayFactor (data : list num) (i : nat) : num :=
  match onDayValues i 0 data with
  | [] => lit 1
  | vals => mean vals / mean data
  end.

End Days.

(** Seven days without a sale. *)
Definition noSales : list Metrics :=
  map (fun i => at_day (19723 + Z.of_nat i) 0 3) (seq 0 7).

(** Six observations. *)
Definition sixDays : list Metrics :=
  map (fun i => at_day (19723 + Z.of_nat i) 100 10) (seq 0 6).

(** Seven days of sales falling by 10 a day, forecast from the eighth. *)
Definition decliningSales : list Metrics :=
  map (fun i => at_day (19723 + i) (70 - 10 * i) (7 - i))
      [0; 1; 2; 3; 4; 5; 6]%Z.

(** Six days without a sale and a seventh with 5. *)
Definition lateSale : list Metrics :=
  map (fun i => at_day (19723 + i) (if (i =? 6)%Z then 5 else 0) (7 + i))
      [0; 1; 2; 3; 4; 5; 6]%Z.

End ForecastClaims.

(** [0 <= confidence <= 100], as JavaScript compares them. *)
Definition confidenceInRange (c : num) : bool :=
  (lit 0 <=? c) && (c <=? lit 100).

(* ================================================================== *)
(** * pages/PricingTools.tsx: the page that calls the optimiser *)
(* ================================================================== *)

Module PricingTools.

Import PriceOptimization.
Import String.
Local Open Scope string_scope.
Local Open Scope num_scope.

(** A row of the product table.  The fields [id], [name], [size] and
    [color] are copied unchanged by every handler and are left out; the
    fields [result], [loading] and [error] carry the prefix [product_]. *)
Record ProductOptimization : Type := {
  item_id : string;
  cost : num;
  selected : bool;
  product_result : option OptimizationResult;
  product_loading : option bool;
  product_error : option string
}.

(** The [metrics] object of a row of [platform_metrics], reduced to the
    fields the page reads.  A missing id is [None]; a [price] or a
    [quantity] is a number, a missing one being modelled as [NaN], which
    [||] treats as it treats [undefined]. *)
Record MetricFields : Type := {
  product_id : option string;
  metric_item_id : option string;
  metric_price : num;
  metric_quantity : num
}.

(** A row of [platform_metrics].  Its [metrics] is [None] when the column
    holds no object: reading a field of it throws. *)
Record PlatformMetric : Type := {
  metrics : option MetricFields;
  metric_timestamp : Date
}.

(** [{ ...product, selected: b }]. *)
Definition withSelected (product : ProductOptimization) (b : bool)
  : ProductOptimization :=
  {| item_id := item_id product; cost := cost product; selected := b;
     product_result := product_result product;
     product_loading := product_loading product;
     product_error := product_error product |}.

(** The handlers set two pieces of state, [selectAll] and [products];
    each returns the pair of the new values. *)
Definition toggleSelectAll (selectAll : bool)
           (products : list ProductOptimization)
  : bool * list ProductOptimization :=
  let newSelectAll := negb selectAll in
  (newSelectAll,
   map (fun product => withSelected product newSelectAll) products).

Definition toggleProductSelection (itemId : string)
           (products : list ProductOptimization)
  : bool * list ProductOptimization :=
  (forallb (fun p => if String.eqb (item_id p) itemId
                     then negb (selected p) else selected p) products,
   map (fun product =>
          if String.eqb (item_id product) itemId
          then withSelected product (negb (selected product))
          else product)
       products).

(** The two date fields of the form as [parseISO] reads them: [None] is
    the Invalid Date of a field that holds no date, as a cleared field
    does. *)
Record ParsedPeriod : Type := {
  parsedStart : option Date;
  parsedEnd : option Date
}.

(** A period whose two fields hold dates. *)
Definition parsed (campaignPeriod : CampaignPeriod) : ParsedPeriod :=
  {| parsedStart := Some (startDate campaignPeriod);
     parsedEnd := Some (endDate campaignPeriod) |}.

(** [isBefore(a, b)] of date-fns compares the two times, and a comparison
    with the time of an Invalid Date is false. *)
Definition isBefore (a b : option Date) : bool :=
  match a, b with
  | Some x, Some y => (x <? y)%Z
  | _, _ => false
  end.

(** [today] is [new Date()], the time of the call. *)
Definition validateCampaignPeriod (campaignPeriod : ParsedPeriod)
           (today : Date) : option string :=
  let start := parsedStart campaignPeriod in
  let end_ := parsedEnd campaignPeriod in
  if isBefore start (Some today) then
    Some "Campaign start date must be in the future"
  else if isBefore end_ start then
    Some "Campaign end date must be after start date"
  else None.

(** [err.message] of an exception of the optimiser. *)
Definition message (e : error) : string :=
  match e with
  | TypeError => "Reduce of empty array with no initial value"
  end.

(** [field === itemId], for a field that may be missing. *)
Definition matches (field : option string) (itemId : string) : bool :=
  match field with
  | Some s => String.eqb s itemId
  | None => false
  end.

(** [metricsData.filter(...)]: the fields and the timestamp of the rows
    of a product, or [None] when a row without [metrics] makes the test
    throw. *)
Fixpoint rowsOf (itemId : string) (metricsData : list PlatformMetric)
  : option (list (MetricFields * Date)) :=
  match metricsData with
  | [] => Some []
  | metric :: rest =>
      match metrics metric with
      | None => None
      | Some fields =>
          match rowsOf itemId rest with
          | None => None
          | Some rows =>
              Some (if matches (product_id fields) itemId
                       || matches (metric_item_id fields) itemId
                    then (fields, metric_timestamp metric) :: rows
                    else rows)
          end
      end
  end.

Definition salesDataOf (metricsData : list PlatformMetric)
           (product : ProductOptimization) : option (list SalesData) :=
  option_map
    (map (fun row =>
            {| price := JS.or_else (metric_price (fst row)) (lit 0);
               quantity := JS.or_else (metric_quantity (fst row)) (lit 0);
               timestamp := snd row |}))
    (rowsOf (item_id product) metricsData).

(** [salesData[salesData.length - 1].price]. *)
Definition lastPrice (salesData : list SalesData) : num :=
  Arr.get (map price salesData) (List.length salesData - 1).

(** What the query of [platform_metrics] gives: the rows ([null] read as
    no row), or an error with its message, which may be missing. *)
Inductive FetchResult : Type :=
| Fetched (metricsData : option (list PlatformMetric))
| FetchFailed (errorMessage : option string).

(** The state the handler leaves: [products], [loading] and [error]. *)
Record PageState : Type := {
  state_products : list ProductOptimization;
  state_loading : bool;
  state_error : option string
}.

(** [message || fallback]. *)
Definition orDefault (text : option string) (fallback : string) : string :=
  match text with
  | Some s => if String.eqb s EmptyString then fallback else s
  | None => fallback
  end.

(** [metricsData || []]. *)
Definition orNoRows (metricsData : option (list PlatformMetric))
  : list PlatformMetric :=
  match metricsData with
  | Some rows => rows
  | None => []
  end.

(** [{ ...product, loading: product.selected, error: undefined,
    result: undefined }]. *)
Definition resetProduct (product : ProductOptimization)
  : ProductOptimization :=
  {| item_id := item_id product; cost := cost product;
     selected := selected product;
     product_result := None;
     product_loading := Some (selected product);
     product_error := None |}.

Section Page.
Context `{Platform} `{Regression}.

(** The message of the [TypeError] that the engine raises when a field
    of a missing [metrics] object is read. *)
Variable missingMetricsMessage : string.

(** The function that [handleOptimize] maps over [products], the state
    as it was when the handler started; its [try] catches what the
    filter and the optimiser throw. *)
Definition optimizeProduct (metricsData : list PlatformMetric)
           (optimizationGoal : Goal) (discountMin discountMax : num)
           (campaignPeriod : CampaignPeriod) (product : ProductOptimization)
  : ProductOptimization :=
  if negb (selected product) then product else
  match salesDataOf metricsData product with
  | None =>
      {| item_id := item_id product; cost := cost product;
         selected := selected product;
         product_result := product_result product;
         product_loading := Some false;
         product_error := Some missingMetricsMessage |}
  | Some salesData =>
      if (List.length salesData =? 0)%nat then
        {| item_id := item_id product; cost := cost product;
           selected := selected product;
           product_result := product_result product;
           product_loading := Some false;
           product_error := Some "No historical sales data available" |}
      else
      let currentPrice := lastPrice salesData in
      match optimizePrice currentPrice (cost product) salesData
              optimizationGoal discountMin discountMax
              (Some campaignPeriod) with
      | Ok r =>
          {| item_id := item_id product; cost := cost product;
             selected := selected product;
             product_result := Some r;
             product_loading := Some false;
             product_error := product_error product |}
      | Throw err =>
          {| item_id := item_id product; cost := cost product;
             selected := selected product;
             product_result := product_result product;
             product_loading := Some false;
             product_error := Some (message err) |}
      end
  end.

(** [handleOptimize], for a campaign period whose two fields hold dates:
    the state it leaves, from the products and the period of the render
    it was created in, the time of the call and the outcome of the
    query.  An exception of the body ends in the outer [catch], which
    sets the error of the page; [finally] clears [loading]. *)
Definition handleOptimize (today : Date) (campaignPeriod : CampaignPeriod)
           (optimizationGoal : Goal) (discountMin discountMax : num)
           (products : list ProductOptimization) (fetch : FetchResult)
  : PageState :=
  let caught (text : option string) (shown : list ProductOptimization) :=
    {| state_products := shown;
       state_loading := false;
       state_error := Some (orDefault text "Failed to optimize prices") |} in
  match validateCampaignPeriod (parsed campaignPeriod) today with
  | Some periodError => caught (Some periodError) products
  | None =>
      if (List.length (filter selected products) =? 0)%nat then
        caught (Some "Please select at least one product to optimize")
               products
      else
      match fetch with
      | FetchFailed errorMessage =>
          caught errorMessage (map resetProduct products)
      | Fetched metricsData =>
          {| state_products :=
               map (optimizeProduct (orNoRows metricsData) optimizationGoal
                      discountMin discountMax campaignPeriod)
                   products;
             state_loading := false;
             state_error := None |}
      end
  end.

End Page.

End PricingTools.

(* ================================================================== *)
(** * pages/Dashboard.tsx: the page that calls the forecaster *)
(* ================================================================== *)

Module Dashboard.

Import Forecast.
Local Open Scope num_scope.

(** [isAfter(a, b)] of date-fns. *)
Definition isAfter (a b : Date) : bool := (b <? a)%Z.

Section Page.
Context `{Platform} `{Regression}.

(** The end of [fetchMetrics]: the rows aggregated by date are sorted by
    time, the rows after today are dropped, and the rest is forecast. *)
Definition historicalData (aggregated : list Metrics) : list Metrics :=
  filter (fun item => negb (isAfter (timestamp item) startOfToday))
         (Arr.sort byTimestamp aggregated).

Definition forecastOfHistory (aggregated : list Metrics)
           (forecastRange : ForecastRange) : result Forecast :=
  generateSalesForecast (historicalData aggregated) forecastRange.

End Page.

End Dashboard.

(* ================================================================== *)
(** * The vocabulary of the further properties *)
(* ================================================================== *)

Module Ranges.

Local Open Scope num_scope.

Definition finite (a : num) : Prop := exists q, a = Fin q.

(** A finite value between two rationals. *)
Definition within (lo hi : Q) (a : num) : Prop :=
  exists q, a = Fin q /\ (lo <= q)%Q /\ (q <= hi)%Q.

Definition nanOrWithin (lo hi : Q) (a : num) : Prop :=
  a = NaN \/ within lo hi a.

(** [Math.max(0, x)] leaves a value that is [NaN] or at least 0. *)
Definition floored (a : num) : Prop := a = NaN \/ (a >=? lit 0) = true.

(** The values [Math.sqrt] can return: [NaN], [+Infinity], or a finite
    value that is not negative. *)
Definition rootLike (a : num) : Prop :=
  a = NaN \/ a = PInf \/ exists q, a = Fin q /\ (0 <= q)%Q.

(** A value that is [NaN] or a zero. *)
Definition zeroOrNaN (a : num) : Prop :=
  a = NaN \/ exists z, a = Fin z /\ (z == 0)%Q.

End Ranges.

Module ForecastTerms.

Import Forecast.
Local Open Scope num_scope.

(** The order of the history sort. *)
Definition earlier (a b : Metrics) : Prop := (timestamp a <= timestamp b)%Z.

(** Every value of the field is 0 or [NaN]: the values that [v || 0]
    turns into 0. *)
Definition noValue (field : Metrics -> num) (hist : list Metrics) : bool :=
  forallb (fun d => negb (JS.truthy (field d))) hist.

(** [lowerBound <= v <= upperBound], as the filter of the window tests
    it. *)
Definition insideFences (lowerBound upperBound v : num) : bool :=
  (v >=? lowerBound) && (v <=? upperBound).

(** The value of a finite number, the total of an array of finite
    numbers, and the sum of a list of rationals. *)
Definition valueOf (a : num) : Q :=
  match a with
  | Fin q => q
  | _ => 0
  end.

Definition totalOf (l : list num) : Q :=
  fold_right (fun v s => valueOf v + s)%Q 0%Q l.

Definition qsum (l : list Q) : Q := fold_right Qplus 0%Q l.

(** The sales of seven days and their dates. *)
Definition weekValues : list num := map sales ForecastClaims.decliningSales.
Definition weekDates : list Date :=
  map timestamp ForecastClaims.decliningSales.

(** A week of values around 11 with one spike. *)
Definition spiked : list num :=
  map JS.of_Z [10; 12; 11; 13; 1000; 12; 11; 10]%Z.

(** Flat seasonality: every factor is 1. *)
Definition flat : Seasonality :=
  {| daily := repeat (lit 1) 7;
     weekly := repeat (lit 1) 7;
     monthly := repeat (lit 1) 12 |}.

(** Three days of history and the two series observed on them. *)
Definition threeDays : list num := map JS.of_Z [0; 1; 2]%Z.
Definition risingSales : list num := map JS.of_Z [10; 20; 30]%Z.
Definition risingOrders : list num := map JS.of_Z [1; 2; 3]%Z.

(** The forecast of the day after the three days. *)
Definition nextDay : result ForecastResult :=
  @forecastDay (UTC.host (UTC.midnight 3)) OLS 0%Z threeDays risingSales
    risingOrders (regress threeDays risingSales)
    (regress threeDays risingOrders) flat flat 0.

Definition nextDayPoint : ForecastResult :=
  Eval vm_compute in
    match nextDay with
    | Ok p => p
    | Throw _ =>
        {| fr_timestamp := 0%Z; fr_sales := NaN; fr_orders := NaN;
           salesLower := NaN; salesUpper := NaN; ordersLower := NaN;
           ordersUpper := NaN; isForecast := false |}
    end.

End ForecastTerms.

Module PriceTerms.

Import PriceOptimization PriceClaims.
Local Open Scope num_scope.

Section Search.
Context `{Regression}.
Variables (regression : model) (cost : num) (goal : Goal)
          (campaignDays : num) (seasonalityFactors : list num)
          (timePressureFactor avgDailyQuantity : num).

(** The quantities the loop of [optimizePrice] works out for a candidate
    price, and the value of its objective. *)
Definition totalQuantityAt (price : num) : num :=
  campaignQuantity seasonalityFactors
    (JS.Math_max (lit 0) (JS.Math_round (predict regression price))).

Definition dailyQuantityAt (price : num) : num :=
  JS.Math_round (totalQuantityAt price / campaignDays).

Definition objective (price : num) : num :=
  let totalQuantity := totalQuantityAt price in
  let dailyQuantity := dailyQuantityAt price in
  match goal with
  | profit => (price - cost) * totalQuantity
  | sales => price * totalQuantity
  | inventory =>
      ((dailyQuantity / avgDailyQuantity) * lit 0.6 * timePressureFactor
       + ((price - cost) / price) * lit 0.4) * totalQuantity
  end.

End Search.

Section Campaign.
Context `{Platform} `{Regression}.

(** The seasonality factors of the campaign days, and the time pressure
    of the campaign. *)
Definition campaignFactors (period : option CampaignPeriod) : list num :=
  match period with
  | None => [lit 1]
  | Some p =>
      map (fun i =>
             calculateSeasonalityFactor (addDays (startDate p) (Z.of_nat i)))
          (seq 0 (Z.to_nat (campaignLength period)))
  end.

Definition campaignPressure (period : option CampaignPeriod) : num :=
  match period with
  | None => lit 1
  | Some _ => calculateTimePressureFactor (JS.of_Z (campaignLength period))
  end.

(** The values of the loop variables before the first candidate. *)
Definition startingPoint (currentPrice : num) : Best :=
  {| bestPrice := currentPrice; maxObjectiveValue := lit 0;
     optimalDailyQuantity := lit 0; optimalTotalQuantity := lit 0 |}.

Definition fitted (salesData : list SalesData) : model :=
  SimpleLinearRegression (map price salesData) (map quantity salesData).

Definition averageQuantity (salesData : list SalesData) : num :=
  sum0 (map quantity salesData)
  / JS.of_nat (List.length (map quantity salesData)).

(** The candidate prices of a discount range. *)
Definition grid (currentPrice minDiscount maxDiscount : num) : list num :=
  pricePoints (currentPrice * (lit 1 - maxDiscount / lit 100))
              (currentPrice * (lit 1 - minDiscount / lit 100)).

(** The loop variables of [optimizePrice] when the search ends. *)
Definition searched (currentPrice cost : num) (salesData : list SalesData)
           (goal : Goal) (minDiscount maxDiscount : num)
           (period : option CampaignPeriod) : Best :=
  fold_left
    (tryPrice (fitted salesData) cost goal (JS.of_Z (campaignLength period))
       (campaignFactors period) (campaignPressure period)
       (averageQuantity salesData))
    (grid currentPrice minDiscount maxDiscount)
    (startingPoint currentPrice).

End Campaign.

(** A campaign window that ends five days before it starts. *)
Definition reversedWindow : CampaignPeriod :=
  {| startDate := UTC.midnight 19740; endDate := UTC.midnight 19735 |}.

End PriceTerms.

(* ================================================================== *)
(** * Facts about JavaScript numbers *)
(* ================================================================== *)

Module JSFacts.

Lemma same_refl a : a =n= a.
Proof. destruct a; simpl; auto. reflexivity. Qed.

Lemma same_sym a b : a =n= b -> b =n= a.
Proof. destruct a, b; simpl; auto. intros E; now rewrite E. Qed.

Lemma same_trans a b c : a =n= b -> b =n= c -> a =n= c.
Proof.
  destruct a, b, c; simpl; auto; try contradiction.
  intros E1 E2. now rewrite E1.
Qed.

Lemma qeq_zero_comp p q : p == q -> Qeq_bool p 0 = Qeq_bool q 0.
Proof.
  intros E. destruct (Qeq_bool q 0) eqn:Hq.
  - apply Qeq_bool_iff. apply Qeq_bool_iff in Hq. now rewrite E.
  - destruct (Qeq_bool p 0) eqn:Hp; auto.
    apply Qeq_bool_iff in Hp. rewrite E in Hp.
    apply Qeq_bool_iff in Hp. congruence.
Qed.

Lemma add_proper a a' b b' :
  a =n= a' -> b =n= b' -> a + b =n= a' + b'.
Proof.
  destruct a, a', b, b'; cbn [JS.add JS.same JS.fin]; auto; try contradiction.
  intros E1 E2. rewrite !Qred_correct. now rewrite E1, E2.
Qed.

Lemma fin_proper p q : p == q -> JS.fin p =n= JS.fin q.
Proof. intros E. cbn [JS.fin JS.same]. now rewrite !Qred_correct. Qed.

Lemma div_proper a a' b b' :
  a =n= a' -> b =n= b' -> a / b =n= a' / b'.
Proof.
  destruct a as [p| | |], a' as [p'| | |], b as [q| | |], b' as [q'| | |];
    cbn [JS.div JS.same]; auto; try contradiction; intros E1 E2;
    try reflexivity.
  - rewrite (qeq_zero_comp E2).
    destruct (Qeq_bool q' 0) eqn:Hz.
    + rewrite E1. destruct (p' ?= 0); cbn [JS.same]; auto.
    + apply fin_proper. apply Qeq_bool_neq in Hz. now rewrite E1, E2.
  - rewrite E2. destruct (q' ?= 0); cbn [JS.same]; auto.
  - rewrite E2. destruct (q' ?= 0); cbn [JS.same]; auto.
Qed.

Lemma add_zero_l a : lit 0 + a =n= a.
Proof.
  destruct a; cbn [JS.add JS.same JS.fin lit]; auto.
  rewrite Qred_correct. ring.
Qed.

Lemma fold_add_proper l a a' :
  a =n= a' -> fold_left JS.add l a =n= fold_left JS.add l a'.
Proof.
  revert a a'. induction l as [|v l IH]; simpl; intros a a' E; auto.
  apply IH. apply add_proper; auto using same_refl.
Qed.

Lemma Qfloor_unique z q :
  inject_Z z <= q -> q < inject_Z (z + 1) -> Qfloor q = z.
Proof.
  intros Hlo Hhi.
  pose proof (Qfloor_le q) as Hf. pose proof (Qlt_floor q) as Hc.
  assert (H1 : inject_Z (Qfloor q) < inject_Z (z + 1))
    by (eapply Qle_lt_trans; eauto).
  assert (H2 : inject_Z z < inject_Z (Qfloor q + 1))
    by (eapply Qle_lt_trans; eauto).
  rewrite <- Zlt_Qlt in H1, H2. lia.
Qed.

Lemma Qfloor_half z : Qfloor (inject_Z z + 0.5) = z.
Proof.
  apply Qfloor_unique.
  - rewrite <- (Qplus_0_r (inject_Z z)) at 1.
    apply Qplus_le_r. discriminate.
  - rewrite inject_Z_plus. apply Qplus_lt_r. reflexivity.
Qed.

(** [Math.round] leaves an integer as it is. *)
Lemma round_of_Z z : JS.Math_round (JS.of_Z z) = JS.of_Z z.
Proof. unfold JS.Math_round, JS.of_Z. now rewrite Qfloor_half. Qed.

Lemma round_idem a : JS.Math_round (JS.Math_round a) = JS.Math_round a.
Proof. destruct a; cbn [JS.Math_round]; auto. apply round_of_Z. Qed.

(** The product of a rounded value and an integer is an integer or a
    special value, so rounding it again changes nothing. *)
Lemma round_mul_integer a d :
  JS.Math_round (JS.Math_round a * JS.of_Z d)
  =n= JS.Math_round a * JS.of_Z d.
Proof.
  destruct a as [p| | |];
    cbn [JS.Math_round JS.mul JS.of_Z JS.fin JS.same]; auto.
  - set (m := Qfloor (p + 0.5)).
    assert (E : Qred (inject_Z m * inject_Z d) == inject_Z (m * d)).
    { rewrite Qred_correct, inject_Z_mult. reflexivity. }
    replace (Qfloor (Qred (inject_Z m * inject_Z d) + 0.5)) with (m * d)%Z.
    + now rewrite E.
    + symmetry. erewrite Qfloor_comp; [apply Qfloor_half|].
      rewrite E. reflexivity.
  - unfold JS.scale_inf. destruct (inject_Z d ?= 0); simpl; auto.
  - unfold JS.scale_inf. destruct (inject_Z d ?= 0); simpl; auto.
Qed.

End JSFacts.

(* ================================================================== *)
(** * The price optimiser *)
(* ================================================================== *)

Module PriceProofs.

Import PriceOptimization PriceClaims JSFacts.
Import String.
Local Open Scope string_scope.
Local Open Scope num_scope.

Section Optimiser.
Context `{Platform} `{Regression}.

Lemma optimizePrice_nonempty currentPrice cost d ds goal minDiscount
      maxDiscount period :
  exists r,
    optimizePrice currentPrice cost (d :: ds) goal minDiscount maxDiscount
      period = Ok r
    /\ campaignDays r = JS.of_Z (campaignLength period)
    /\ (exists a, dailyRevenue r = JS.Math_round a
          /\ expectedRevenue r
             = JS.Math_round (JS.Math_round a * campaignDays r))
    /\ (exists b, dailyProfit r = JS.Math_round b
          /\ expectedProfit r
             = JS.Math_round (JS.Math_round b * campaignDays r)).
Proof.
  unfold optimizePrice. cbn [map Arr.reduce1 bind].
  destruct period as [p|]; cbn [campaignLength];
    (eexists; split; [reflexivity|]; cbn;
     split; [reflexivity|]; split; eexists;
     (split; [apply round_idem | reflexivity])).
Qed.


Lemma optimizePrice_empty currentPrice cost goal minDiscount maxDiscount
      period :
  optimizePrice currentPrice cost [] goal minDiscount maxDiscount period
  = Throw TypeError.
Proof. reflexivity. Qed.



(** C9.  With an empty history [optimizePrice] does not return a result:
    the mean quantity reduces an empty array without an initial value and
    the call ends in a [TypeError].  With any non-empty history it does
    return, so a non-empty history is exactly its precondition. *)
Theorem optimizePrice_empty_history_throws currentPrice cost goal
        minDiscount maxDiscount period :
  optimizePrice currentPrice cost [] goal minDiscount maxDiscount period
  = Throw TypeError
  /\ forall d ds, exists r,
       optimizePrice currentPrice cost (d :: ds) goal minDiscount maxDiscount
         period = Ok r.
Proof.
  split; [apply optimizePrice_empty|].
  intros d ds.
  destruct (optimizePrice_nonempty currentPrice cost d ds goal minDiscount
              maxDiscount period) as (r & Hr & _).
  eauto.
Qed.

(** C10.  Whenever [optimizePrice] returns, which it does for every
    non-empty history, the totals are the rounded daily figures times the
    campaign length: [expectedRevenue = dailyRevenue * campaignDays] and
    [expectedProfit = dailyProfit * campaignDays], the daily figures
    being values of [Math.round]. *)
Theorem optimizePrice_totals_from_rounded_daily currentPrice cost salesData
        goal minDiscount maxDiscount period :
  match optimizePrice currentPrice cost salesData goal minDiscount
          maxDiscount period with
  | Ok r =>
      expectedRevenue r =n= dailyRevenue r * campaignDays r
      /\ expectedProfit r =n= dailyProfit r * campaignDays r
      /\ JS.Math_round (dailyRevenue r) = dailyRevenue r
      /\ JS.Math_round (dailyProfit r) = dailyProfit r
  | Throw _ => salesData = []
  end.
Proof.
  destruct salesData as [|d ds]; [reflexivity|].
  destruct (optimizePrice_nonempty currentPrice cost d ds goal minDiscount
              maxDiscount period)
    as (r & -> & Hdays & (a & Ha & Hrev) & (b & Hb & Hprof)).
  rewrite Hrev, Hprof, Ha, Hb, Hdays.
  repeat split; auto using round_mul_integer, round_idem.
Qed.

End Optimiser.

(** ** The candidate grid *)


(** The totals are not the rounded true campaign totals: at 929 a unit
    and 107 units over 8 days the campaign brings in 99403, the daily
    figure is 12425 and the reported total 99400. *)
Example totals_differ_from_true_total :
  match @optimizePrice (UTC.host 0%Z) OLS (lit 1000) (lit 600)
          [obs 1000 10; obs 900 14; obs 800 17; obs 700 22] profit
          (lit 0) (lit 50)
          (Some {| startDate := UTC.midnight 19723;
                   endDate := UTC.midnight 19730 |}) with
  | Ok r =>
      (optimalPrice r, eq_total (expectedQuantity r), campaignDays r,
       dailyRevenue r, expectedRevenue r)
      = (lit 929, lit 107, lit 8, lit 12425, lit 99400)
  | Throw _ => False
  end.
Proof. vm_compute. reflexivity. Qed.

(** C2.  With fewer than two observations [calculatePriceElasticity]
    returns -1, not 1: the value differs from 1, and the interpretation
    the optimiser attaches to it is "Inelastic", although the guard is
    commented "Default elastic demand" and every other path returns a
    magnitude through [Math.abs]. *)
Theorem calculatePriceElasticity_default_is_minus_one (d : SalesData) :
  calculatePriceElasticity [] = lit (-1)
  /\ calculatePriceElasticity [d] = lit (-1)
  /\ (lit (-1) === lit 1) = false
  /\ interpretElasticity (calculatePriceElasticity [d])
     = "Inelastic - Demand is not very sensitive to price changes".
Proof. repeat split. Qed.

(** ** The discount range *)




End PriceProofs.

(* ================================================================== *)
(** * The forecaster *)
(* ================================================================== *)

Module ForecastProofs.

Import Forecast ForecastClaims JSFacts.
Local Open Scope num_scope.

(** ** Arrays *)

Lemma length_mapi_from {A B} (f : A -> nat -> B) l k :
  length (Arr.mapi_from k f l) = length l.
Proof.
  revert k. induction l as [|a l IH]; intros k; simpl; auto.
Qed.

Lemma nth_error_mapi_from {A B} (f : A -> nat -> B) l k i :
  nth_error (Arr.mapi_from k f l) i
  = option_map (fun a => f a (k + i)%nat) (nth_error l i).
Proof.
  revert k i. induction l as [|a l IH]; intros k [|i]; simpl; auto.
  - now rewrite Nat.add_0_r.
  - rewrite IH. now rewrite Nat.add_succ_r.
Qed.

Lemma insert_Forall {A} (P : A -> Prop) cmp a l :
  P a -> Forall P l -> Forall P (Arr.insert cmp a l).
Proof.
  intros Ha Hl. induction Hl as [|b l Hb Hl IH]; cbn [Arr.insert].
  - repeat constructor; auto.
  - destruct (cmp a b >? lit 0); repeat constructor; auto.
Qed.

Lemma sort_Forall {A} (P : A -> Prop) cmp l :
  Forall P l -> Forall P (Arr.sort cmp l).
Proof.
  induction 1 as [|a l Ha Hl IH]; simpl; auto using insert_Forall.
Qed.

Section Guards.
Context `{Platform} `{Regression}.

(** ** The guards of [generateSalesForecast] *)

Lemma short_history_confidence n :
  (0 < n < 7)%nat ->
  JS.Math_min (lit 50) (JS.of_nat n * lit 7)
  =n= JS.of_Z (Z.min 50 (7 * Z.of_nat n)).
Proof.
  intros Hn.
  assert (C : (n = 1 \/ n = 2 \/ n = 3 \/ n = 4 \/ n = 5 \/ n = 6)%nat) by lia.
  destruct C as [->|[->|[->|[->|[->| ->]]]]]; vm_compute; reflexivity.
Qed.

(** C6.  A non-empty history of fewer than 7 observations gives an empty
    forecast whose confidence is [min(50, 7 n)]; with 6 observations that
    is 42. *)
Theorem forecast_minimum_data_guard hist range :
  hist <> [] -> (length hist < 7)%nat ->
  exists c,
    generateSalesForecast hist range
    = Ok {| forecastData := []; confidence := c |}
    /\ c =n= JS.of_Z (Z.min 50 (7 * Z.of_nat (length hist))).
Proof.
  intros Hne Hlen.
  exists (JS.Math_min (lit 50) (JS.of_nat (length hist) * lit 7)).
  split.
  - unfold generateSalesForecast.
    destruct hist as [|d hist]; [congruence|].
    cbn [length Nat.eqb].
    apply Nat.ltb_lt in Hlen. cbn [length] in Hlen. now rewrite Hlen.
  - apply short_history_confidence.
    destruct hist; [congruence|]. cbn [length] in *. lia.
Qed.

Lemma allZero_raw field hist :
  allZero field hist ->
  forallb (fun v => v === lit 0)
          (map (fun d => JS.or_else (field d) (lit 0))
               (Arr.sort byTimestamp hist)) = true.
Proof.
  intros Hz. apply forallb_forall. intros v Hv.
  apply in_map_iff in Hv. destruct Hv as (d & <- & Hd).
  assert (Hs : allZero field (Arr.sort byTimestamp hist))
    by (apply sort_Forall; exact Hz).
  unfold allZero in Hs. rewrite Forall_forall in Hs. specialize (Hs d Hd).
  destruct (field d) as [q| | |]; cbn [JS.same lit] in Hs; try contradiction.
  unfold JS.or_else, JS.truthy.
  apply Qeq_bool_iff in Hs. rewrite Hs. reflexivity.
Qed.

(** C4, amended.  With at least 7 observations, a history whose sales are
    all zero, or whose orders are all zero, gives an empty forecast with
    confidence exactly 0. *)
Theorem forecast_zero_series_guard hist range :
  (7 <= length hist)%nat ->
  allZero sales hist \/ allZero orders hist ->
  generateSalesForecast hist range
  = Ok {| forecastData := []; confidence := lit 0 |}.
Proof.
  intros Hlen Hz. unfold generateSalesForecast.
  assert (E0 : (length hist =? 0)%nat = false) by (apply Nat.eqb_neq; lia).
  assert (E7 : (length hist <? 7)%nat = false) by (apply Nat.ltb_ge; lia).
  rewrite E0, E7.
  destruct Hz as [Hz|Hz].
  - now rewrite (allZero_raw Hz).
  - rewrite (allZero_raw Hz). now rewrite orb_true_r.
Qed.

End Guards.

Lemma forecast_zero_series_guard_witness :
  @generateSalesForecast (UTC.host (UTC.midnight 19730)) OLS noSales R1month
  = Ok {| forecastData := []; confidence := lit 0 |}.
Proof.
  apply forecast_zero_series_guard.
  - vm_compute. lia.
  - left. unfold allZero, noSales. simpl. repeat constructor.
Defined.

(** C4, as stated, fails: one observation without a sale is a non-empty
    history with all sales zero, and its confidence is 7, not 0. *)
Lemma zero_series_short_history_confidence :
  match @generateSalesForecast (UTC.host (UTC.midnight 19730)) OLS
          [at_day 19729 0 3] R1month with
  | Ok f =>
      forecastData f = []
      /\ confidence f = lit 7
      /\ (confidence f === lit 0) = false
  | Throw _ => False
  end.
Proof. vm_compute. repeat split. Qed.

Lemma forecast_minimum_data_guard_witness :
  exists c,
    @generateSalesForecast (UTC.host (UTC.midnight 19730)) OLS sixDays R1month
    = Ok {| forecastData := []; confidence := c |}
    /\ c =n= lit 42.
Proof.
  apply (@forecast_minimum_data_guard (UTC.host (UTC.midnight 19730)) OLS
           sixDays R1month).
  - discriminate.
  - vm_compute. lia.
Defined.

(** ** Seasonality: the daily and the weekly factors *)

Lemma length_update {A} k (f : A -> A) l :
  length (Arr.update k f l) = length l.
Proof.
  revert k. induction l as [|a l IH]; intros [|k]; simpl; auto.
Qed.

Lemma nth_update {A} k (f : A -> A) l i d :
  nth i (Arr.update k f l) d
  = if ((k =? i) && (i <? length l))%nat then f (nth i l d) else nth i l d.
Proof.
  revert k i. induction l as [|a l IH]; intros k i.
  - destruct k, i; simpl; try reflexivity; now rewrite andb_false_r.
  - destruct k as [|k], i as [|i]; simpl; auto.
Qed.

Lemma Forall2_pointwise {A B} (R : A -> B -> Prop) l1 l2 :
  length l1 = length l2 ->
  (forall i a b, nth_error l1 i = Some a -> nth_error l2 i = Some b -> R a b) ->
  Forall2 R l1 l2.
Proof.
  revert l2. induction l1 as [|a l1 IH]; intros [|b l2] Hlen Hp;
    try discriminate; constructor.
  - apply (Hp 0%nat); reflexivity.
  - apply IH; [simpl in Hlen; lia|].
    intros i. apply (Hp (S i)).
Qed.

Section Seasonality.
Context `{Platform}.
Variable dates : list Date.

Lemma accumulate_step b v k i :
  let b1 := accumulate dates b v k in
  (i < length (dailyPatterns b))%nat ->
  (i < length (dailyCounts b))%nat ->
  nth i (dailyPatterns b1) NaN
  = (if onDay dates i k then nth i (dailyPatterns b) NaN + v
     else nth i (dailyPatterns b) NaN)
  /\ nth i (dailyCounts b1) 0%nat
     = (if onDay dates i k then S (nth i (dailyCounts b) 0)
        else nth i (dailyCounts b) 0)%nat
  /\ length (dailyPatterns b1) = length (dailyPatterns b)
  /\ length (dailyCounts b1) = length (dailyCounts b).
Proof.
  cbn zeta. intros Hp Hc. unfold accumulate, onDay.
  destruct (nth_error dates k) as [date|]; [|auto].
  cbn [dailyPatterns dailyCounts].
  rewrite !length_update, !nth_update.
  apply Nat.ltb_lt in Hp, Hc. rewrite Hp, Hc, !andb_true_r.
  destruct (getDay date =? i)%nat; auto.
Qed.

Lemma buckets_daily data : forall k b i,
  let b' := Arr.reducei_from k (accumulate dates) data b in
  (i < length (dailyPatterns b))%nat ->
  (i < length (dailyCounts b))%nat ->
  nth i (dailyPatterns b') NaN
  = fold_left JS.add (onDayValues dates i k data) (nth i (dailyPatterns b) NaN)
  /\ nth i (dailyCounts b') 0%nat
     = (nth i (dailyCounts b) 0 + length (onDayValues dates i k data))%nat
  /\ length (dailyPatterns b') = length (dailyPatterns b).
Proof.
  induction data as [|v data IH]; intros k b i; cbn zeta.
  - intros _ _. cbn. auto.
  - intros Hp Hc. cbn [Arr.reducei_from].
    unfold onDayValues. cbn [Arr.filteri_from].
    fold (onDayValues dates i (S k) data).
    destruct (@accumulate_step b v k i Hp Hc) as (S1 & S2 & S3 & S4).
    specialize (IH (S k) (accumulate dates b v k) i). cbn zeta in IH.
    rewrite S3, S4 in IH. destruct (IH Hp Hc) as (E1 & E2 & E3). clear IH.
    rewrite E1, E2, E3, S1, S2.
    destruct (onDay dates i k); cbn [fold_left length]; repeat split; lia.
Qed.

Lemma reduce_from_first v l : fold_left JS.add l v =n= sum0 (v :: l).
Proof.
  unfold sum0. cbn [fold_left].
  apply fold_add_proper, same_sym, add_zero_l.
Qed.

Lemma calculateSeasonality_factors v data :
  exists s,
    calculateSeasonality (v :: data) dates = Ok s
    /\ length (daily s) = 7%nat /\ length (weekly s) = 7%nat
    /\ forall i, (i < 7)%nat ->
         exists a b,
           nth_error (daily s) i = Some a /\ nth_error (weekly s) i = Some b
           /\ a =n= dayFactor dates (v :: data) i
           /\ b =n= dayFactor dates (v :: data) i.
Proof.
  unfold calculateSeasonality. cbn [Arr.reduce1 bind].
  eexists. split; [reflexivity|]. cbn [daily weekly].
  set (b0 := {| dailyPatterns := repeat (lit 0) 7;
                dailyCounts := repeat 0%nat 7;
                monthlyPatterns := repeat (lit 0) 12;
                monthlyCounts := repeat 0%nat 12 |}).
  set (avg := fold_left JS.add data v / JS.of_nat (length (v :: data))).
  assert (Havg : avg =n= mean (v :: data)).
  { apply div_proper; [apply reduce_from_first | apply same_refl]. }
  unfold Arr.mapi, Arr.reducei. rewrite !length_mapi_from.
  set (b' := Arr.reducei_from 0 (accumulate dates) (v :: data) b0).
  assert (B : forall i, (i < 7)%nat ->
    nth i (dailyPatterns b') NaN
    = fold_left JS.add (onDayValues dates i 0 (v :: data)) (lit 0)
    /\ nth i (dailyCounts b') 0%nat
       = length (onDayValues dates i 0 (v :: data))
    /\ length (dailyPatterns b') = 7%nat).
  { intros i Hi.
    destruct (@buckets_daily (v :: data) 0 b0 i) as (E1 & E2 & E3);
      try (cbn; lia).
    fold b' in E1, E2, E3.
    rewrite E1, E2, E3. cbn [b0 dailyPatterns dailyCounts].
    do 7 (destruct i as [|i]; [cbn [nth repeat]; auto|]). lia. }
  split; [apply (B 0%nat); lia|]. split; [reflexivity|].
  intros i Hi. destruct (B i Hi) as (E1 & E2 & L).
  rewrite !nth_error_mapi_from. cbn [Nat.add].
  rewrite (nth_error_nth' (dailyPatterns b') NaN) by lia.
  rewrite (nth_error_nth' (repeat (lit 1) 7) (lit 1))
    by (rewrite repeat_length; exact Hi).
  cbn [option_map]. eexists. eexists.
  split; [reflexivity|]. split; [reflexivity|].
  rewrite E1, E2. unfold Arr.filteri, dayFactor.
  fold (onDayValues dates i 0 (v :: data)).
  destruct (onDayValues dates i 0 (v :: data)) as [|w ws]; cbn [length].
  - split; apply same_refl.
  - split.
    + apply div_proper; [apply same_refl | exact Havg].
    + apply div_proper; [|exact Havg].
      apply div_proper; [apply reduce_from_first | apply same_refl].
Qed.

Lemma Forall2_from_entries {A B} (R : A -> B -> Prop) l1 l2 n :
  length l1 = n -> length l2 = n ->
  (forall i, (i < n)%nat ->
     exists a b, nth_error l1 i = Some a /\ nth_error l2 i = Some b /\ R a b) ->
  Forall2 R l1 l2.
Proof.
  intros L1 L2 Hp. apply Forall2_pointwise; [congruence|].
  intros i a b Ha Hb.
  assert (Hi : (i < n)%nat).
  { rewrite <- L1. apply nth_error_Some. congruence. }
  destruct (Hp i Hi) as (a' & b' & Ha' & Hb' & HR). congruence.
Qed.

(** C7.  For every series and date list the seasonality analysis either
    returns, and then the daily and the weekly arrays both have 7 entries
    and hold the same value at every day of the week, the average of the
    values falling on that day divided by the overall average (1 for a day
    without values), or it throws, which happens only for the empty
    series. *)
Theorem daily_and_weekly_factors_agree data :
  match calculateSeasonality data dates with
  | Ok s =>
      length (daily s) = 7%nat /\ length (weekly s) = 7%nat
      /\ Forall2 JS.same (daily s) (weekly s)
      /\ Forall2 JS.same (weekly s) (map (dayFactor dates data) (seq 0 7))
  | Throw _ => data = []
  end.
Proof.
  destruct data as [|v data]; [reflexivity|].
  destruct (@calculateSeasonality_factors v data) as (s & -> & Ld & Lw & Hp).
  split; [exact Ld|]. split; [exact Lw|]. split.
  - apply Forall2_from_entries with (n := 7%nat); auto.
    intros i Hi. destruct (Hp i Hi) as (a & b & Ha & Hb & Ea & Eb).
    exists a, b. repeat split; auto.
    eapply same_trans; [exact Ea | apply same_sym, Eb].
  - apply Forall2_from_entries with (n := 7%nat); auto.
    intros i Hi. destruct (Hp i Hi) as (a & b & Ha & Hb & Ea & Eb).
    exists b, (dayFactor dates (v :: data) i). repeat split; auto.
    rewrite nth_error_map, (nth_error_nth' (seq 0 7) 0%nat)
      by (rewrite length_seq; exact Hi).
    rewrite seq_nth by exact Hi. reflexivity.
Qed.
End Seasonality.

(** ** The outlier filter *)

(** C8.  The outlier filter returns an array of the length of its input,
    position by position the input value or its local-window replacement,
    and returns an input of fewer than 4 values unchanged. *)
Theorem handleOutliers_keeps_length_and_order data :
  length (handleOutliers data) = length data
  /\ ((length data < 4)%nat -> handleOutliers data = data)
  /\ forall i,
       repairedAt (fst (fences data)) (snd (fences data)) data
         (handleOutliers data) i.
Proof.
  unfold handleOutliers. split; [|split].
  - destruct (length data <? 4)%nat; [reflexivity|].
    destruct (fences data). apply length_mapi_from.
  - intros Hlt. apply Nat.ltb_lt in Hlt. now rewrite Hlt.
  - intros i. unfold repairedAt.
    destruct (length data <? 4)%nat.
    + destruct (nth_error data i); auto.
    + destruct (fences data) as [lo hi]. cbn [fst snd].
      unfold Arr.mapi. rewrite nth_error_mapi_from. cbn [Nat.add].
      destruct (nth_error data i) as [v|]; cbn [option_map]; [|exact I].
      destruct ((v <? lo) || (v >? hi)); auto.
Qed.

Lemma handleOutliers_keeps_length_and_order_witness :
  handleOutliers [lit 3; lit 900; lit 4] = [lit 3; lit 900; lit 4].
Proof.
  apply (proj1 (proj2 (handleOutliers_keeps_length_and_order
                         [lit 3; lit 900; lit 4]))).
  vm_compute. lia.
Defined.

(** The filter at work: among nine days around 10 units the spike of 500
    is replaced by the mean of its six in-fence neighbours, in place. *)
Example handleOutliers_replaces_spike :
  handleOutliers
    (map JS.of_Z [10; 12; 11; 9; 500; 10; 13; 11; 12]%Z)
  = map lit [10; 12; 11; 9; 11; 10; 13; 11; 12]%Q.
Proof. vm_compute. reflexivity. Qed.

(** ** The clamps of the forecaster *)

(** [Math.max(0, x)] is [NaN] or at least 0. *)
Lemma floor_at_zero x :
  JS.Math_max (lit 0) x = NaN \/ (JS.Math_max (lit 0) x >=? lit 0) = true.
Proof.
  destruct x as [q| | |]; [|right; reflexivity..|left; reflexivity].
  right. unfold JS.Math_max, lit. unfold JS.ltb at 1.
  destruct (0 ?= q)%Q eqn:C0; try reflexivity.
  unfold JS.geb, JS.leb. apply Qle_bool_iff, Qlt_le_weak. exact C0.
Qed.

(** [Math.min(100, Math.max(0, x))] is [NaN] or inside [0, 100]. *)
Lemma clamp_in_range x :
  let c := JS.Math_min (lit 100) (JS.Math_max (lit 0) x) in
  c = NaN \/ confidenceInRange c = true.
Proof.
  cbn zeta. destruct x as [q| | |]; [|right; reflexivity..|left; reflexivity].
  right. unfold JS.Math_max, lit.
  unfold JS.ltb at 1.
  destruct (0 ?= q)%Q eqn:C0; try reflexivity.
  unfold JS.Math_min, JS.ltb.
  destruct (q ?= 100)%Q eqn:C1; try reflexivity.
  unfold confidenceInRange, JS.leb, lit.
  apply andb_true_intro. split; apply Qle_bool_iff.
  - apply Qlt_le_weak. exact C0.
  - apply Qlt_le_weak. exact C1.
Qed.

Section Clamps.
Context `{Platform} `{Regression}.

(** The predictions and the lower bounds of a forecast point are floored
    at 0; the upper bounds are not. *)
Lemma forecastDay_floors firstDate x ySales yOrders sr or ss os i p :
  forecastDay firstDate x ySales yOrders sr or ss os i = Ok p ->
  (fr_sales p = NaN \/ (fr_sales p >=? lit 0) = true)
  /\ (fr_orders p = NaN \/ (fr_orders p >=? lit 0) = true)
  /\ (salesLower p = NaN \/ (salesLower p >=? lit 0) = true)
  /\ (ordersLower p = NaN \/ (ordersLower p >=? lit 0) = true).
Proof.
  unfold forecastDay.
  destruct (calculateConfidenceIntervals sr _ _ _) as [si|]; [|discriminate].
  cbn [bind].
  destruct (calculateConfidenceIntervals or _ _ _) as [oi|]; [|discriminate].
  cbn [bind]. intros [= <-].
  cbn [fr_sales fr_orders salesLower ordersLower].
  repeat split; apply floor_at_zero.
Qed.

(** Whatever the history, the confidence of a forecast is inside
    [0, 100] unless it is [NaN]. *)
Lemma forecast_confidence_clamped hist range f :
  generateSalesForecast hist range = Ok f ->
  Forecast.confidence f = NaN
  \/ confidenceInRange (Forecast.confidence f) = true.
Proof.
  unfold generateSalesForecast.
  destruct (length hist =? 0)%nat eqn:E0.
  { intros [= <-]. right. reflexivity. }
  destruct (length hist <? 7)%nat eqn:E7.
  { intros [= <-]. right. cbn [Forecast.confidence].
    apply Nat.eqb_neq in E0. apply Nat.ltb_lt in E7.
    remember (length hist) as n.
    assert (C : (n = 1 \/ n = 2 \/ n = 3 \/ n = 4 \/ n = 5 \/ n = 6)%nat) by lia.
    clear Heqn.
    destruct C as [->|[->|[->|[->|[->| ->]]]]]; vm_compute; reflexivity. }
  match goal with |- context [if ?c then _ else _] => destruct c end.
  { intros [= <-]. right. reflexivity. }
  destruct (calculateSeasonality _ _) as [ss|]; [|discriminate].
  cbn [bind].
  destruct (calculateSeasonality _ _) as [os|]; [|discriminate].
  cbn [bind].
  destruct (forEachDay _ _) as [fc|]; [|discriminate].
  cbn [bind]. intros [= <-]. cbn [Forecast.confidence].
  apply clamp_in_range.
Qed.

End Clamps.

(** ** The forecast points *)

(** C5.  The code breaks the claimed bounds.  On a falling trend the
    upper bounds are not floored at 0 like the predictions and the lower
    bounds: the second forecast day has [sales = 0] and
    [salesUpper = -15].  And when the cleaned series is all zero the
    seasonal factors are [0 / 0], so every sales field is [NaN]. *)
Theorem forecast_upper_bound_below_prediction :
  match @generateSalesForecast (UTC.host (UTC.midnight 19730)) OLS
          decliningSales R7d with
  | Ok f =>
      match nth_error (forecastData f) 1 with
      | Some p =>
          fr_sales p = lit 0 /\ salesLower p = lit 0
          /\ salesUpper p = lit (-15)
          /\ (fr_sales p <=? salesUpper p) = false
          /\ (salesUpper p >=? lit 0) = false
          /\ ordersUpper p = lit (-1)
      | None => False
      end
  | Throw _ => False
  end
  /\ match @generateSalesForecast (UTC.host (UTC.midnight 19730)) OLS
            lateSale R7d with
     | Ok f =>
         match nth_error (forecastData f) 0 with
         | Some p =>
             fr_sales p = NaN /\ salesLower p = NaN /\ salesUpper p = NaN
         | None => False
         end
     | Throw _ => False
     end.
Proof. vm_compute. repeat split. Qed.

End ForecastProofs.

(* ================================================================== *)
(** * The confidence of both engines *)
(* ================================================================== *)

(** C1.  The confidence leaves [0, 100] in both engines.  The optimiser
    divides by a total sum of squares of 0 when every quantity is the
    same (the forecaster guards that division), and reports [NaN].  The
    forecaster's final clamp lets [NaN] through: when the outlier filter
    leaves an all-zero sales series the seasonality score is [NaN]. *)
Theorem confidence_not_a_number :
  match @PriceOptimization.optimizePrice (UTC.host 0%Z) OLS (lit 100)
          (lit 50) [PriceClaims.obs 10 5; PriceClaims.obs 20 5]
          PriceOptimization.profit (lit 0) (lit 50) None with
  | Ok r =>
      PriceOptimization.confidence r = NaN
      /\ confidenceInRange (PriceOptimization.confidence r) = false
  | Throw _ => False
  end
  /\ match @Forecast.generateSalesForecast (UTC.host (UTC.midnight 19730))
            OLS ForecastClaims.lateSale Forecast.R7d with
     | Ok f =>
         Forecast.confidence f = NaN
         /\ confidenceInRange (Forecast.confidence f) = false
     | Throw _ => False
     end.
Proof. vm_compute. repeat split. Qed.

(* ================================================================== *)
(** * The UTC host is a calendar *)
(* ================================================================== *)

Module UTCFacts.

Lemma utcDay_lt d : (UTC.utcDay d < 7)%nat.
Proof.
  unfold UTC.utcDay.
  pose proof (Z.mod_pos_bound (UTC.dayNumber d + 4) 7 ltac:(lia)). lia.
Qed.

Lemma utcMonth_lt d : (UTC.utcMonth d < 12)%nat.
Proof.
  unfold UTC.utcMonth. cbv zeta.
  match goal with
  | |- (Z.to_nat (?m mod 12) < 12)%nat =>
      pose proof (Z.mod_pos_bound m 12 ltac:(lia))
  end.
  lia.
Qed.

(** 1 January 2024 was a Monday, 29 February 2024 a Thursday. *)
Example utc_calendar_2024 :
  (UTC.utcDay (UTC.midnight 19723), UTC.utcMonth (UTC.midnight 19723))
  = (1%nat, 0%nat)
  /\ (UTC.utcDay (UTC.midnight 19782), UTC.utcMonth (UTC.midnight 19782))
     = (4%nat, 1%nat).
Proof. split; reflexivity. Qed.

End UTCFacts.

(* ================================================================== *)
(** * Arrays and numbers: further facts *)
(* ================================================================== *)

Module ArrFacts.

Lemma insert_perm {A} (cmp : A -> A -> num) a l :
  Permutation (Arr.insert cmp a l) (a :: l).
Proof.
  induction l as [|b l IH]; cbn [Arr.insert]; [reflexivity|].
  destruct (cmp a b >? lit 0); [|reflexivity].
  rewrite IH. apply perm_swap.
Qed.

Lemma sort_perm {A} (cmp : A -> A -> num) l :
  Permutation (Arr.sort cmp l) l.
Proof.
  induction l as [|a l IH]; cbn [Arr.sort fold_right]; [reflexivity|].
  fold (Arr.sort cmp l). rewrite insert_perm. now constructor.
Qed.

(** The comparator of the history sort is positive exactly when the
    first record is the later one. *)
Lemma Qcompare_inject_Z a b : (inject_Z a ?= inject_Z b)%Q = (a ?= b)%Z.
Proof. unfold Qcompare. cbn [Qnum Qden inject_Z]. now rewrite !Z.mul_1_r. Qed.

Lemma insert_length {A} (cmp : A -> A -> num) a l :
  length (Arr.insert cmp a l) = S (length l).
Proof.
  induction l as [|b l IH]; cbn [Arr.insert length]; auto.
  destruct (cmp a b >? lit 0); cbn [length]; auto.
Qed.

Lemma sort_length {A} (cmp : A -> A -> num) l :
  length (Arr.sort cmp l) = length l.
Proof.
  induction l as [|a l IH]; simpl; auto.
  rewrite insert_length. auto.
Qed.

Lemma forallb_perm {A} (f : A -> bool) l l' :
  Permutation l l' -> forallb f l = forallb f l'.
Proof.
  induction 1; cbn [forallb]; try congruence.
  - now rewrite !andb_assoc, (andb_comm (f y)).
Qed.

Lemma forallb_mapped {A B} (f : B -> bool) (g : A -> B) l :
  forallb f (map g l) = forallb (fun x => f (g x)) l.
Proof. induction l; cbn [map forallb]; congruence. Qed.

Lemma forallb_pointwise {A} (f g : A -> bool) l :
  (forall x, f x = g x) -> forallb f l = forallb g l.
Proof. intros E. induction l; cbn [forallb]; congruence. Qed.

Lemma firstn_incl {A} n (l : list A) x : In x (firstn n l) -> In x l.
Proof.
  revert l. induction n as [|n IH]; intros [|a l] I; cbn in *;
    try contradiction.
  destruct I as [E|I]; auto.
Qed.

Lemma skipn_incl {A} n (l : list A) x : In x (skipn n l) -> In x l.
Proof.
  revert l. induction n as [|n IH]; intros [|a l] I; cbn in *; auto.
Qed.

Lemma slice_In {A} (l : list A) a b x : In x (Arr.slice a b l) -> In x l.
Proof.
  unfold Arr.slice. intros I. apply firstn_incl in I.
  now apply skipn_incl in I.
Qed.

Lemma Forall2_map_eq {A B C} (g : A -> C) (h : B -> C) l1 l2 :
  Forall2 (fun a b => h b = g a) l1 l2 -> map h l2 = map g l1.
Proof. induction 1; cbn [map]; congruence. Qed.

Lemma Forall2_right {A B} (P : B -> Prop) (l1 : list A) l2 :
  Forall2 (fun _ b => P b) l1 l2 -> Forall P l2.
Proof. induction 1; constructor; auto. Qed.

Lemma Forall2_diag {A} (R : A -> A -> Prop) l :
  (forall x, R x x) -> Forall2 R l l.
Proof. intros HR. induction l; constructor; auto. Qed.

Lemma filter_all {A} (f : A -> bool) l :
  Forall (fun x => f x = true) l -> filter f l = l.
Proof.
  induction 1 as [|x l Hx Hl IH]; cbn [filter]; [reflexivity|].
  now rewrite Hx, IH.
Qed.

End ArrFacts.

Module NumFacts.

Import Ranges JSFacts ArrFacts.

Lemma ltb_trans a b c : (a <? b) = true -> (b <? c) = true -> (a <? c) = true.
Proof.
  destruct a as [p| | |], b as [q| | |], c as [r| | |]; cbn [JS.ltb];
    try discriminate; auto.
  destruct (p ?= q)%Q eqn:C1; try discriminate.
  destruct (q ?= r)%Q eqn:C2; try discriminate.
  intros _ _. apply Qlt_alt in C1, C2.
  destruct (Qcompare_spec p r) as [E|L|G]; auto; lra.
Qed.

Lemma ltb_irrefl a : (a <? a) = false.
Proof.
  destruct a as [p| | |]; cbn [JS.ltb]; auto.
  destruct (Qcompare_spec p p) as [E|L|G]; auto; lra.
Qed.

(** Raising the maximum keeps every value it already dominated below it. *)
Lemma not_gtb_raise a m m' :
  (a >? m) = false -> (m' >? m) = true -> (a >? m') = false.
Proof.
  unfold JS.gtb. intros N R.
  destruct (m' <? a) eqn:C; [|reflexivity].
  rewrite (@ltb_trans _ _ _ R C) in N. discriminate.
Qed.

Lemma ltb_asym a b : (a <? b) = true -> (b <? a) = false.
Proof.
  intros L. destruct (b <? a) eqn:C; [|reflexivity].
  pose proof (@ltb_trans _ _ _ L C) as T. rewrite ltb_irrefl in T.
  discriminate.
Qed.

Lemma leb_not_gtb a b : (a <=? b) = true -> (a >? b) = false.
Proof.
  destruct a as [p| | |], b as [q| | |]; cbn; try discriminate; auto.
  intros L. apply Qle_bool_iff in L. apply Qle_alt in L.
  destruct (q ?= p)%Q eqn:E; auto.
  exfalso. apply L. apply Qgt_alt. apply Qlt_alt. exact E.
Qed.

Lemma inject_nat_nonneg n : (0 <= inject_Z (Z.of_nat n))%Q.
Proof. change 0%Q with (inject_Z 0). rewrite <- Zle_Qle. lia. Qed.

Lemma inject_nat_le n m :
  (n <= m)%nat -> (inject_Z (Z.of_nat n) <= inject_Z (Z.of_nat m))%Q.
Proof. intros L. rewrite <- Zle_Qle. lia. Qed.

Lemma max_within lo hi (c : Q) a :
  within lo hi a -> (lo <= c)%Q -> (c <= hi)%Q ->
  within c hi (JS.Math_max (Fin c) a).
Proof.
  intros (q & -> & L & U) Lc Uc. unfold JS.Math_max, JS.ltb.
  destruct (c ?= q)%Q eqn:C.
  - exists c. split; [reflexivity|]. split; lra.
  - exists q. split; [reflexivity|]. apply Qlt_alt in C. split; lra.
  - exists c. split; [reflexivity|]. split; lra.
Qed.

Lemma nanOrWithin_weaken lo hi lo' hi' a :
  nanOrWithin lo hi a -> (lo' <= lo)%Q -> (hi <= hi')%Q ->
  nanOrWithin lo' hi' a.
Proof.
  intros [->|(q & -> & L & U)] Hl Hu; [now left|].
  right. exists q. split; [reflexivity|]. split; lra.
Qed.

Lemma mul_nanOrWithin b1 b2 x y :
  nanOrWithin 0 b1 x -> nanOrWithin 0 b2 y ->
  nanOrWithin 0 (b1 * b2) (x * y).
Proof.
  intros [->|(p & -> & P0 & P1)]; [now left|].
  intros [->|(q & -> & Q0 & Q1)]; [now left|].
  right. eexists. split; [reflexivity|]. rewrite Qred_correct. split; nra.
Qed.

Lemma mean_of_two a b :
  nanOrWithin 0 100 a -> nanOrWithin 0 100 b ->
  nanOrWithin 0 100 ((a + b) / lit 2).
Proof.
  intros [->|(p & -> & P0 & P1)]; [now left|].
  intros [->|(q & -> & Q0 & Q1)]; [now left|].
  right. unfold lit. cbn [JS.add JS.fin JS.div].
  change (Qeq_bool 2 0) with false. cbv iota.
  eexists. split; [reflexivity|]. rewrite !Qred_correct.
  split.
  - apply Qle_shift_div_l; lra.
  - apply Qle_shift_div_r; lra.
Qed.

(** [Math.min(1, n / 60)]. *)
Lemma dataQuality_range n :
  within 0 (inject_Z (Z.of_nat n) / 60)
         (JS.Math_min (lit 1) (JS.of_nat n / lit 60)).
Proof.
  unfold lit, JS.of_nat, JS.of_Z. cbn [JS.div].
  change (Qeq_bool 60 0) with false. cbv iota.
  unfold JS.fin, JS.Math_min, JS.ltb.
  pose proof (inject_nat_nonneg n) as N.
  set (k := inject_Z (Z.of_nat n)) in *.
  assert (D : (0 <= k / 60)%Q) by (apply Qle_shift_div_l; lra).
  destruct (Qred (k / 60) ?= 1)%Q eqn:C.
  - apply Qeq_alt in C. rewrite Qred_correct in C.
    exists 1%Q. split; [reflexivity|]. split; lra.
  - apply Qlt_alt in C. rewrite Qred_correct in C.
    eexists. split; [reflexivity|]. rewrite Qred_correct. split; lra.
  - apply Qgt_alt in C. rewrite Qred_correct in C.
    exists 1%Q. split; [reflexivity|]. split; lra.
Qed.

Lemma round_nanOrWithin b x :
  nanOrWithin 0 b x -> nanOrWithin 0 (b + 0.5) (JS.Math_round x).
Proof.
  intros [->|(q & -> & Q0 & Q1)]; [now left|].
  right. cbn [JS.Math_round]. unfold JS.of_Z.
  eexists. split; [reflexivity|].
  pose proof (Qfloor_le (q + 0.5)) as U.
  assert (L : (0 <= Qfloor (q + 0.5))%Z).
  { change 0%Z with (Qfloor (inject_Z 0)). apply Qfloor_resp_le.
    change (inject_Z 0) with 0%Q. lra. }
  rewrite Zle_Qle in L. change (inject_Z 0) with 0%Q in L. split; lra.
Qed.

Lemma clamp_nanOrWithin b x :
  nanOrWithin 0 b x ->
  nanOrWithin 0 b (JS.Math_min (lit 100) (JS.Math_max (lit 0) x)).
Proof.
  intros [->|(q & -> & Q0 & Q1)]; [now left|].
  right. unfold lit, JS.Math_max. unfold JS.ltb at 1.
  destruct (0 ?= q)%Q eqn:C0.
  - apply Qeq_alt in C0. exists 0%Q. split; [reflexivity|]. split; lra.
  - unfold JS.Math_min, JS.ltb.
    destruct (q ?= 100)%Q eqn:C1.
    + exists 100%Q. split; [reflexivity|]. apply Qeq_alt in C1. split; lra.
    + exists q. split; [reflexivity|]. split; lra.
    + exists 100%Q. split; [reflexivity|]. apply Qgt_alt in C1. split; lra.
  - exists 0%Q. split; [reflexivity|]. split; lra.
Qed.

Lemma sub_finite a b : finite a -> finite b -> finite (a - b).
Proof. intros (p & ->) (q & ->). eexists. reflexivity. Qed.

Lemma add_finite a b : finite a -> finite b -> finite (a + b).
Proof. intros (p & ->) (q & ->). eexists. reflexivity. Qed.

Lemma mul_finite a b : finite a -> finite b -> finite (a * b).
Proof. intros (p & ->) (q & ->). eexists. reflexivity. Qed.

Lemma or_zero_is_zero a : (JS.or_else a (lit 0) === lit 0) = negb (JS.truthy a).
Proof.
  unfold JS.or_else. destruct (JS.truthy a) eqn:T; [|reflexivity].
  destruct a as [q| | |]; cbn in *; try discriminate; try reflexivity.
  unfold lit. cbn. now apply negb_true_iff in T.
Qed.

Lemma mul_rootLike a b : rootLike a -> rootLike b -> rootLike (a * b).
Proof.
  intros [->|[->|(p & -> & P)]] [->|[->|(q & -> & Q)]]; cbn [JS.mul];
    try (now left); try (right; now left).
  - unfold JS.scale_inf. destruct (q ?= 0)%Q eqn:C; [now left|..].
    + apply Qlt_alt in C. lra.
    + right; now left.
  - unfold JS.scale_inf. destruct (p ?= 0)%Q eqn:C; [now left|..].
    + apply Qlt_alt in C. lra.
    + right; now left.
  - right; right. eexists. split; [reflexivity|]. rewrite Qred_correct. nra.
Qed.

Lemma leb_refl_fin q : (Fin q <=? Fin q) = true.
Proof. apply Qle_bool_iff. lra. Qed.

Lemma floor_mono_half p q :
  (p <= q)%Q -> (Qfloor (p + 0.5) <= Qfloor (q + 0.5))%Z.
Proof. intros L. apply Qfloor_resp_le. lra. Qed.

Lemma floor_half_nonneg p : (0 <= p)%Q -> (0 <= Qfloor (p + 0.5))%Z.
Proof.
  intros P. change 0%Z with (Qfloor (inject_Z 0)). apply Qfloor_resp_le.
  change (inject_Z 0) with 0%Q. lra.
Qed.

(** [Math.max(0, Math.round(x))] of a finite [x >= 0] is the rounded
    value. *)
Lemma floor_round_nonneg p :
  (0 <= p)%Q ->
  exists z, JS.Math_max (lit 0) (JS.Math_round (Fin p)) = JS.of_Z z
            /\ z = Qfloor (p + 0.5) /\ (0 <= z)%Z.
Proof.
  intros P. pose proof (floor_half_nonneg P) as Z.
  cbn [JS.Math_round]. unfold JS.Math_max, JS.of_Z, lit, JS.ltb.
  change 0%Q with (inject_Z 0). rewrite Qcompare_inject_Z.
  destruct (0 ?= Qfloor (p + 0.5))%Z eqn:C.
  - apply Z.compare_eq in C. exists 0%Z. rewrite <- C. auto with zarith.
  - eexists. split; [reflexivity|]. split; auto.
  - apply Z.compare_gt_iff in C. lia.
Qed.

(** The band of one forecast point around a prediction [p >= 0] scaled by
    a factor [f >= 0], for an error term as [Math.sqrt] produces it. *)
Lemma band_brackets p f e :
  (0 <= p)%Q -> (0 <= f)%Q -> rootLike e ->
  let lowerCI := JS.Math_max (lit 0) (Fin p - e) in
  let upperCI := Fin p + e in
  let L := JS.Math_max (lit 0) (JS.Math_round (lowerCI * Fin f)) in
  let S := JS.Math_max (lit 0) (JS.Math_round (Fin p * Fin f)) in
  let U := JS.Math_round (upperCI * Fin f) in
  L = NaN \/ U = NaN \/ ((L <=? S) && (S <=? U) = true).
Proof.
  intros P F E. cbn zeta.
  assert (PF : (0 <= p * f)%Q) by nra.
  destruct (@floor_round_nonneg (Qred (p * f))) as (zs & ES & Hzs & Zs).
  { rewrite Qred_correct. exact PF. }
  change (Fin p * Fin f) with (Fin (Qred (p * f))). rewrite ES.
  destruct E as [->|[->|(eps & -> & Eps)]].
  - left. reflexivity.
  - cbn [JS.sub JS.neg JS.add]. right.
    change (JS.Math_max (lit 0) NInf) with (lit 0).
    cbn [JS.mul]. unfold JS.scale_inf.
    destruct (f ?= 0)%Q eqn:C; [now left| |].
    { apply Qlt_alt in C. lra. }
    right. cbn [JS.Math_round].
    destruct (@floor_round_nonneg (Qred (0 * f))) as (zl & EL & Hzl & Zl).
    { rewrite Qred_correct. lra. }
    change (lit 0 * Fin f) with (Fin (Qred (0 * f))). rewrite EL.
    apply andb_true_intro. split; [|reflexivity].
    unfold JS.leb, JS.of_Z. apply Qle_bool_iff. rewrite <- Zle_Qle.
    subst zl zs. apply floor_mono_half. rewrite !Qred_correct. lra.
  - right; right.
    change (Fin p - Fin eps) with (Fin (Qred (p + - eps))).
    change (Fin p + Fin eps) with (Fin (Qred (p + eps))).
    assert (EL : exists l, JS.Math_max (lit 0) (Fin (Qred (p + - eps))) = Fin l
                           /\ (0 <= l)%Q /\ (l <= p)%Q).
    { unfold JS.Math_max, lit, JS.ltb.
      destruct (0 ?= Qred (p + - eps))%Q eqn:C.
      - exists 0%Q. split; [reflexivity|]. split; lra.
      - apply Qlt_alt in C. rewrite Qred_correct in C.
        eexists. split; [reflexivity|]. rewrite Qred_correct. split; lra.
      - exists 0%Q. split; [reflexivity|]. split; lra. }
    destruct EL as (l & -> & L0 & L1).
    destruct (@floor_round_nonneg (Qred (l * f))) as (zl & EzL & Hzl & Zl).
    { rewrite Qred_correct. nra. }
    change (Fin l * Fin f) with (Fin (Qred (l * f))). rewrite EzL.
    change (Fin (Qred (p + eps)) * Fin f)
      with (Fin (Qred (Qred (p + eps) * f))).
    cbn [JS.Math_round].
    apply andb_true_intro. split.
    + unfold JS.leb, JS.of_Z. apply Qle_bool_iff. rewrite <- Zle_Qle.
      subst zl zs. apply floor_mono_half. rewrite !Qred_correct. nra.
    + unfold JS.leb, JS.of_Z. apply Qle_bool_iff. rewrite <- Zle_Qle.
      subst zs. apply floor_mono_half. rewrite !Qred_correct. nra.
Qed.

Lemma relative_change_of_equals a b :
  a =n= b -> zeroOrNaN ((b - a) / a).
Proof.
  destruct a as [p| | |], b as [q| | |]; cbn [JS.same]; try contradiction;
    intros E; try (left; reflexivity).
  change (Fin q - Fin p) with (Fin (Qred (q + - p))). cbn [JS.div].
  assert (Z : (Qred (q + - p) == 0)%Q) by (rewrite Qred_correct; lra).
  destruct (Qeq_bool p 0) eqn:C.
  - left. rewrite Z. reflexivity.
  - right. eexists. split; [reflexivity|].
    rewrite Qred_correct, Z. apply Qeq_bool_neq in C. field. exact C.
Qed.

Lemma ratio_of_zeros a b : zeroOrNaN a -> zeroOrNaN b -> a / b = NaN.
Proof.
  intros [->|(x & -> & X)] [->|(y & -> & Y)]; try reflexivity.
  cbn [JS.div]. apply Qeq_bool_iff in Y. rewrite Y. now rewrite X.
Qed.

Lemma same_eqb a b : a =n= b -> a <> NaN -> (a === b) = true.
Proof.
  destruct a, b; cbn; try contradiction; try congruence; auto.
  intros E _. now apply Qeq_bool_iff.
Qed.

Lemma round_over_one a :
  JS.Math_round (JS.Math_round a / JS.of_Z 1) = JS.Math_round a.
Proof.
  destruct a as [q| | |]; cbn [JS.Math_round JS.of_Z JS.div]; auto.
  change (Qeq_bool (inject_Z 1) 0) with false. cbn [JS.fin JS.Math_round].
  unfold JS.of_Z. f_equal. f_equal.
  erewrite Qfloor_comp; [apply Qfloor_half|].
  rewrite Qred_correct. apply Qplus_comp; [|reflexivity]. field.
Qed.

Lemma round_times_one a :
  JS.Math_round (JS.Math_round a * JS.of_Z 1) = JS.Math_round a.
Proof.
  destruct a as [q| | |]; cbn [JS.Math_round JS.of_Z JS.mul]; auto.
  cbn [JS.fin JS.Math_round]. unfold JS.of_Z. f_equal. f_equal.
  erewrite Qfloor_comp; [apply Qfloor_half|].
  rewrite Qred_correct. apply Qplus_comp; [|reflexivity]. ring.
Qed.

Lemma times_zero_not_positive a : (a * JS.of_Z 0 >? lit 0) = false.
Proof.
  destruct a as [q| | |]; try reflexivity.
  cbn [JS.mul JS.of_Z JS.fin JS.gtb JS.ltb lit].
  destruct (Qcompare_spec 0 (Qred (q * inject_Z 0))) as [E|L|G]; auto.
  rewrite Qred_correct in L. exfalso.
  assert (q * inject_Z 0 == 0) by ring. lra.
Qed.

Lemma fold_add_between l : forall acc (lo hi : Q),
  Forall (fun v => exists q, v = Fin q /\ (lo <= q)%Q /\ (q <= hi)%Q) l ->
  exists s, fold_left JS.add l (Fin acc) = Fin s
            /\ (acc + inject_Z (Z.of_nat (length l)) * lo <= s)%Q
            /\ (s <= acc + inject_Z (Z.of_nat (length l)) * hi)%Q.
Proof.
  induction l as [|v l IH]; intros acc lo hi F.
  - exists acc. cbn [fold_left length].
    change (inject_Z (Z.of_nat 0)) with 0%Q.
    split; [reflexivity|]. split; lra.
  - inversion F as [|? ? (q & -> & Hlo & Hhi) F']; subst.
    change (fold_left JS.add (Fin q :: l) (Fin acc))
      with (fold_left JS.add l (Fin (Qred (acc + q)))).
    destruct (IH (Qred (acc + q)) lo hi F') as (s & -> & S1 & S2).
    exists s. split; [reflexivity|].
    rewrite Qred_correct in S1, S2.
    cbn [length]. rewrite Nat2Z.inj_succ. unfold Z.succ.
    rewrite inject_Z_plus. change (inject_Z 1) with 1%Q.
    split; nra.
Qed.

(** The square root of the UTC host is never negative. *)
Lemma sqrtTrunc_nonneg q : (0 <= UTC.sqrtTrunc q)%Q.
Proof.
  unfold UTC.sqrtTrunc. cbv zeta. rewrite Qred_correct.
  unfold Qle. cbn [Qnum Qden]. rewrite Z.mul_0_l, Z.mul_1_r.
  apply Z.sqrt_nonneg.
Qed.

End NumFacts.

(* ================================================================== *)
(** * The forecast: further properties *)
(* ================================================================== *)

Module ForecastProperties.

Import Forecast ForecastClaims ForecastTerms Ranges.
Import JSFacts ForecastProofs ArrFacts NumFacts.

Lemma byTimestamp_gt a b :
  (byTimestamp a b >? lit 0) = (timestamp b <? timestamp a)%Z.
Proof.
  unfold byTimestamp, JS.gtb, JS.ltb, lit, JS.of_Z.
  change 0%Q with (inject_Z 0). rewrite Qcompare_inject_Z.
  unfold Z.ltb.
  rewrite (Z.compare_antisym (timestamp a - timestamp b) 0).
  destruct (timestamp a - timestamp b ?= 0)%Z eqn:C;
    destruct (timestamp b ?= timestamp a)%Z eqn:D; cbn [CompOpp]; auto;
    try (apply Z.compare_eq in C); try (apply Z.compare_eq in D);
    rewrite ?Z.compare_lt_iff, ?Z.compare_gt_iff in *; lia.
Qed.

Lemma insert_sorted a l :
  StronglySorted earlier l ->
  StronglySorted earlier (Arr.insert byTimestamp a l).
Proof.
  induction 1 as [|b l Hl IH Hb]; cbn [Arr.insert].
  - repeat constructor.
  - rewrite byTimestamp_gt.
    destruct (Z.ltb_spec (timestamp b) (timestamp a)) as [L|L].
    + constructor; [exact IH|].
      apply Forall_forall. intros c Hc.
      apply (Permutation_in _ (insert_perm byTimestamp a l)) in Hc.
      destruct Hc as [<-|Hc].
      * unfold earlier. lia.
      * rewrite Forall_forall in Hb. auto.
    + constructor; [constructor; auto|].
      constructor; [exact L|].
      eapply Forall_impl; [|exact Hb]. unfold earlier. intros c Hc. lia.
Qed.

Lemma sort_sorted l : StronglySorted earlier (Arr.sort byTimestamp l).
Proof.
  induction l as [|a l IH]; cbn [Arr.sort fold_right]; [constructor|].
  apply insert_sorted. exact IH.
Qed.

(** Two time-ordered arrangements of the same records, no two records
    sharing a timestamp, are the same array. *)
Lemma sorted_unique l1 : forall l2,
  StronglySorted earlier l1 -> StronglySorted earlier l2 ->
  Permutation l1 l2 -> NoDup (map timestamp l1) -> l1 = l2.
Proof.
  induction l1 as [|a l1 IH]; intros l2 S1 S2 P N.
  - apply Permutation_nil in P. now subst.
  - destruct l2 as [|b l2].
    { apply Permutation_sym, Permutation_nil in P. discriminate. }
    inversion S1 as [|? ? S1' F1]; subst.
    inversion S2 as [|? ? S2' F2]; subst.
    inversion N as [|? ? Na N']; subst.
    assert (E : a = b).
    { assert (Ia : In a (b :: l2))
        by (eapply Permutation_in; [exact P | now left]).
      assert (Ib : In b (a :: l1))
        by (eapply Permutation_in;
            [apply Permutation_sym; exact P | now left]).
      destruct Ia as [->|Ia]; [reflexivity|].
      destruct Ib as [->|Ib]; [reflexivity|].
      exfalso. rewrite Forall_forall in F1, F2.
      specialize (F1 b Ib). specialize (F2 a Ia). unfold earlier in F1, F2.
      apply Na. replace (timestamp a) with (timestamp b) by lia.
      now apply in_map. }
    subst b. f_equal. apply IH; auto.
    eapply Permutation_cons_inv; exact P.
Qed.

Section Order.
Context `{Platform} `{Regression}.

(** X1.  The forecast does not depend on the order in which the rows of
    the history are passed, as long as no two rows share a timestamp:
    the history is sorted by time before anything is read from it. *)
Theorem forecast_ignores_row_order hist hist' range :
  Permutation hist hist' -> NoDup (map timestamp hist) ->
  generateSalesForecast hist' range = generateSalesForecast hist range.
Proof.
  intros P N.
  assert (E : Arr.sort byTimestamp hist' = Arr.sort byTimestamp hist).
  { apply sorted_unique; try apply sort_sorted.
    - rewrite !sort_perm. now apply Permutation_sym.
    - eapply Permutation_NoDup; [|exact N].
      apply Permutation_map. apply Permutation_sym.
      rewrite sort_perm. now apply Permutation_sym. }
  unfold generateSalesForecast.
  rewrite E, (Permutation_length P). reflexivity.
Qed.
End Order.

Lemma length_handleOutliers data :
  length (handleOutliers data) = length data.
Proof.
  unfold handleOutliers.
  destruct (length data <? 4)%nat; [reflexivity|].
  destruct (fences data). apply length_mapi_from.
Qed.

(** The zero-series test of [generateSalesForecast], on the history as
    it was passed. *)
Lemma zero_series_test field hist :
  forallb (fun v => v === lit 0)
          (map (fun d => JS.or_else (field d) (lit 0))
               (Arr.sort byTimestamp hist))
  = noValue field hist.
Proof.
  unfold noValue. rewrite forallb_mapped.
  rewrite (forallb_perm _ (sort_perm byTimestamp hist)).
  apply forallb_pointwise. intros d. apply or_zero_is_zero.
Qed.

Section Total.
Context `{Platform} `{Regression}.

Lemma calculateConfidenceIntervals_ok regression x0 x y forecastX :
  exists iv, calculateConfidenceIntervals regression (x0 :: x) y forecastX
             = Ok iv.
Proof. unfold calculateConfidenceIntervals. cbn [Arr.reduce1 bind]. eauto. Qed.

Lemma forecastDay_ok firstDate x0 x ySales yOrders sr or ss os i :
  exists p,
    forecastDay firstDate (x0 :: x) ySales yOrders sr or ss os i = Ok p
    /\ fr_timestamp p = addDays startOfToday (Z.of_nat i)
    /\ isForecast p = true.
Proof.
  unfold forecastDay.
  destruct (calculateConfidenceIntervals_ok sr x0 x ySales
              (daysBetween (addDays startOfToday (Z.of_nat i)) firstDate))
    as (si & ->).
  destruct (calculateConfidenceIntervals_ok or x0 x yOrders
              (daysBetween (addDays startOfToday (Z.of_nat i)) firstDate))
    as (oi & ->).
  cbn [bind]. eexists. split; [reflexivity|]. split; reflexivity.
Qed.

(** The loop returns one point for each day when no day throws, and what
    holds of every single day holds of the points it returns. *)
Lemma forEachDay_ok (P : nat -> ForecastResult -> Prop) f days :
  (forall i, exists p, f i = Ok p /\ P i p) ->
  exists ps, forEachDay f days = Ok ps /\ Forall2 P days ps.
Proof.
  intros Hf. induction days as [|i days (ps & E & HP)]; cbn [forEachDay].
  - eauto.
  - destruct (Hf i) as (p & -> & Hp). cbn [bind]. rewrite E. cbn [bind].
    eauto.
Qed.

Lemma forEachDay_Forall (P : nat -> ForecastResult -> Prop) f days ps :
  forEachDay f days = Ok ps ->
  (forall i p, f i = Ok p -> P i p) ->
  Forall2 P days ps.
Proof.
  intros E Hf. revert ps E.
  induction days as [|i days IH]; cbn [forEachDay]; intros ps E.
  - injection E as <-. constructor.
  - destruct (f i) as [p|] eqn:Ei; [|discriminate]. cbn [bind] in E.
    destruct (forEachDay f days) as [ps'|]; [|discriminate].
    cbn [bind] in E. injection E as <-. constructor; auto.
Qed.

(** The four ways through [generateSalesForecast]: no history, a short
    history, a series of zeros, and the forecast proper, whose confidence
    combines four scores. *)
Lemma generateSalesForecast_paths hist range :
  (length hist = 0%nat
   /\ generateSalesForecast hist range
      = Ok {| forecastData := []; confidence := lit 0 |})
  \/ ((0 < length hist < 7)%nat
      /\ generateSalesForecast hist range
         = Ok {| forecastData := [];
                 confidence := JS.Math_min (lit 50)
                                 (JS.of_nat (length hist) * lit 7) |})
  \/ ((7 <= length hist)%nat
      /\ noValue sales hist || noValue orders hist = true
      /\ generateSalesForecast hist range
         = Ok {| forecastData := []; confidence := lit 0 |})
  \/ ((7 <= length hist)%nat
      /\ noValue sales hist || noValue orders hist = false
      /\ exists f firstDate x ySales yOrders sr or ss os dates,
           generateSalesForecast hist range = Ok f
           /\ x <> []
           /\ forEachDay (forecastDay firstDate x ySales yOrders sr or ss os)
                (seq 0 (getDaysForRange range)) = Ok (forecastData f)
           /\ Forecast.confidence f
              = JS.Math_min (lit 100) (JS.Math_max (lit 0)
                  (JS.Math_round
                     ((calculateConfidence sr x ySales
                       + calculateConfidence or x yOrders) / lit 2
                      * JS.Math_min (lit 1)
                          (JS.of_nat (length hist) / lit 60)
                      * calculateSeasonalityStrength ss os
                      * calculateDataConsistency dates)))).
Proof.
  unfold generateSalesForecast.
  destruct (length hist =? 0)%nat eqn:E0.
  { left. apply Nat.eqb_eq in E0. auto. }
  apply Nat.eqb_neq in E0.
  destruct (length hist <? 7)%nat eqn:E7.
  { right; left. apply Nat.ltb_lt in E7. split; [lia|reflexivity]. }
  apply Nat.ltb_ge in E7.
  rewrite !zero_series_test.
  destruct (noValue sales hist || noValue orders hist) eqn:Z.
  { right; right; left. auto. }
  right; right; right. split; [exact E7|]. split; [reflexivity|].
  set (sorted := Arr.sort byTimestamp hist).
  assert (Ls : length sorted = length hist) by apply sort_length.
  set (ySales := handleOutliers _). set (yOrders := handleOutliers _).
  assert (Ns : exists v l, ySales = v :: l).
  { destruct ySales as [|v l] eqn:E; [|eauto]. exfalso.
    apply (f_equal (@length _)) in E. unfold ySales in E.
    rewrite length_handleOutliers, length_map in E. cbn in E. lia. }
  assert (No : exists v l, yOrders = v :: l).
  { destruct yOrders as [|v l] eqn:E; [|eauto]. exfalso.
    apply (f_equal (@length _)) in E. unfold yOrders in E.
    rewrite length_handleOutliers, length_map in E. cbn in E. lia. }
  destruct Ns as (vs & ls & Es). destruct No as (vo & lo & Eo).
  rewrite Es, Eo.
  destruct (@calculateSeasonality_factors _ (map timestamp sorted) vs ls)
    as (ss & -> & _).
  destruct (@calculateSeasonality_factors _ (map timestamp sorted) vo lo)
    as (os & -> & _).
  cbn [bind].
  set (x := map _ (map timestamp sorted)).
  assert (Nx : exists x0 xs, x = x0 :: xs).
  { destruct x as [|x0 xs] eqn:E; [|eauto]. exfalso.
    apply (f_equal (@length _)) in E. unfold x in E.
    rewrite !length_map in E. cbn in E. lia. }
  destruct Nx as (x0 & xs & Ex). rewrite Ex.
  match goal with
  | |- context [forEachDay ?f ?days] =>
      destruct (@forEachDay_ok (fun _ _ => True) f days) as (ps & Eps & _)
  end.
  { intros i.
    match goal with
    | |- context [forecastDay ?fd _ ?a ?b ?c ?d ?e ?g i] =>
        destruct (forecastDay_ok fd x0 xs a b c d e g i) as (p & Hp & _)
    end.
    eauto. }
  rewrite Eps. cbn [bind].
  do 10 eexists. split; [reflexivity|].
  split; [|split; [exact Eps | reflexivity]].
  discriminate.
Qed.

Lemma forecastDay_stamp firstDate x ySales yOrders sr or ss os i p :
  forecastDay firstDate x ySales yOrders sr or ss os i = Ok p ->
  fr_timestamp p = addDays startOfToday (Z.of_nat i) /\ isForecast p = true.
Proof.
  unfold forecastDay.
  destruct (calculateConfidenceIntervals sr _ _ _) as [si|]; [|discriminate].
  cbn [bind].
  destruct (calculateConfidenceIntervals or _ _ _) as [oi|]; [|discriminate].
  cbn [bind]. intros [= <-]. split; reflexivity.
Qed.

(** The call returns for every history, and its points are dated from
    today on, one day apart. *)
Lemma forecast_dates hist range :
  exists f,
    generateSalesForecast hist range = Ok f
    /\ (forecastData f = []
        \/ map fr_timestamp (forecastData f)
           = map (fun i => addDays startOfToday (Z.of_nat i))
                 (seq 0 (getDaysForRange range)))
    /\ forallb isForecast (forecastData f) = true.
Proof.
  destruct (generateSalesForecast_paths hist range)
    as [(_ & E)|[(_ & E)|[(_ & _ & E)|
        (_ & _ & f & fd & x & ys & yo & sr & or & ss & os & ds
           & E & _ & Hloop & _)]]].
  1-3: eexists; (split; [exact E|]); (split; [now left | reflexivity]).
  - exists f. split; [exact E|].
    assert (F : Forall2 (fun i p =>
                  fr_timestamp p = addDays startOfToday (Z.of_nat i)
                  /\ isForecast p = true)
                  (seq 0 (getDaysForRange range)) (forecastData f)).
    { eapply forEachDay_Forall; [exact Hloop|].
      intros i p. apply forecastDay_stamp. }
    split.
    + right. apply Forall2_map_eq.
      eapply Forall2_impl; [|exact F]. cbn beta. intros a b [Ht _]; exact Ht.
    + apply forallb_forall. apply Forall_forall.
      apply (@Forall2_right nat _ (fun p => isForecast p = true)
               (seq 0 (getDaysForRange range))).
      eapply Forall2_impl; [|exact F]. cbn beta. intros a b [_ Hf]; exact Hf.
Qed.

(** X2.  [generateSalesForecast] returns for every history and never
    throws.  It returns no point at all, or one point for each of the
    days of the range, dated today, tomorrow and so on; every point is
    marked as a forecast. *)
Theorem generateSalesForecast_returns_dated_points hist range :
  exists f,
    generateSalesForecast hist range = Ok f
    /\ (forecastData f = []
        \/ map fr_timestamp (forecastData f)
           = map (fun i => addDays startOfToday (Z.of_nat i))
                 (seq 0 (getDaysForRange range)))
    /\ forallb isForecast (forecastData f) = true.
Proof. apply forecast_dates. Qed.

(** X3.  In every forecast point the predicted sales and orders and the
    two lower bounds are [NaN] or at least 0: each is a value of
    [Math.max(0, ...)]. *)
Theorem forecast_points_floored hist range :
  exists f,
    generateSalesForecast hist range = Ok f
    /\ Forall (fun p =>
                 floored (fr_sales p) /\ floored (fr_orders p)
                 /\ floored (salesLower p) /\ floored (ordersLower p))
              (forecastData f).
Proof.
  destruct (generateSalesForecast_paths hist range)
    as [(_ & E)|[(_ & E)|[(_ & _ & E)|
        (_ & _ & f & fd & x & ys & yo & sr & or & ss & os & ds
           & E & _ & Hloop & _)]]].
  1-3: eexists; (split; [exact E|]); constructor.
  - exists f. split; [exact E|].
    apply (@Forall2_right nat _ _ (seq 0 (getDaysForRange range))).
    eapply forEachDay_Forall; [exact Hloop|].
    intros i p Hp. exact (forecastDay_floors _ _ _ _ _ _ _ _ _ Hp).
Qed.

(** X4.  The confidence of every forecast is [NaN] or lies between 0 and
    100. *)
Theorem forecast_confidence_nan_or_percentage hist range :
  exists f,
    generateSalesForecast hist range = Ok f
    /\ (Forecast.confidence f = NaN
        \/ confidenceInRange (Forecast.confidence f) = true).
Proof.
  destruct (generateSalesForecast_paths hist range)
    as [(_ & E)|[(_ & E)|[(_ & _ & E)|
        (_ & _ & f & _ & _ & _ & _ & _ & _ & _ & _ & _ & E & _)]]];
    eexists; (split; [exact E|]); exact (forecast_confidence_clamped _ _ E).
Qed.

End Total.

(** A value inside the fences is returned as it is. *)
Lemma inside_kept lo hi v :
  insideFences lo hi v = true -> (v <? lo) || (v >? hi) = false.
Proof.
  unfold insideFences, JS.geb. intros I. apply andb_prop in I as [I1 I2].
  apply leb_not_gtb in I1, I2. unfold JS.gtb in *. now rewrite I1, I2.
Qed.

Lemma inside_finite lo hi q :
  insideFences (Fin lo) (Fin hi) (Fin q) = true <-> (lo <= q)%Q /\ (q <= hi)%Q.
Proof.
  unfold insideFences, JS.geb, JS.leb. rewrite andb_true_iff.
  now rewrite !Qle_bool_iff.
Qed.

(** The mean of finite values inside finite fences is inside them. *)
Lemma mean_inside lo hi w ws :
  Forall (fun v => finite v /\ insideFences (Fin lo) (Fin hi) v = true)
         (w :: ws) ->
  exists m, fold_left JS.add ws w / JS.of_nat (length (w :: ws)) = Fin m
            /\ insideFences (Fin lo) (Fin hi) (Fin m) = true.
Proof.
  intros F.
  assert (F' : Forall (fun v => exists q, v = Fin q /\ (lo <= q)%Q /\ (q <= hi)%Q)
                      (w :: ws)).
  { eapply Forall_impl; [|exact F].
    intros v ((q & ->) & I). apply inside_finite in I. eauto. }
  inversion F' as [|? ? (q & -> & Hlo & Hhi) Fws]; subst.
  destruct (@fold_add_between ws q lo hi Fws) as (s & -> & S1 & S2).
  set (n := inject_Z (Z.of_nat (length ws))) in *.
  assert (Hn : (0 <= n)%Q).
  { unfold n. change 0%Q with (inject_Z 0). rewrite <- Zle_Qle. lia. }
  assert (En : (inject_Z (Z.of_nat (length (Fin q :: ws))) == n + 1)%Q).
  { cbn [length]. rewrite Nat2Z.inj_succ. unfold Z.succ.
    now rewrite inject_Z_plus. }
  unfold JS.of_nat, JS.of_Z. cbn [JS.div].
  assert (Nz : Qeq_bool (inject_Z (Z.of_nat (length (Fin q :: ws)))) 0 = false).
  { apply not_true_is_false. intros E. apply Qeq_bool_iff in E.
    rewrite En in E. lra. }
  rewrite Nz. eexists. split; [reflexivity|].
  apply inside_finite. rewrite Qred_correct, En.
  split.
  - apply Qle_shift_div_l; [lra|]. nra.
  - apply Qle_shift_div_r; [lra|]. nra.
Qed.

Lemma floor_index_lt n c :
  (0 <= c)%Q -> (c < 1)%Q -> (0 < n)%nat -> (Arr.floor_index n c < n)%nat.
Proof.
  intros C0 C1 Hn. unfold Arr.floor_index, JS.of_nat, JS.of_Z, lit.
  cbn [JS.mul JS.fin JS.Math_floor JS.of_Z]. rewrite Qfloor_Z.
  assert (N : (0 < inject_Z (Z.of_nat n))%Q).
  { change 0%Q with (inject_Z 0). rewrite <- Zlt_Qlt. lia. }
  assert (U : (Qfloor (Qred (inject_Z (Z.of_nat n) * c)) < Z.of_nat n)%Z).
  { rewrite Zlt_Qlt.
    eapply Qle_lt_trans; [apply Qfloor_le|].
    rewrite Qred_correct. nra. }
  lia.
Qed.

Lemma get_finite l k :
  Forall finite l -> (k < length l)%nat -> finite (Arr.get l k).
Proof.
  intros F Hk. rewrite Forall_forall in F. apply F.
  unfold Arr.get. now apply nth_In.
Qed.

Lemma fences_finite data :
  Forall finite data -> (0 < length data)%nat ->
  finite (fst (fences data)) /\ finite (snd (fences data)).
Proof.
  intros F Hn. unfold fences.
  set (sorted := Arr.sort JS.sub data).
  assert (Fs : Forall finite sorted).
  { apply Forall_forall. intros v Hv.
    rewrite Forall_forall in F. apply F.
    eapply Permutation_in; [apply sort_perm | exact Hv]. }
  assert (L : (0 < length sorted)%nat) by (unfold sorted; now rewrite sort_length).
  assert (Q1 : finite (Arr.get sorted (Arr.floor_index (length sorted) 0.25))).
  { apply get_finite; [exact Fs|]. apply floor_index_lt; auto; lra. }
  assert (Q3 : finite (Arr.get sorted (Arr.floor_index (length sorted) 0.75))).
  { apply get_finite; [exact Fs|]. apply floor_index_lt; auto; lra. }
  cbn [fst snd]. split.
  - apply sub_finite; [exact Q1|]. apply mul_finite; [eexists; reflexivity|].
    now apply sub_finite.
  - apply add_finite; [exact Q3|]. apply mul_finite; [eexists; reflexivity|].
    now apply sub_finite.
Qed.

Lemma movingAverage_inside lo hi data v i :
  Forall finite data ->
  movingAverage (Fin lo) (Fin hi) data v i = v
  \/ insideFences (Fin lo) (Fin hi)
       (movingAverage (Fin lo) (Fin hi) data v i) = true.
Proof.
  intros F. unfold movingAverage.
  match goal with
  | |- context [filter ?f ?l] =>
      assert (W : Forall (fun v => finite v
                                   /\ insideFences (Fin lo) (Fin hi) v = true)
                         (filter f l));
      [|destruct (filter f l) as [|w ws]]
  end.
  - apply Forall_forall. intros x Hx. apply filter_In in Hx as [Hx I].
    split; [|exact I]. rewrite Forall_forall in F. apply F.
    eapply slice_In; exact Hx.
  - now left.
  - right. destruct (@mean_inside lo hi w ws W) as (m & -> & I). exact I.
Qed.

(** X5.  In exact arithmetic and on finite data, [handleOutliers]
    returns a value inside the fences as it is, and a value it replaces
    is replaced by a value inside the fences: the mean of a window of
    values inside them.  The first half does not depend on the
    arithmetic; the mean of a double-precision sum can miss a fence by
    one rounding. *)
Theorem handleOutliers_repairs_into_fences data :
  Forall finite data ->
  Forall2 (fun v w =>
             (insideFences (fst (fences data)) (snd (fences data)) v = true
              -> w = v)
             /\ (w = v
                 \/ insideFences (fst (fences data)) (snd (fences data)) w
                    = true))
          data (handleOutliers data).
Proof.
  intros F. unfold handleOutliers.
  destruct (length data <? 4)%nat eqn:L4.
  { apply Forall2_diag. intros v. split; auto. }
  apply Nat.ltb_ge in L4.
  destruct (@fences_finite data F ltac:(lia)) as ((lo & Elo) & (hi & Ehi)).
  destruct (fences data) as [l h]. cbn [fst snd] in *. subst l h.
  apply Forall2_pointwise.
  - unfold Arr.mapi. now rewrite length_mapi_from.
  - intros i v w Hv. unfold Arr.mapi. rewrite nth_error_mapi_from, Hv.
    unfold option_map. rewrite Nat.add_0_l.
    pose proof (@inside_kept (Fin lo) (Fin hi) v) as K.
    destruct ((v <? Fin lo) || (v >? Fin hi)) eqn:C; intros [= <-].
    + split.
      * intros I. specialize (K I). discriminate.
      * destruct (@movingAverage_inside lo hi data v i F) as [E|I]; auto.
    + split; auto.
Qed.

Lemma countGaps_le rest : forall prev,
  (countGaps prev rest <= length rest)%nat.
Proof.
  induction rest as [|d rest IH]; intros prev; cbn [countGaps length].
  - lia.
  - specialize (IH d). destruct (daysBetween d prev >? lit 1); lia.
Qed.

(** The consistency score lies between 0.5 and 1. *)
Lemma consistency_bounds dates :
  within 0.5 1 (calculateDataConsistency dates).
Proof.
  unfold calculateDataConsistency.
  destruct (length dates <? 2)%nat eqn:L2.
  { exists 0.5%Q. split; [reflexivity|]. split; lra. }
  apply Nat.ltb_ge in L2.
  destruct dates as [|d rest]; [cbn in L2; lia|].
  pose proof (countGaps_le rest d) as G.
  set (g := countGaps d rest) in *. cbn [length] in *.
  apply max_within with (lo := 0%Q); try lra.
  unfold JS.of_nat, JS.of_Z, lit. cbn [JS.div].
  assert (Nz : Qeq_bool (inject_Z (Z.of_nat (S (length rest)))) 0 = false).
  { apply not_true_is_false. intros E. apply Qeq_bool_iff in E.
    pose proof (@inject_nat_le 1 (S (length rest)) ltac:(lia)) as P.
    change (inject_Z (Z.of_nat 1)) with 1%Q in P. lra. }
  rewrite Nz. cbn [JS.sub JS.neg JS.add JS.fin].
  eexists. split; [reflexivity|]. rewrite !Qred_correct.
  pose proof (inject_nat_nonneg g) as G0.
  pose proof (@inject_nat_le g (S (length rest)) ltac:(lia)) as G1.
  pose proof (@inject_nat_le 1 (S (length rest)) ltac:(lia)) as P.
  change (inject_Z (Z.of_nat 1)) with 1%Q in P.
  set (n := inject_Z (Z.of_nat (S (length rest)))) in *.
  set (k := inject_Z (Z.of_nat g)) in *.
  assert (D0 : (0 <= k / n)%Q) by (apply Qle_shift_div_l; lra).
  assert (D1 : (k / n <= 1)%Q) by (apply Qle_shift_div_r; lra).
  split; lra.
Qed.

(** X6.  [calculateDataConsistency] returns a value between 0.5 and 1,
    whatever the dates are. *)
Theorem calculateDataConsistency_range dates :
  within 0.5 1 (calculateDataConsistency dates).
Proof. apply consistency_bounds. Qed.

Section Strength.
Context `{Platform} `{Regression}.
Hypothesis sqrt_nonneg : forall q, (0 <= sqrtQ q)%Q.

Lemma normalized_variation a :
  nanOrWithin 0 1 (JS.Math_min (lit 1) (Math_sqrt a)).
Proof.
  destruct a as [q| | |]; cbn [Math_sqrt].
  - destruct (Qle_bool 0 q); [|now left].
    right. unfold JS.Math_min, lit, JS.ltb.
    pose proof (sqrt_nonneg q) as S.
    destruct (sqrtQ q ?= 1)%Q eqn:C.
    + exists 1%Q. split; [reflexivity|]. split; lra.
    + exists (sqrtQ q). split; [reflexivity|]. apply Qlt_alt in C. split; lra.
    + exists 1%Q. split; [reflexivity|]. split; lra.
  - right. exists 1%Q. split; [reflexivity|]. split; lra.
  - now left.
  - now left.
Qed.

Lemma seasonalityScore_range n1 n2 :
  nanOrWithin 0 1 n1 -> nanOrWithin 0 1 n2 ->
  nanOrWithin 0.8 1
    (lit 0.8 + JS.Math_min (lit 0.2) ((n1 + n2) / lit 4)).
Proof.
  intros [->|(p & -> & P0 & P1)]; [now left|].
  intros [->|(q & -> & Q0 & Q1)]; [now left|].
  right. unfold lit. cbn [JS.add JS.fin JS.div].
  change (Qeq_bool 4 0) with false. cbv iota.
  unfold JS.fin, JS.Math_min, JS.ltb.
  set (u := Qred (Qred (p + q) / 4)).
  assert (U : (u == (p + q) / 4)%Q) by (unfold u; now rewrite !Qred_correct).
  assert (U0 : (0 <= u)%Q) by (rewrite U; apply Qle_shift_div_l; lra).
  destruct (u ?= 0.2)%Q eqn:C; cbn [JS.add JS.fin].
  - eexists. split; [reflexivity|]. rewrite Qred_correct. split; lra.
  - eexists. split; [reflexivity|]. rewrite Qred_correct.
    apply Qlt_alt in C. split; lra.
  - eexists. split; [reflexivity|]. rewrite Qred_correct. split; lra.
Qed.

Lemma calculateVariation_cases factors :
  calculateVariation factors = Throw TypeError
  \/ exists a, calculateVariation factors = Ok (Math_sqrt a).
Proof.
  unfold calculateVariation. destruct factors as [|f fs]; [now left|].
  right. cbn [Arr.reduce1 bind]. eauto.
Qed.

(** The seasonality score is [NaN] or lies between 0.8 and 1. *)
Lemma seasonality_strength_bounds ss os :
  nanOrWithin 0.8 1 (calculateSeasonalityStrength ss os).
Proof.
  unfold calculateSeasonalityStrength.
  destruct (calculateVariation_cases (daily ss ++ monthly ss)) as [->|(a & ->)].
  { right. exists 0.8%Q. split; [reflexivity|]. split; lra. }
  destruct (calculateVariation_cases (daily os ++ monthly os)) as [->|(b & ->)].
  { right. exists 0.8%Q. split; [reflexivity|]. split; lra. }
  cbn [bind].
  apply seasonalityScore_range; apply normalized_variation.
Qed.

Lemma percentage_of_clamp x :
  let c := JS.Math_min (lit 100) (JS.Math_max (lit 0) x) in
  nanOrWithin 0 100 c.
Proof.
  cbn zeta. destruct (clamp_in_range x) as [E|I]; [now left|].
  right. unfold confidenceInRange in I. apply andb_prop in I as [I1 I2].
  destruct (JS.Math_min _ _) as [q| | |]; try discriminate.
  exists q. split; [reflexivity|]. unfold lit, JS.leb in *.
  apply Qle_bool_iff in I1, I2. split; lra.
Qed.

(** The confidence of one series is [NaN] or lies between 0 and 100. *)
Lemma series_confidence_bounds regression x y :
  nanOrWithin 0 100 (calculateConfidence regression x y).
Proof.
  unfold calculateConfidence.
  match goal with |- context [if ?c then _ else _] => destruct c end.
  - right. exists 50%Q. split; [reflexivity|]. split; lra.
  - apply percentage_of_clamp.
Qed.

(** X7.  [calculateConfidence] returns [NaN] or a value between 0 and
    100, whatever the regression and the two series are. *)
Theorem calculateConfidence_range regression x y :
  nanOrWithin 0 100 (calculateConfidence regression x y).
Proof. apply series_confidence_bounds. Qed.

(** X8.  With a square root that is never negative,
    [calculateSeasonalityStrength] returns [NaN] or a value between 0.8
    and 1. *)
Theorem calculateSeasonalityStrength_range ss os :
  nanOrWithin 0.8 1 (calculateSeasonalityStrength ss os).
Proof. apply seasonality_strength_bounds. Qed.

End Strength.

Section Cap.
Context `{Platform} `{Regression}.
Hypothesis sqrt_nonneg : forall q, (0 <= sqrtQ q)%Q.

(** X9.  With a square root that is never negative, the confidence of a
    forecast from [n >= 7] rows is [NaN] or at most [100 * n / 60], half
    a point of rounding apart: a short history cannot have a high
    confidence. *)
Theorem forecast_confidence_capped_by_history hist range :
  (7 <= length hist)%nat ->
  exists f,
    generateSalesForecast hist range = Ok f
    /\ nanOrWithin 0 (100 * (inject_Z (Z.of_nat (length hist)) / 60) + 0.5)
         (Forecast.confidence f).
Proof.
  intros L7.
  pose proof (inject_nat_nonneg (length hist)) as N.
  assert (D : (0 <= inject_Z (Z.of_nat (length hist)) / 60)%Q)
    by (apply Qle_shift_div_l; lra).
  destruct (generateSalesForecast_paths hist range)
    as [(L & _)|[(L & _)|[(_ & _ & E)|
        (_ & _ & f & fd & x & ys & yo & sr & or & ss & os & ds
           & E & _ & _ & C)]]];
    try lia.
  - eexists. split; [exact E|]. right. exists 0%Q.
    split; [reflexivity|]. split; lra.
  - exists f. split; [exact E|]. rewrite C.
    apply clamp_nanOrWithin, round_nanOrWithin.
    eapply nanOrWithin_weaken; [|apply Qle_refl|].
    + apply mul_nanOrWithin with (b2 := 1%Q).
      * apply mul_nanOrWithin with (b2 := 1%Q).
        -- apply mul_nanOrWithin.
           ++ apply mean_of_two; apply series_confidence_bounds.
           ++ right. apply dataQuality_range.
        -- eapply nanOrWithin_weaken;
             [apply (seasonality_strength_bounds sqrt_nonneg)| |]; lra.
      * right. destruct (consistency_bounds ds) as (q & -> & ? & ?).
        exists q. split; [reflexivity|]. split; lra.
    + lra.
Qed.

End Cap.

Section Count.
Context `{Platform} `{Regression}.

(** X10.  A forecast has one point for each day of the range when the
    history has 7 rows or more and both sales and orders have a value
    that is neither 0 nor missing, and no point otherwise. *)
Theorem forecast_point_count hist range :
  exists f,
    generateSalesForecast hist range = Ok f
    /\ length (forecastData f)
       = if (7 <=? length hist)%nat
            && negb (noValue sales hist || noValue orders hist)
         then getDaysForRange range else 0%nat.
Proof.
  destruct (generateSalesForecast_paths hist range)
    as [(L & E)|[(L & E)|[(L & Z & E)|
        (L & Z & f & fd & x & ys & yo & sr & or & ss & os & ds
           & E & _ & Hloop & _)]]].
  - eexists. split; [exact E|]. rewrite L. reflexivity.
  - eexists. split; [exact E|].
    replace (7 <=? length hist)%nat with false
      by (symmetry; apply Nat.leb_gt; lia).
    reflexivity.
  - eexists. split; [exact E|]. rewrite Z, andb_false_r. reflexivity.
  - exists f. split; [exact E|].
    apply Nat.leb_le in L. rewrite L, Z. cbn [negb andb].
    assert (F : Forall2 (fun _ _ => True) (seq 0 (getDaysForRange range))
                        (forecastData f))
      by (eapply forEachDay_Forall; [exact Hloop | auto]).
    apply Forall2_length in F. rewrite length_seq in F. auto.
Qed.

End Count.

Section Band.
Context `{Platform} `{Regression}.
Hypothesis sqrt_nonneg : forall q, (0 <= sqrtQ q)%Q.

Lemma Math_sqrt_rootLike a : rootLike (Math_sqrt a).
Proof.
  destruct a as [q| | |]; cbn [Math_sqrt];
    try (now left); try (right; now left).
  destruct (Qle_bool 0 q); [|now left].
  right; right. eexists. split; [reflexivity|]. apply sqrt_nonneg.
Qed.

(** The interval is the prediction plus or minus one error term, the
    lower end floored at 0. *)
Lemma calculateConfidenceIntervals_form regression x y forecastX iv :
  calculateConfidenceIntervals regression x y forecastX = Ok iv ->
  exists e,
    rootLike e
    /\ lower iv = JS.Math_max (lit 0) (predict regression forecastX - e)
    /\ upper iv = predict regression forecastX + e.
Proof.
  unfold calculateConfidenceIntervals.
  destruct (Arr.reduce1 JS.add x) as [t|]; [|discriminate].
  cbn [bind]. intros [= <-]. cbn [lower upper].
  eexists. split; [|split; reflexivity].
  match goal with
  | |- rootLike (match ?X with _ => _ end) =>
      change (rootLike (lit 1.96 * X))
  end.
  apply mul_rootLike.
  - right; right. exists 1.96%Q. split; [reflexivity|]. lra.
  - apply mul_rootLike; apply Math_sqrt_rootLike.
Qed.

(** X11.  With a square root that is never negative: when the trend
    predicts finite sales that are not negative and the seasonal factor
    of the day is finite and not negative, the sales of the forecast
    point lie between its lower and its upper bound, unless one of the
    bounds is [NaN]. *)
Theorem forecastDay_sales_band firstDate x ySales yOrders sr or ss os i pt
        (p f : Q) :
  let date := addDays startOfToday (Z.of_nat i) in
  forecastDay firstDate x ySales yOrders sr or ss os i = Ok pt ->
  predict sr (daysBetween date firstDate) = Fin p -> (0 <= p)%Q ->
  Arr.get (daily ss) (getDay date) * Arr.get (monthly ss) (getMonth date)
  = Fin f -> (0 <= f)%Q ->
  salesLower pt = NaN \/ salesUpper pt = NaN
  \/ (salesLower pt <=? fr_sales pt) && (fr_sales pt <=? salesUpper pt)
     = true.
Proof.
  cbn zeta. unfold forecastDay.
  destruct (calculateConfidenceIntervals sr _ _ _) as [si|] eqn:Es;
    [|discriminate].
  cbn [bind].
  destruct (calculateConfidenceIntervals or _ _ _) as [oi|]; [|discriminate].
  cbn [bind]. intros [= <-] Ep P Ef F.
  cbn [salesLower salesUpper fr_sales].
  destruct (calculateConfidenceIntervals_form _ _ _ _ Es) as (e & Re & -> & ->).
  rewrite Ep, Ef. exact (@band_brackets p f e P F Re).
Qed.

(** X12.  The same for the orders: the orders of the forecast point lie
    between their bounds, unless one of the bounds is [NaN]. *)
Theorem forecastDay_orders_band firstDate x ySales yOrders sr or ss os i pt
        (p f : Q) :
  let date := addDays startOfToday (Z.of_nat i) in
  forecastDay firstDate x ySales yOrders sr or ss os i = Ok pt ->
  predict or (daysBetween date firstDate) = Fin p -> (0 <= p)%Q ->
  Arr.get (daily os) (getDay date) * Arr.get (monthly os) (getMonth date)
  = Fin f -> (0 <= f)%Q ->
  ordersLower pt = NaN \/ ordersUpper pt = NaN
  \/ (ordersLower pt <=? fr_orders pt) && (fr_orders pt <=? ordersUpper pt)
     = true.
Proof.
  cbn zeta. unfold forecastDay.
  destruct (calculateConfidenceIntervals sr _ _ _) as [si|]; [|discriminate].
  cbn [bind].
  destruct (calculateConfidenceIntervals or _ _ _) as [oi|] eqn:Eo;
    [|discriminate].
  cbn [bind]. intros [= <-] Ep P Ef F.
  cbn [ordersLower ordersUpper fr_orders].
  destruct (calculateConfidenceIntervals_form _ _ _ _ Eo) as (e & Re & -> & ->).
  rewrite Ep, Ef. exact (@band_brackets p f e P F Re).
Qed.

End Band.

(** ** The seasonal factors are normalised *)

Lemma sum_total l : forall acc,
  Forall finite l -> fold_left JS.add l (Fin acc) =n= Fin (acc + totalOf l).
Proof.
  induction l as [|v l IH]; intros acc F; cbn [fold_left totalOf fold_right].
  - cbn [JS.same]. ring.
  - inversion F as [|? ? (q & ->) F']; subst.
    change (Fin acc + Fin q) with (Fin (Qred (acc + q))).
    eapply same_trans; [apply IH; exact F'|].
    cbn [JS.same valueOf]. rewrite Qred_correct. fold (totalOf l). ring.
Qed.

Lemma sum0_total l : Forall finite l -> sum0 l =n= Fin (totalOf l).
Proof.
  intros F. unfold sum0, lit.
  eapply same_trans; [apply sum_total; exact F|]. cbn [JS.same]. ring.
Qed.

Lemma mul_proper_r c a a' : a =n= a' -> Fin c * a =n= Fin c * a'.
Proof.
  destruct a as [p| | |], a' as [q| | |]; cbn [JS.same]; try contradiction;
    intros E; try apply same_refl.
  cbn [JS.mul JS.fin JS.same]. now rewrite !Qred_correct, E.
Qed.

Lemma sum_of_terms (f : nat -> num) (g : nat -> Q) l : forall acc,
  (forall i, In i l -> f i =n= Fin (g i)) ->
  fold_left JS.add (map f l) (Fin acc) =n= Fin (acc + qsum (map g l)).
Proof.
  induction l as [|i l IH]; intros acc Hf; cbn [map fold_left qsum fold_right].
  - cbn [JS.same]. ring.
  - assert (Hi : f i =n= Fin (g i)) by (apply Hf; now left).
    destruct (f i) as [q| | |]; cbn [JS.same] in Hi; try contradiction.
    change (Fin acc + Fin q) with (Fin (Qred (acc + q))).
    eapply same_trans; [apply IH; intros j Hj; apply Hf; now right|].
    cbn [JS.same]. rewrite Qred_correct, Hi. fold (qsum (map g l)). ring.
Qed.

Lemma filteri_finite (keep : num -> nat -> bool) data : forall k,
  Forall finite data -> Forall finite (Arr.filteri_from k keep data).
Proof.
  induction data as [|v data IH]; intros k F; cbn [Arr.filteri_from].
  - constructor.
  - inversion F; subst. destruct (keep v k); [constructor|]; auto.
Qed.

Lemma qsum_plus (f g : nat -> Q) l :
  (qsum (map (fun i => f i + g i) l) == qsum (map f l) + qsum (map g l))%Q.
Proof.
  induction l as [|i l IH]; cbn [map qsum fold_right]; [ring|].
  fold (qsum (map (fun i => f i + g i)%Q l)).
  fold (qsum (map f l)). fold (qsum (map g l)). rewrite IH. ring.
Qed.

Lemma qsum_ext (f g : nat -> Q) l :
  (forall i, In i l -> (f i == g i)%Q) ->
  (qsum (map f l) == qsum (map g l))%Q.
Proof.
  induction l as [|i l IH]; intros E; cbn [map qsum fold_right]; [ring|].
  fold (qsum (map f l)). fold (qsum (map g l)).
  rewrite (E i) by now left. rewrite IH; [ring|].
  intros j Hj. apply E. now right.
Qed.

Lemma qsum_scale (c : Q) (f : nat -> Q) l :
  (qsum (map (fun i => f i * c) l) == qsum (map f l) * c)%Q.
Proof.
  induction l as [|i l IH]; cbn [map qsum fold_right]; [ring|].
  fold (qsum (map (fun i => f i * c)%Q l)). fold (qsum (map f l)).
  rewrite IH. ring.
Qed.

(** A value goes to the bucket of one day of the week. *)
Lemma qsum_one_day (c : Q) j :
  (j < 7)%nat ->
  (qsum (map (fun i => if (j =? i)%nat then c else 0) (seq 0 7)) == c)%Q.
Proof.
  intros Hj.
  do 7 (destruct j as [|j]; [cbn; ring|]). lia.
Qed.

Section Normalised.
Context `{Platform}.
Variable dates : list Date.
Hypothesis week : forall d, (getDay d < 7)%nat.

(** The buckets of the seven days hold every dated value once. *)
Lemma day_totals data : forall k,
  Forall finite data ->
  (k + length data <= length dates)%nat ->
  (qsum (map (fun i => totalOf (onDayValues dates i k data)) (seq 0 7))
   == totalOf data)%Q.
Proof.
  induction data as [|v data IH]; intros k F L.
  - cbn. ring.
  - inversion F as [|? ? Fv F']; subst. cbn [length] in L.
    destruct (nth_error dates k) as [date|] eqn:D.
    2:{ apply nth_error_None in D. lia. }
    rewrite (@qsum_ext _
               (fun i => (if (getDay date =? i)%nat then valueOf v else 0)
                         + totalOf (onDayValues dates i (S k) data))%Q).
    + rewrite qsum_plus, (IH (S k) F') by lia.
      rewrite qsum_one_day by apply week.
      reflexivity.
    + intros i _. unfold onDayValues. cbn [Arr.filteri_from].
      unfold onDay at 1. rewrite D.
      destruct (getDay date =? i)%nat;
        [reflexivity | symmetry; apply Qplus_0_l].
Qed.

Lemma of_nat_nonzero n : (0 < n)%nat -> ~ (inject_Z (Z.of_nat n) == 0)%Q.
Proof.
  intros Hn E. unfold Qeq in E. cbn [Qnum Qden inject_Z] in E. lia.
Qed.

Lemma mean_value l :
  Forall finite l -> l <> [] ->
  exists m, mean l = Fin m
            /\ (m == totalOf l / inject_Z (Z.of_nat (length l)))%Q.
Proof.
  intros F N. unfold mean.
  pose proof (sum0_total F) as S.
  destruct (sum0 l) as [t| | |]; cbn [JS.same] in S; try contradiction.
  unfold JS.of_nat, JS.of_Z. cbn [JS.div].
  assert (Nz : ~ (inject_Z (Z.of_nat (length l)) == 0)%Q).
  { apply of_nat_nonzero. destruct l; [congruence | cbn; lia]. }
  destruct (Qeq_bool (inject_Z (Z.of_nat (length l))) 0) eqn:Z.
  { apply Qeq_bool_iff in Z. contradiction. }
  eexists. split; [reflexivity|]. now rewrite Qred_correct, S.
Qed.

(** The factor of a day, weighted by the number of its values. *)
Lemma weighted_factor data i :
  Forall finite data -> data <> [] -> ~ (totalOf data == 0)%Q ->
  JS.of_nat (length (onDayValues dates i 0 data)) * dayFactor dates data i
  =n= Fin (totalOf (onDayValues dates i 0 data)
           * (inject_Z (Z.of_nat (length data)) / totalOf data)).
Proof.
  intros F N T. unfold dayFactor.
  assert (Fv : Forall finite (onDayValues dates i 0 data))
    by (apply filteri_finite; exact F).
  destruct (onDayValues dates i 0 data) as [|w ws] eqn:V.
  - cbn [length JS.of_nat JS.of_Z Z.of_nat lit JS.mul JS.fin JS.same totalOf
         fold_right].
    rewrite Qred_correct. ring.
  - destruct (@mean_value (w :: ws) Fv ltac:(discriminate)) as (mv & -> & Ev).
    destruct (@mean_value data F N) as (md & -> & Ed).
    assert (Nn : ~ (inject_Z (Z.of_nat (length data)) == 0)%Q).
    { apply of_nat_nonzero. destruct data; [congruence | cbn; lia]. }
    assert (Nc : ~ (inject_Z (Z.of_nat (length (w :: ws))) == 0)%Q).
    { apply of_nat_nonzero. cbn. lia. }
    assert (Nd : ~ (md == 0)%Q).
    { rewrite Ed. intros E. apply T.
      rewrite <- (@Qmult_div_r (totalOf data) _ Nn), E. ring. }
    cbn [JS.div].
    destruct (Qeq_bool md 0) eqn:Z.
    { apply Qeq_bool_iff in Z. contradiction. }
    unfold JS.of_nat, JS.of_Z. cbn [JS.mul JS.fin JS.same].
    rewrite !Qred_correct, Ev, Ed. field. auto.
Qed.

(** X13.  When the calendar has seven days a week, the values are finite,
    each has a date and they do not sum to 0, the daily factors are
    normalised: weighted by the number of values of each day they add up
    to the number of values. *)
Theorem daily_factors_normalised v rest :
  Forall finite (v :: rest) ->
  (length (v :: rest) <= length dates)%nat ->
  ~ sum0 (v :: rest) =n= lit 0 ->
  exists s,
    calculateSeasonality (v :: rest) dates = Ok s
    /\ sum0 (map (fun i =>
                    JS.of_nat (length (onDayValues dates i 0 (v :: rest)))
                    * Arr.get (daily s) i)
                 (seq 0 7))
       =n= JS.of_nat (length (v :: rest)).
Proof.
  intros F L T0.
  assert (T : ~ (totalOf (v :: rest) == 0)%Q).
  { intros E. apply T0. eapply same_trans; [apply sum0_total; exact F|].
    exact E. }
  destruct (@calculateSeasonality_factors _ dates v rest)
    as (s & E & _ & _ & Hp).
  exists s. split; [exact E|].
  set (data := v :: rest) in *.
  set (n := inject_Z (Z.of_nat (length data))).
  unfold sum0, lit.
  eapply same_trans.
  { apply sum_of_terms
      with (g := fun i => (totalOf (onDayValues dates i 0 data)
                           * (n / totalOf data))%Q).
    intros i Hi. apply in_seq in Hi.
    destruct (Hp i ltac:(lia)) as (a & _ & Ha & _ & Ea & _).
    unfold Arr.get. rewrite (nth_error_nth _ _ _ Ha).
    eapply same_trans; [apply mul_proper_r; exact Ea|].
    apply weighted_factor; auto. discriminate. }
  unfold JS.of_nat, JS.of_Z. cbn [JS.same]. fold n.
  rewrite (qsum_scale (n / totalOf data)
             (fun i => totalOf (onDayValues dates i 0 data))).
  rewrite (@day_totals data 0%nat F L). field. exact T.
Qed.

End Normalised.

(** ** One history, two ranges *)

Lemma forEachDay_app f days1 days2 ps :
  forEachDay f (days1 ++ days2) = Ok ps ->
  exists ps1 ps2,
    forEachDay f days1 = Ok ps1 /\ forEachDay f days2 = Ok ps2
    /\ ps = ps1 ++ ps2 /\ length ps1 = length days1.
Proof.
  revert ps. induction days1 as [|i days1 IH]; intros ps E.
  - exists [], ps. cbn [app forEachDay] in *. auto.
  - cbn [app forEachDay] in *.
    destruct (f i) as [p|]; [|discriminate]. cbn [bind] in *.
    destruct (forEachDay f (days1 ++ days2)) as [qs|] eqn:Eq; [|discriminate].
    cbn [bind] in E. injection E as <-.
    destruct (IH qs eq_refl) as (ps1 & ps2 & -> & E2 & -> & L).
    exists (p :: ps1), ps2. cbn [bind length app]. auto.
Qed.

(** The loop over fewer days returns the first points of the loop over
    more days. *)
Lemma forEachDay_prefix f n m ps qs :
  (n <= m)%nat ->
  forEachDay f (seq 0 n) = Ok ps -> forEachDay f (seq 0 m) = Ok qs ->
  ps = firstn n qs.
Proof.
  intros L Ep Eq.
  replace m with (n + (m - n))%nat in Eq by lia.
  rewrite seq_app in Eq.
  destruct (forEachDay_app _ _ _ Eq) as (ps1 & ps2 & E1 & _ & -> & Len).
  rewrite Ep in E1. injection E1 as <-.
  rewrite length_seq in Len. rewrite <- Len.
  now rewrite firstn_app, Nat.sub_diag, firstn_all, firstn_O, app_nil_r.
Qed.

Section AcrossRanges.
Context `{Platform} `{Regression}.

(** Past the guards, the range decides nothing but the number of days
    of the loop. *)
Lemma forecast_uniform_in_range hist :
  (7 <= length hist)%nat ->
  noValue sales hist || noValue orders hist = false ->
  exists firstDate x ySales yOrders sr or ss os c,
    forall range,
      exists ps,
        forEachDay (forecastDay firstDate x ySales yOrders sr or ss os)
          (seq 0 (getDaysForRange range)) = Ok ps
        /\ generateSalesForecast hist range
           = Ok {| forecastData := ps; confidence := c |}.
Proof.
  intros E7 Z. unfold generateSalesForecast.
  replace (length hist =? 0)%nat with false
    by (symmetry; apply Nat.eqb_neq; lia).
  replace (length hist <? 7)%nat with false
    by (symmetry; apply Nat.ltb_ge; lia).
  rewrite !zero_series_test, Z.
  set (sorted := Arr.sort byTimestamp hist).
  assert (Ls : length sorted = length hist) by apply sort_length.
  set (ySales := handleOutliers _). set (yOrders := handleOutliers _).
  assert (Ns : exists v l, ySales = v :: l).
  { destruct ySales as [|v l] eqn:E; [|eauto]. exfalso.
    apply (f_equal (@length _)) in E. unfold ySales in E.
    rewrite length_handleOutliers, length_map in E. cbn in E. lia. }
  assert (No : exists v l, yOrders = v :: l).
  { destruct yOrders as [|v l] eqn:E; [|eauto]. exfalso.
    apply (f_equal (@length _)) in E. unfold yOrders in E.
    rewrite length_handleOutliers, length_map in E. cbn in E. lia. }
  destruct Ns as (vs & ls & Es). destruct No as (vo & lo & Eo).
  rewrite Es, Eo.
  destruct (@calculateSeasonality_factors _ (map timestamp sorted) vs ls)
    as (ss & -> & _).
  destruct (@calculateSeasonality_factors _ (map timestamp sorted) vo lo)
    as (os & -> & _).
  cbn [bind].
  set (x := map _ (map timestamp sorted)).
  assert (Nx : exists x0 xs, x = x0 :: xs).
  { destruct x as [|x0 xs] eqn:E; [|eauto]. exfalso.
    apply (f_equal (@length _)) in E. unfold x in E.
    rewrite !length_map in E. cbn in E. lia. }
  destruct Nx as (x0 & xs & Ex). rewrite Ex.
  match goal with
  | |- context [forEachDay (forecastDay ?fd ?x ?a ?b ?c ?d ?e ?g) _] =>
      exists fd, x, a, b, c, d, e, g
  end.
  eexists. intros range.
  match goal with
  | |- context [forEachDay ?f (seq 0 (getDaysForRange range))] =>
      destruct (@forEachDay_ok (fun _ _ => True) f
                  (seq 0 (getDaysForRange range))) as (ps & Eps & _)
  end.
  { intros i.
    match goal with
    | |- context [forecastDay ?fd _ ?a ?b ?c ?d ?e ?g i] =>
        destruct (forecastDay_ok fd x0 xs a b c d e g i) as (p & Hp & _)
    end.
    eauto. }
  exists ps. rewrite Eps. cbn [bind]. split; reflexivity.
Qed.

(** X14.  Forecasts of one history over two ranges agree: they have the
    same confidence, and the points of the shorter range are the first
    points of the longer one. *)
Theorem forecast_ranges_agree hist shorter longer :
  (getDaysForRange shorter <= getDaysForRange longer)%nat ->
  exists f g,
    generateSalesForecast hist shorter = Ok f
    /\ generateSalesForecast hist longer = Ok g
    /\ confidence f = confidence g
    /\ forecastData f = firstn (getDaysForRange shorter) (forecastData g).
Proof.
  intros L.
  destruct (generateSalesForecast_paths hist shorter)
    as [(L0 & E)|[(L0 & E)|[(L0 & Z & E)|(E7 & Z & _)]]].
  1-3: destruct (generateSalesForecast_paths hist longer)
         as [(L0' & E')|[(L0' & E')|[(L0' & Z' & E')|(L0' & Z' & _)]]];
       try lia; try congruence;
       (do 2 eexists; split; [exact E|]; split; [exact E'|];
        split; [reflexivity|]; cbn [forecastData];
        now rewrite firstn_nil).
  destruct (forecast_uniform_in_range hist E7 Z)
    as (fd & x & ys & yo & sr & or & ss & os & c & U).
  destruct (U shorter) as (ps & Eps & ->).
  destruct (U longer) as (qs & Eqs & ->).
  do 2 eexists. split; [reflexivity|]. split; [reflexivity|].
  split; [reflexivity|]. cbn [forecastData].
  eapply forEachDay_prefix; eauto.
Qed.

End AcrossRanges.

End ForecastProperties.

(* ================================================================== *)
(** * The price optimiser: further properties *)
(* ================================================================== *)

Module PriceProperties.

Import PriceOptimization PriceClaims PriceTerms Ranges.
Import JSFacts PriceProofs ArrFacts NumFacts.
Import String.
Local Open Scope string_scope.
Local Open Scope num_scope.

(** The pressure of a finite campaign length, as a rational. *)
Lemma calculateTimePressureFactor_finite d :
  exists q,
    calculateTimePressureFactor (Fin d) = Fin q
    /\ (q == if Qle_bool d 7 then 1.5
             else if Qle_bool 30 d then 1
             else 1.5 - 0.5 * (d - 7) / 23)%Q.
Proof.
  unfold calculateTimePressureFactor, lit, JS.leb, JS.geb, JS.leb.
  destruct (Qle_bool d 7); [eexists; split; reflexivity|].
  destruct (Qle_bool 30 d); [eexists; split; [reflexivity|]; lra|].
  eexists. split; [reflexivity|].
  rewrite !Qred_correct. field.
Qed.

(** X15.  The time pressure of a campaign lies between 1 and 1.5, and
    is [NaN] only for a length that is [NaN]. *)
Theorem calculateTimePressureFactor_range d :
  (d = NaN /\ calculateTimePressureFactor d = NaN)
  \/ within 1 1.5 (calculateTimePressureFactor d).
Proof.
  destruct d as [d| | |].
  - right. destruct (calculateTimePressureFactor_finite d) as (q & -> & E).
    exists q. split; [reflexivity|]. rewrite E.
    destruct (Qle_bool d 7) eqn:C7; [split; lra|].
    destruct (Qle_bool 30 d) eqn:C30; [split; lra|].
    assert (L7 : (7 < d)%Q).
    { apply Qnot_le_lt. intros L. apply Qle_bool_iff in L. congruence. }
    assert (L30 : (d < 30)%Q).
    { apply Qnot_le_lt. intros L. apply Qle_bool_iff in L. congruence. }
    assert (A : (0 <= 0.5 * (d - 7) / 23)%Q)
      by (apply Qle_shift_div_l; lra).
    assert (B : (0.5 * (d - 7) / 23 <= 0.5)%Q)
      by (apply Qle_shift_div_r; lra).
    split; lra.
  - right. eexists. split; [reflexivity|]. split; lra.
  - right. eexists. split; [reflexivity|]. split; lra.
  - left. split; reflexivity.
Qed.

(** X16.  A longer campaign never has more time pressure. *)
Theorem calculateTimePressureFactor_decreasing d1 d2 :
  (d1 <= d2)%Q ->
  (calculateTimePressureFactor (Fin d2)
   <=? calculateTimePressureFactor (Fin d1)) = true.
Proof.
  intros L.
  destruct (calculateTimePressureFactor_finite d1) as (q1 & -> & E1).
  destruct (calculateTimePressureFactor_finite d2) as (q2 & -> & E2).
  unfold JS.leb. apply Qle_bool_iff. rewrite E1, E2.
  destruct (Qle_bool d1 7) eqn:A1; destruct (Qle_bool d2 7) eqn:A2;
    destruct (Qle_bool 30 d1) eqn:B1; destruct (Qle_bool 30 d2) eqn:B2;
    repeat match goal with
      | H : Qle_bool _ _ = true |- _ => apply Qle_bool_iff in H
      | H : Qle_bool ?a ?b = false |- _ =>
          assert (b < a)%Q
            by (apply Qnot_le_lt; intros X; apply Qle_bool_iff in X;
                congruence);
          clear H
      end;
    try lra.
  all: try (assert (0 <= 0.5 * (d2 - 7) / 23)%Q
              by (apply Qle_shift_div_l; lra));
       try (assert (0 <= 0.5 * (d1 - 7) / 23)%Q
              by (apply Qle_shift_div_l; lra));
       try (assert (0.5 * (d1 - 7) / 23 <= 0.5)%Q
              by (apply Qle_shift_div_r; lra));
       try (assert (0.5 * (d2 - 7) / 23 <= 0.5)%Q
              by (apply Qle_shift_div_r; lra));
       try lra.
  assert (0.5 * (d1 - 7) / 23 <= 0.5 * (d2 - 7) / 23)%Q.
  { unfold Qdiv. apply Qmult_le_compat_r; [lra|]. discriminate. }
  lra.
Qed.

(** X17.  A history of two observations or more that all have the same
    price has no elasticity: the estimate is [NaN], and its
    interpretation is the one of a highly elastic demand. *)
Theorem calculatePriceElasticity_single_price salesData (p : Q) :
  (2 <= List.length salesData)%nat ->
  Forall (fun d => price d =n= Fin p) salesData ->
  calculatePriceElasticity salesData = NaN
  /\ interpretElasticity (calculatePriceElasticity salesData)
     = "Highly elastic - Demand is very sensitive to price changes".
Proof.
  intros L2 F.
  assert (E : calculatePriceElasticity salesData = NaN); [|now rewrite E].
  unfold calculatePriceElasticity.
  replace (List.length salesData <? 2)%nat with false
    by (symmetry; apply Nat.ltb_ge; exact L2).
  set (sorted := Arr.sort _ salesData).
  assert (Fs : Forall (fun d => price d =n= Fin p) sorted)
    by (apply ForecastProofs.sort_Forall; exact F).
  assert (Ls : List.length sorted = List.length salesData) by apply sort_length.
  assert (G : forall k, (k < List.length sorted)%nat ->
                        Arr.get (map price sorted) k =n= Fin p).
  { intros k Hk. unfold Arr.get.
    rewrite (nth_indep _ NaN (price (nth k sorted (nth 0 sorted
              {| price := NaN; quantity := NaN; timestamp := 0%Z |}))))
      by (now rewrite length_map).
    rewrite map_nth. rewrite Forall_forall in Fs. apply Fs. now apply nth_In. }
  set (p1 := Arr.get (map price sorted) 0) in *.
  set (p2 := Arr.get (map price sorted) (List.length sorted - 1)) in *.
  assert (E1 : p1 =n= Fin p) by (apply G; lia).
  assert (E2 : p2 =n= Fin p) by (apply G; lia).
  assert (A : forall q, q =n= Fin p ->
                filter (fun d => price d === q) salesData = salesData).
  { intros q Eq. apply filter_all. eapply Forall_impl; [|exact F].
    intros d Ed. cbn beta in *. apply same_eqb.
    - eapply same_trans; [exact Ed | apply same_sym; exact Eq].
    - intros N. rewrite N in Ed. exact Ed. }
  rewrite (A p1 E1), (A p2 E2).
  set (q := sum0 (map quantity salesData) / JS.of_nat (List.length salesData)).
  rewrite (@ratio_of_zeros ((q - q) / q) ((p2 - p1) / p1)); [reflexivity|..].
  - apply relative_change_of_equals, same_refl.
  - apply relative_change_of_equals.
    eapply same_trans; [exact E1 | apply same_sym; exact E2].
Qed.

(** X18.  With two observations or more the estimate is a magnitude: it
    is [NaN] or at least 0, never the -1 of a short history. *)
Theorem calculatePriceElasticity_magnitude salesData :
  (2 <= List.length salesData)%nat ->
  calculatePriceElasticity salesData = NaN
  \/ (calculatePriceElasticity salesData >=? lit 0) = true.
Proof.
  intros L2. unfold calculatePriceElasticity.
  replace (List.length salesData <? 2)%nat with false
    by (symmetry; apply Nat.ltb_ge; exact L2).
  destruct (_ / _) as [q| | |]; cbn [JS.Math_abs]; auto.
  right. unfold JS.geb, JS.leb, lit. apply Qle_bool_iff. apply Qabs_nonneg.
Qed.

(** One turn of the loop of [optimizePrice]: the candidate is recorded
    when its objective is above the maximum so far, and changes nothing
    otherwise. *)
Lemma tryPrice_step `{Regression} regression cost goal days factors pressure
      avg best price :
  (objective regression cost goal days factors pressure avg price
   >? maxObjectiveValue best) = true
  /\ bestPrice (tryPrice regression cost goal days factors pressure avg
                  best price) = price
  /\ maxObjectiveValue (tryPrice regression cost goal days factors pressure
                          avg best price)
     = objective regression cost goal days factors pressure avg price
  /\ optimalDailyQuantity (tryPrice regression cost goal days factors
                             pressure avg best price)
     = dailyQuantityAt regression days factors price
  /\ optimalTotalQuantity (tryPrice regression cost goal days factors
                             pressure avg best price)
     = totalQuantityAt regression factors price
  \/ (objective regression cost goal days factors pressure avg price
      >? maxObjectiveValue best) = false
     /\ tryPrice regression cost goal days factors pressure avg best price
        = best.
Proof.
  unfold tryPrice, objective, dailyQuantityAt, totalQuantityAt. cbv zeta.
  match goal with
  | |- context [if ?c then _ else _] => destruct c
  end; [left|right]; auto.
Qed.

(** A search that records a candidate exactly when its value is above
    the maximum so far. *)
Section Search.
Variables (try : Best -> num -> Best) (value : num -> num).
Hypothesis try_step : forall best price,
  (value price >? maxObjectiveValue best) = true
  /\ bestPrice (try best price) = price
  /\ maxObjectiveValue (try best price) = value price
  \/ (value price >? maxObjectiveValue best) = false
     /\ try best price = best.

Lemma search_invariant points : forall best,
  let best' := fold_left try points best in
  (forall p, In p points ->
     (value p >? maxObjectiveValue best') = false)
  /\ (best' = best
      \/ In (bestPrice best') points
         /\ maxObjectiveValue best' = value (bestPrice best')
         /\ (maxObjectiveValue best' >? maxObjectiveValue best) = true).
Proof.
  induction points as [|p points IH]; intros best; cbn zeta.
  - split; [intros p []|now left].
  - cbn [fold_left]. destruct (IH (try best p)) as (Hall & Hsel). clear IH.
    set (best' := fold_left try points (try best p)) in *.
    destruct (try_step best p) as [(G & Ep & Em)|(G & E)].
    + split.
      * intros c [<-|Hc]; [|now apply Hall].
        destruct Hsel as [->|(_ & _ & R)].
        -- rewrite Em. apply ltb_irrefl.
        -- rewrite Em in R. unfold JS.gtb in *. now apply ltb_asym.
      * right. destruct Hsel as [->|(I & M & R)].
        -- rewrite Ep, Em. repeat split; auto. now left.
        -- split; [now right|]. split; [exact M|].
           unfold JS.gtb in *. rewrite Em in R.
           exact (@ltb_trans _ _ _ G R).
    + rewrite E in *. split.
      * intros c [<-|Hc]; [|now apply Hall].
        destruct Hsel as [->|(_ & _ & R)]; [exact G|].
        exact (@not_gtb_raise _ _ _ G R).
      * destruct Hsel as [->|(I & M & R)]; [now left|].
        right. split; [now right|]. split; auto.
Qed.

(** Started from a maximum of 0, the search ends on a candidate whose
    value no other candidate exceeds, or where it started. *)
Lemma search_returns_grid_maximum points currentPrice :
  let initial := startingPoint currentPrice in
  let best := fold_left try points initial in
  (forall p, In p points ->
     (value p >? maxObjectiveValue best) = false)
  /\ (best = initial
      \/ In (bestPrice best) points
         /\ maxObjectiveValue best = value (bestPrice best)
         /\ (maxObjectiveValue best >? lit 0) = true).
Proof. cbn zeta. apply search_invariant. Qed.

End Search.

Section Campaign.
Context `{Platform} `{Regression}.

(** What [optimizePrice] returns, in terms of the search. *)
Lemma optimizePrice_search currentPrice cost d ds goal minDiscount
      maxDiscount period :
  let best :=
    searched currentPrice cost (d :: ds) goal minDiscount maxDiscount period in
  let total :=
    totalQuantityAt (fitted (d :: ds)) (campaignFactors period)
      (bestPrice best) in
  exists r,
    optimizePrice currentPrice cost (d :: ds) goal minDiscount maxDiscount
      period = Ok r
    /\ optimalPrice r = JS.Math_round (bestPrice best)
    /\ eq_daily (expectedQuantity r)
       = JS.Math_round (optimalDailyQuantity best)
    /\ eq_total (expectedQuantity r)
       = JS.Math_round (optimalTotalQuantity best)
    /\ dailyRevenue r
       = JS.Math_round
           (JS.Math_round
              (bestPrice best * total / JS.of_Z (campaignLength period)))
    /\ dailyProfit r
       = JS.Math_round
           (JS.Math_round
              ((bestPrice best - cost) * total
               / JS.of_Z (campaignLength period))).
Proof.
  cbn zeta.
  unfold searched, fitted, averageQuantity, grid, startingPoint,
    totalQuantityAt, campaignFactors, campaignPressure, optimizePrice.
  cbn [map Arr.reduce1 bind].
  destruct period as [p|]; cbn [campaignLength];
    (eexists; split; [reflexivity|]);
    cbn [optimalPrice expectedQuantity eq_daily eq_total dailyRevenue
         dailyProfit]; repeat split.
Qed.

(** X19.  For a history that is not empty [optimizePrice] returns the
    rounded current price, when no candidate of the grid has an
    objective above 0, or a rounded candidate whose objective is above 0
    and is not exceeded by the objective of any candidate. *)
Theorem optimizePrice_selects_grid_maximum currentPrice cost d ds goal
        minDiscount maxDiscount period :
  let value :=
    objective (fitted (d :: ds)) cost goal (JS.of_Z (campaignLength period))
      (campaignFactors period) (campaignPressure period)
      (averageQuantity (d :: ds)) in
  let candidates := grid currentPrice minDiscount maxDiscount in
  exists r chosen,
    optimizePrice currentPrice cost (d :: ds) goal minDiscount maxDiscount
      period = Ok r
    /\ optimalPrice r = JS.Math_round chosen
    /\ (chosen = currentPrice
        /\ (forall p, In p candidates -> (value p >? lit 0) = false)
        \/ In chosen candidates
           /\ (value chosen >? lit 0) = true
           /\ (forall p, In p candidates -> (value p >? value chosen) = false)).
Proof.
  cbn zeta.
  destruct (optimizePrice_search currentPrice cost d ds goal minDiscount
              maxDiscount period) as (r & E & Hp & _).
  exists r. eexists. split; [exact E|]. split; [exact Hp|].
  unfold searched.
  destruct (@search_returns_grid_maximum
              (tryPrice (fitted (d :: ds)) cost goal
                 (JS.of_Z (campaignLength period)) (campaignFactors period)
                 (campaignPressure period) (averageQuantity (d :: ds)))
              (objective (fitted (d :: ds)) cost goal
                 (JS.of_Z (campaignLength period)) (campaignFactors period)
                 (campaignPressure period) (averageQuantity (d :: ds))))
    with (points := grid currentPrice minDiscount maxDiscount)
         (currentPrice := currentPrice)
    as (Hall & Hsel).
  { intros best price.
    destruct (tryPrice_step (fitted (d :: ds)) cost goal
                (JS.of_Z (campaignLength period)) (campaignFactors period)
                (campaignPressure period) (averageQuantity (d :: ds))
                best price) as [(G & Ep & Em & _)|(G & E')]; auto. }
  destruct Hsel as [E0|(I & M & G)].
  - left. rewrite E0 in *. split; [reflexivity|exact Hall].
  - right. rewrite M in Hall, G. auto.
Qed.

(** With one campaign day the loop records the same daily and total
    quantity. *)
Lemma one_day_quantities regression cost goal factors pressure avg points :
  forall best,
    optimalDailyQuantity best = optimalTotalQuantity best ->
    let best' :=
      fold_left (tryPrice regression cost goal (JS.of_Z 1) factors pressure avg)
                points best in
    optimalDailyQuantity best' = optimalTotalQuantity best'.
Proof.
  induction points as [|p points IH]; intros best E; cbn zeta; auto.
  cbn [fold_left]. apply IH.
  destruct (tryPrice_step regression cost goal (JS.of_Z 1) factors pressure
              avg best p) as [(_ & _ & _ & -> & ->)|(_ & ->)]; auto.
  unfold dailyQuantityAt, totalQuantityAt, campaignQuantity.
  apply round_over_one.
Qed.

(** X20.  Without a campaign period the optimiser plans a single day:
    the expected revenue, profit and total quantity are the daily
    ones. *)
Theorem optimizePrice_single_day currentPrice cost d ds goal minDiscount
        maxDiscount :
  exists r,
    optimizePrice currentPrice cost (d :: ds) goal minDiscount maxDiscount
      None = Ok r
    /\ campaignDays r = lit 1
    /\ expectedRevenue r = dailyRevenue r
    /\ expectedProfit r = dailyProfit r
    /\ eq_total (expectedQuantity r) = eq_daily (expectedQuantity r).
Proof.
  destruct (optimizePrice_nonempty currentPrice cost d ds goal minDiscount
              maxDiscount None)
    as (r & E & Hd & (a & Ha & Hr) & (b & Hb & Hp)).
  destruct (optimizePrice_search currentPrice cost d ds goal minDiscount
              maxDiscount None) as (r' & E' & _ & Hq & Ht & _).
  rewrite E in E'. injection E' as <-.
  exists r. split; [exact E|]. cbn [campaignLength] in Hd.
  split; [exact Hd|]. rewrite Hr, Hp, Ha, Hb, Hd, Hq, Ht.
  split; [apply round_times_one|]. split; [apply round_times_one|].
  f_equal. symmetry. unfold searched. cbn [campaignLength].
  now apply one_day_quantities.
Qed.

(** With no campaign day the loop accepts no price. *)
Lemma empty_campaign_search regression cost goal days pressure avg points
      best :
  maxObjectiveValue best = lit 0 ->
  fold_left (tryPrice regression cost goal days [] pressure avg) points best
  = best.
Proof.
  intros M. induction points as [|p points IH]; auto.
  cbn [fold_left].
  destruct (tryPrice_step regression cost goal days [] pressure avg best p)
    as [(G & _)|(_ & ->)]; auto.
  exfalso. rewrite M in G. unfold objective in G.
  change (campaignQuantity [] ?b) with (JS.of_Z 0) in G.
  destruct goal; rewrite times_zero_not_positive in G; discriminate.
Qed.

(** X21.  A campaign window whose end lies a day or more before its
    start has no campaign day; the optimiser then accepts no candidate,
    keeps the current price and expects no sale. *)
Theorem optimizePrice_reversed_window currentPrice cost d ds goal
        minDiscount maxDiscount period :
  (campaignLength (Some period) <= 0)%Z ->
  exists r,
    optimizePrice currentPrice cost (d :: ds) goal minDiscount maxDiscount
      (Some period) = Ok r
    /\ optimalPrice r = JS.Math_round currentPrice
    /\ eq_daily (expectedQuantity r) = lit 0
    /\ eq_total (expectedQuantity r) = lit 0.
Proof.
  intros Hlen.
  destruct (optimizePrice_search currentPrice cost d ds goal minDiscount
              maxDiscount (Some period)) as (r & E & Hp & Hq & Ht & _).
  exists r. split; [exact E|].
  assert (S : searched currentPrice cost (d :: ds) goal minDiscount
                maxDiscount (Some period) = startingPoint currentPrice).
  { unfold searched, campaignFactors.
    replace (Z.to_nat (campaignLength (Some period))) with 0%nat by lia.
    cbn [seq map]. now apply empty_campaign_search. }
  rewrite S in Hp, Hq, Ht. rewrite Hp, Hq, Ht. repeat split.
Qed.

End Campaign.

(** ** A regression without a demand curve *)

(** A sum that has met [NaN] stays [NaN]. *)
Lemma fold_scaled_nan factors :
  fold_left (fun s factor => s + NaN * factor) factors NaN = NaN.
Proof. induction factors as [|f fs IH]; cbn [fold_left]; auto. Qed.

Lemma campaignQuantity_nan factors :
  campaignQuantity factors NaN = JS.of_Z 0
  \/ campaignQuantity factors NaN = NaN.
Proof.
  unfold campaignQuantity. destruct factors as [|f fs]; [now left|right].
  cbn [fold_left].
  change (lit 0 + NaN * f) with NaN. now rewrite fold_scaled_nan.
Qed.

Lemma times_nan a : a * NaN = NaN.
Proof. destruct a; reflexivity. Qed.

Section Unpredictable.
Context `{Regression}.

(** A candidate whose predicted demand is [NaN] is not accepted. *)
Lemma nan_prediction_rejected regression cost goal days factors pressure avg
      price :
  predict regression price = NaN ->
  (objective regression cost goal days factors pressure avg price >? lit 0)
  = false.
Proof.
  intros P. unfold objective, dailyQuantityAt, totalQuantityAt. rewrite P.
  change (JS.Math_max (lit 0) (JS.Math_round NaN)) with NaN.
  destruct (campaignQuantity_nan factors) as [->| ->].
  - destruct goal; apply times_zero_not_positive.
  - destruct goal; rewrite times_nan; reflexivity.
Qed.

Lemma nan_prediction_search regression cost goal days factors pressure avg
      points best :
  (forall price, In price points -> predict regression price = NaN) ->
  maxObjectiveValue best = lit 0 ->
  fold_left (tryPrice regression cost goal days factors pressure avg)
            points best = best.
Proof.
  intros P M. induction points as [|p points IH]; auto.
  cbn [fold_left].
  destruct (tryPrice_step regression cost goal days factors pressure avg
              best p) as [(G & _)|(_ & ->)].
  - exfalso. rewrite M, nan_prediction_rejected in G by (apply P; now left).
    discriminate.
  - apply IH. intros price Hp. apply P. now right.
Qed.

End Unpredictable.

Section NoDemandCurve.
Context `{Platform} `{Regression}.

(** X22.  When the fitted regression predicts [NaN] at the current price
    and at each candidate, as a least-squares line does whose slope is
    0 / 0, no candidate is accepted: the current price is kept and the
    expected quantities are 0; with a campaign day or more the revenue
    and the profit are [NaN]. *)
Theorem optimizePrice_nan_demand_keeps_price currentPrice cost d ds goal
        minDiscount maxDiscount period :
  (forall v,
     In v (currentPrice :: grid currentPrice minDiscount maxDiscount) ->
     predict (fitted (d :: ds)) v = NaN) ->
  exists r,
    optimizePrice currentPrice cost (d :: ds) goal minDiscount maxDiscount
      period = Ok r
    /\ optimalPrice r = JS.Math_round currentPrice
    /\ eq_daily (expectedQuantity r) = lit 0
    /\ eq_total (expectedQuantity r) = lit 0
    /\ (campaignFactors period = []
        \/ dailyRevenue r = NaN /\ dailyProfit r = NaN
           /\ expectedRevenue r = NaN /\ expectedProfit r = NaN).
Proof.
  intros P.
  destruct (optimizePrice_nonempty currentPrice cost d ds goal minDiscount
              maxDiscount period)
    as (r & E & _ & (a & Ha & Hr) & (b & Hb & Hp)).
  destruct (optimizePrice_search currentPrice cost d ds goal minDiscount
              maxDiscount period)
    as (r' & E' & Ho & Hq & Ht & Hdr & Hdp).
  rewrite E in E'. injection E' as <-.
  assert (S : searched currentPrice cost (d :: ds) goal minDiscount
                maxDiscount period = startingPoint currentPrice).
  { unfold searched. apply nan_prediction_search; [|reflexivity].
    intros price Hin. apply P. now right. }
  rewrite S in Ho, Hq, Ht, Hdr, Hdp. cbn [startingPoint bestPrice] in *.
  exists r. split; [exact E|]. split; [exact Ho|].
  split; [exact Hq|]. split; [exact Ht|].
  unfold totalQuantityAt in Hdr, Hdp.
  rewrite (P currentPrice) in Hdr, Hdp by now left.
  change (JS.Math_max (lit 0) (JS.Math_round NaN)) with NaN in Hdr, Hdp.
  destruct (campaignFactors period) as [|f fs]; [now left|right].
  unfold campaignQuantity in Hdr, Hdp. cbn [fold_left] in Hdr, Hdp.
  change (lit 0 + NaN * f) with NaN in Hdr, Hdp.
  rewrite fold_scaled_nan in Hdr, Hdp. cbn [JS.Math_round] in Hdr, Hdp.
  rewrite times_nan in Hdr, Hdp. cbn [JS.div JS.Math_round] in Hdr, Hdp.
  split; [exact Hdr|]. split; [exact Hdp|].
  rewrite Hr, Hp.
  rewrite Hdr in Ha. rewrite Hdp in Hb. rewrite <- Ha, <- Hb.
  split; reflexivity.
Qed.

End NoDemandCurve.

Section ShortHistory.
Context `{Platform} `{Regression}.

(** X23.  For a history of one observation the optimiser reports the
    elasticity -1 of a history too short to estimate it, and reads it as
    an inelastic demand. *)
Theorem optimizePrice_short_history_reads_inelastic currentPrice cost d goal
        minDiscount maxDiscount period :
  exists r,
    optimizePrice currentPrice cost [d] goal minDiscount maxDiscount period
    = Ok r
    /\ value (priceElasticity r) = lit (-1)
    /\ interpretation (priceElasticity r)
       = "Inelastic - Demand is not very sensitive to price changes".
Proof.
  unfold optimizePrice. cbn [map Arr.reduce1 bind].
  destruct period as [w|]; (eexists; split; [reflexivity|]);
    cbn [priceElasticity value interpretation]; split; reflexivity.
Qed.

End ShortHistory.

End PriceProperties.

(* ================================================================== *)
(** * The pricing page *)
(* ================================================================== *)

Module PricingToolsProofs.

Import PriceOptimization PriceClaims PricingTools.
Import PriceProofs.
Import String.
Local Open Scope string_scope.
Local Open Scope num_scope.

(** X24.  After either selection handler the [selectAll] flag says
    whether every product is selected: always after
    [toggleProductSelection], and after [toggleSelectAll] as long as
    there is a product. *)
Theorem selection_handlers_keep_selectAll selectAll itemId products :
  (let (flag, products') := toggleProductSelection itemId products in
   flag = forallb selected products')
  /\ (let (flag, products') := toggleSelectAll selectAll products in
      products = [] \/ flag = forallb selected products').
Proof.
  split.
  - cbn [toggleProductSelection].
    induction products as [|p ps IH]; [reflexivity|].
    cbn [forallb map]. rewrite IH.
    destruct (String.eqb (item_id p) itemId); reflexivity.
  - cbn [toggleSelectAll].
    destruct products as [|p ps]; [now left|right].
    set (b := negb selectAll). clearbody b.
    cbn [forallb map withSelected selected].
    induction ps as [|q qs IH]; cbn [forallb map withSelected selected].
    + now rewrite andb_true_r.
    + destruct b; cbn [andb] in *; auto.
Qed.

(** X25.  [validateCampaignPeriod] returns [null] exactly when the start
    date is invalid, or the start is not before the time of the check and
    the end date is invalid or not before the start.  A cleared date
    field therefore passes the validation; when both fields hold dates a
    period that passes has at least one campaign day. *)
Theorem validateCampaignPeriod_passes campaignPeriod today :
  validateCampaignPeriod campaignPeriod today = None
  <-> match parsedStart campaignPeriod, parsedEnd campaignPeriod with
      | None, _ => True
      | Some s, None => (today <= s)%Z
      | Some s, Some e =>
          (today <= s)%Z /\ (s <= e)%Z
          /\ (1 <= campaignLength (Some {| startDate := s; endDate := e |}))%Z
      end.
Proof.
  unfold validateCampaignPeriod, isBefore.
  destruct (parsedStart campaignPeriod) as [s|];
    destruct (parsedEnd campaignPeriod) as [e|];
    cbn [campaignLength startDate endDate];
    try (split; [auto | reflexivity]).
  - destruct (Z.ltb_spec s today).
    { split; [discriminate | lia]. }
    destruct (Z.ltb_spec e s).
    { split; [discriminate | lia]. }
    split; [|reflexivity]. intros _.
    assert (0 <= differenceInDays e s)%Z.
    { unfold differenceInDays. apply Z.quot_pos; [lia|].
      unfold msPerDay. lia. }
    lia.
  - destruct (Z.ltb_spec s today).
    + split; [discriminate | lia].
    + split; [auto | reflexivity].
Qed.

(** The message of a failed validation is shown as it is. *)
Lemma validation_message campaignPeriod today periodError fallback :
  validateCampaignPeriod campaignPeriod today = Some periodError ->
  orDefault (Some periodError) fallback = periodError.
Proof.
  unfold validateCampaignPeriod.
  destruct (isBefore (parsedStart campaignPeriod) (Some today));
    [intros [= <-]; reflexivity|].
  destruct (isBefore (parsedEnd campaignPeriod) (parsedStart campaignPeriod));
    [intros [= <-]; reflexivity | discriminate].
Qed.

Lemma Forall2_mapped {A B} (R : A -> B -> Prop) (f : A -> B) l :
  (forall a, R a (f a)) -> Forall2 R l (map f l).
Proof. intros HR. induction l; cbn [map]; constructor; auto. Qed.

Section PageProofs.
Context `{Platform} `{Regression}.
Variable missingMetricsMessage : string.

(** What the map of [handleOptimize] makes of one product. *)
Lemma optimizeProduct_outcome metricsData goal discountMin discountMax
      campaignPeriod product :
  let product' :=
    optimizeProduct missingMetricsMessage metricsData goal discountMin
      discountMax campaignPeriod product in
  if selected product then
    product_loading product' = Some false
    /\ item_id product' = item_id product
    /\ selected product' = true
    /\ match salesDataOf metricsData product with
       | None =>
           product_error product' = Some missingMetricsMessage
           /\ product_result product' = product_result product
       | Some [] =>
           product_error product'
           = Some "No historical sales data available"
           /\ product_result product' = product_result product
       | Some salesData =>
           product_error product' = product_error product
           /\ exists r,
                optimizePrice (lastPrice salesData) (cost product) salesData
                  goal discountMin discountMax (Some campaignPeriod) = Ok r
                /\ product_result product' = Some r
       end
  else product' = product.
Proof.
  cbn zeta. unfold optimizeProduct.
  destruct (selected product); [|reflexivity]. cbn [negb].
  destruct (salesDataOf metricsData product) as [[|d ds]|].
  - cbn [List.length Nat.eqb product_loading item_id product_error
         product_result selected].
    repeat (split; [reflexivity|]). reflexivity.
  - change (List.length (d :: ds) =? 0)%nat with false. cbv iota.
    destruct (optimizePrice_nonempty (lastPrice (d :: ds)) (cost product)
                d ds goal discountMin discountMax (Some campaignPeriod))
      as (r & E' & _).
    rewrite E'.
    cbn [product_loading item_id product_error product_result selected].
    repeat (split; [reflexivity|]).
    exists r. split; reflexivity.
  - cbn [product_loading item_id product_error product_result selected].
    repeat (split; [reflexivity|]). reflexivity.
Qed.

(** X26.  [handleOptimize], for a campaign period whose fields hold
    dates, always ends with [loading] false.  When the validation fails
    or no product is selected the products are left as they are and the
    error of the page is that message.  When the query fails the error of
    the page is its message, or the default one, and every product stays
    as it was reset: without result and error, and loading if it is
    selected.  When the query succeeds the page has no error, a product
    that is not selected is as it was before the call, and a selected
    product ends with [loading] false and never with the [TypeError] of
    the optimiser: a row without [metrics] gives the message of the
    engine, no sales row gives the message about the missing data, both
    keeping the result the product had; otherwise the optimiser returns
    for the price of the last row, and the product gets that result and
    keeps the error it had. *)
Theorem handleOptimize_outcomes today campaignPeriod goal discountMin
        discountMax products fetch :
  let after :=
    handleOptimize missingMetricsMessage today campaignPeriod goal
      discountMin discountMax products fetch in
  state_loading after = false
  /\ match validateCampaignPeriod (parsed campaignPeriod) today with
     | Some periodError =>
         state_products after = products
         /\ state_error after = Some periodError
     | None =>
         if (List.length (filter selected products) =? 0)%nat then
           state_products after = products
           /\ state_error after
              = Some "Please select at least one product to optimize"
         else
         match fetch with
         | FetchFailed errorMessage =>
             state_error after
             = Some (orDefault errorMessage "Failed to optimize prices")
             /\ Forall2
                  (fun old new =>
                     item_id new = item_id old
                     /\ selected new = selected old
                     /\ product_loading new = Some (selected old)
                     /\ product_result new = None
                     /\ product_error new = None)
                  products (state_products after)
         | Fetched metricsData =>
             state_error after = None
             /\ Forall2
                  (fun old new =>
                     if selected old then
                       product_loading new = Some false
                       /\ item_id new = item_id old
                       /\ selected new = true
                       /\ match salesDataOf (orNoRows metricsData) old with
                          | None =>
                              product_error new = Some missingMetricsMessage
                              /\ product_result new = product_result old
                          | Some [] =>
                              product_error new
                              = Some "No historical sales data available"
                              /\ product_result new = product_result old
                          | Some salesData =>
                              product_error new = product_error old
                              /\ exists r,
                                   optimizePrice (lastPrice salesData)
                                     (cost old) salesData goal discountMin
                                     discountMax (Some campaignPeriod)
                                   = Ok r
                                   /\ product_result new = Some r
                          end
                     else new = old)
                  products (state_products after)
         end
     end.
Proof.
  cbn zeta. unfold handleOptimize.
  destruct (validateCampaignPeriod (parsed campaignPeriod) today)
    as [periodError|] eqn:V.
  { cbn [state_loading state_products state_error].
    rewrite (validation_message _ _ _ V). auto. }
  destruct (List.length (filter selected products) =? 0)%nat.
  { cbn [state_loading state_products state_error]. auto. }
  destruct fetch as [metricsData|errorMessage];
    cbn [state_loading state_products state_error];
    (split; [reflexivity|]); (split; [reflexivity|]).
  - apply Forall2_mapped. intros product.
    apply optimizeProduct_outcome.
  - apply Forall2_mapped. intros product. cbn. auto.
Qed.

End PageProofs.

End PricingToolsProofs.

(* ================================================================== *)
(** * The dashboard *)
(* ================================================================== *)

Module DashboardProofs.

Import Forecast ForecastTerms Dashboard.
Import ArrFacts ForecastProperties.

Lemma filter_sorted (keep : Metrics -> bool) l :
  StronglySorted earlier l -> StronglySorted earlier (filter keep l).
Proof.
  induction 1 as [|a l Hl IH Ha]; cbn [filter]; [constructor|].
  destruct (keep a); [|exact IH].
  constructor; [exact IH|].
  apply Forall_forall. intros b Hb. apply filter_In in Hb as [Hb _].
  rewrite Forall_forall in Ha. auto.
Qed.

(** Sorting a history that is in the order of time changes nothing. *)
Lemma sort_sorted_same l :
  StronglySorted earlier l -> Arr.sort byTimestamp l = l.
Proof.
  induction 1 as [|a l Hl IH Ha]; [reflexivity|].
  change (Arr.sort byTimestamp (a :: l))
    with (Arr.insert byTimestamp a (Arr.sort byTimestamp l)).
  rewrite IH. destruct l as [|b l]; [reflexivity|].
  cbn [Arr.insert]. rewrite byTimestamp_gt.
  inversion Ha as [|? ? Hab _]; subst. unfold earlier in Hab.
  destruct (Z.ltb_spec (timestamp b) (timestamp a)); [lia|reflexivity].
Qed.

Section PageProofs.
Context `{Platform} `{Regression}.

(** X27.  The history the dashboard passes to the forecaster is in the
    order of time and has no row after today, so the sort of the
    forecaster leaves it as it is; the forecast is returned, and none
    of its points is dated before a row of that history. *)
Theorem dashboard_forecast_follows_history aggregated forecastRange :
  let history := historicalData aggregated in
  StronglySorted earlier history
  /\ Arr.sort byTimestamp history = history
  /\ Forall (fun row => (timestamp row <= startOfToday)%Z) history
  /\ exists f,
       forecastOfHistory aggregated forecastRange = Ok f
       /\ Forall (fun point =>
                    Forall (fun row =>
                              (timestamp row <= fr_timestamp point)%Z)
                           history)
                 (forecastData f).
Proof.
  cbn zeta.
  assert (S : StronglySorted earlier (historicalData aggregated))
    by (apply filter_sorted, sort_sorted).
  assert (T : Forall (fun row => (timestamp row <= startOfToday)%Z)
                     (historicalData aggregated)).
  { apply Forall_forall. intros row Hrow.
    apply filter_In in Hrow as [_ Hrow]. unfold isAfter in Hrow.
    apply negb_true_iff in Hrow. apply Z.ltb_ge in Hrow. exact Hrow. }
  split; [exact S|]. split; [now apply sort_sorted_same|].
  split; [exact T|].
  destruct (forecast_dates (historicalData aggregated) forecastRange)
    as (f & E & D & _).
  exists f. split; [exact E|].
  destruct D as [->|D]; [constructor|].
  apply Forall_forall. intros point Hpoint.
  assert (I : In (fr_timestamp point) (map fr_timestamp (forecastData f)))
    by now apply in_map.
  rewrite D in I. apply in_map_iff in I as (i & Ei & _).
  eapply Forall_impl; [|exact T]. cbn beta. intros row Hrow.
  rewrite <- Ei. unfold addDays, msPerDay. lia.
Qed.

End PageProofs.

End DashboardProofs.

(* ================================================================== *)
(** * Instances on the UTC host *)
(* ================================================================== *)

Module ForecastInstances.

Import Forecast ForecastClaims ForecastTerms Ranges.
Import JSFacts NumFacts ForecastProperties.

(** On seven days of falling sales. *)
Lemma forecast_confidence_capped_by_history_witness :
  exists f,
    @generateSalesForecast (UTC.host (UTC.midnight 19730)) OLS decliningSales
      R7d = Ok f
    /\ nanOrWithin 0
         (100 * (inject_Z (Z.of_nat (length decliningSales)) / 60) + 0.5)
         (confidence f).
Proof.
  apply (@forecast_confidence_capped_by_history
           (UTC.host (UTC.midnight 19730)) OLS sqrtTrunc_nonneg
           decliningSales R7d).
  vm_compute. lia.
Defined.

(** On the seven days in reverse order. *)
Lemma forecast_ignores_row_order_witness :
  @generateSalesForecast (UTC.host (UTC.midnight 19730)) OLS
    (rev decliningSales) R7d
  = @generateSalesForecast (UTC.host (UTC.midnight 19730)) OLS
      decliningSales R7d.
Proof.
  apply (@forecast_ignores_row_order (UTC.host (UTC.midnight 19730)) OLS
           decliningSales (rev decliningSales) R7d).
  - apply Permutation_rev.
  - vm_compute.
    repeat (apply NoDup_cons;
            [cbn [In]; intros C;
             repeat (destruct C as [C|C]; [discriminate C|]);
             exact C |]).
    apply NoDup_nil.
Defined.

(** On a week with one spike. *)
Lemma handleOutliers_repairs_into_fences_witness :
  Forall2 (fun v w =>
             (insideFences (fst (fences spiked)) (snd (fences spiked)) v
              = true -> w = v)
             /\ (w = v
                 \/ insideFences (fst (fences spiked)) (snd (fences spiked)) w
                    = true))
          spiked (handleOutliers spiked).
Proof.
  apply (@handleOutliers_repairs_into_fences spiked).
  unfold spiked. cbn [map].
  repeat (apply Forall_cons; [eexists; reflexivity|]).
  apply Forall_nil.
Defined.

(** On flat seasonality. *)
Lemma calculateSeasonalityStrength_range_witness :
  nanOrWithin 0.8 1 (@calculateSeasonalityStrength (UTC.host 0%Z) flat flat).
Proof.
  apply (@calculateSeasonalityStrength_range (UTC.host 0%Z) sqrtTrunc_nonneg).
Defined.

(** On the day after three days of rising sales. *)
Lemma forecastDay_sales_band_witness :
  salesLower nextDayPoint = NaN \/ salesUpper nextDayPoint = NaN
  \/ (salesLower nextDayPoint <=? fr_sales nextDayPoint)
     && (fr_sales nextDayPoint <=? salesUpper nextDayPoint) = true.
Proof.
  apply (@forecastDay_sales_band (UTC.host (UTC.midnight 3)) OLS
           sqrtTrunc_nonneg 0%Z threeDays risingSales risingOrders
           (regress threeDays risingSales) (regress threeDays risingOrders)
           flat flat 0 nextDayPoint 40 1).
  - vm_compute. reflexivity.
  - vm_compute. reflexivity.
  - vm_compute. discriminate.
  - vm_compute. reflexivity.
  - vm_compute. discriminate.
Defined.

(** On the same day. *)
Lemma forecastDay_orders_band_witness :
  ordersLower nextDayPoint = NaN \/ ordersUpper nextDayPoint = NaN
  \/ (ordersLower nextDayPoint <=? fr_orders nextDayPoint)
     && (fr_orders nextDayPoint <=? ordersUpper nextDayPoint) = true.
Proof.
  apply (@forecastDay_orders_band (UTC.host (UTC.midnight 3)) OLS
           sqrtTrunc_nonneg 0%Z threeDays risingSales risingOrders
           (regress threeDays risingSales) (regress threeDays risingOrders)
           flat flat 0 nextDayPoint 4 1).
  - vm_compute. reflexivity.
  - vm_compute. reflexivity.
  - vm_compute. discriminate.
  - vm_compute. reflexivity.
  - vm_compute. discriminate.
Defined.

(** On seven days of falling sales. *)
Lemma daily_factors_normalised_witness :
  exists s,
    @calculateSeasonality (UTC.host 0%Z) weekValues weekDates = Ok s
    /\ sum0 (map (fun i =>
                    JS.of_nat
                      (length (@onDayValues (UTC.host 0%Z) weekDates i 0
                                 weekValues))
                    * Arr.get (daily s) i)
                 (seq 0 7))
       =n= JS.of_nat (length weekValues).
Proof.
  apply (@daily_factors_normalised (UTC.host 0%Z) weekDates
           UTCFacts.utcDay_lt (JS.of_Z 70)
           (map JS.of_Z [60; 50; 40; 30; 20; 10]%Z)).
  - cbn [map]. repeat (apply Forall_cons; [eexists; reflexivity|]).
    apply Forall_nil.
  - vm_compute. lia.
  - vm_compute. discriminate.
Defined.

(** On seven days of falling sales, for a week and for two weeks. *)
Lemma forecast_ranges_agree_witness :
  exists f g,
    @generateSalesForecast (UTC.host (UTC.midnight 19730)) OLS decliningSales
      R7d = Ok f
    /\ @generateSalesForecast (UTC.host (UTC.midnight 19730)) OLS
         decliningSales R14d = Ok g
    /\ confidence f = confidence g
    /\ forecastData f = firstn (getDaysForRange R7d) (forecastData g).
Proof.
  apply (@forecast_ranges_agree (UTC.host (UTC.midnight 19730)) OLS
           decliningSales R7d R14d).
  cbn [getDaysForRange]. lia.
Defined.

End ForecastInstances.

Module PriceInstances.

Import PriceOptimization PriceClaims PriceTerms.
Import PriceProperties.
Import String.
Local Open Scope string_scope.
Local Open Scope num_scope.

(** On campaigns of 10 and of 20 days. *)
Lemma calculateTimePressureFactor_decreasing_witness :
  (calculateTimePressureFactor (Fin 20)
   <=? calculateTimePressureFactor (Fin 10)) = true.
Proof.
  apply (@calculateTimePressureFactor_decreasing 10 20).
  vm_compute. discriminate.
Defined.

(** On two sales at the price of 10. *)
Lemma calculatePriceElasticity_single_price_witness :
  calculatePriceElasticity [obs 10 5; obs 10 7] = NaN
  /\ interpretElasticity (calculatePriceElasticity [obs 10 5; obs 10 7])
     = "Highly elastic - Demand is very sensitive to price changes".
Proof.
  apply (@calculatePriceElasticity_single_price [obs 10 5; obs 10 7] 10).
  - cbn [List.length]. lia.
  - repeat (apply Forall_cons; [vm_compute; reflexivity|]).
    apply Forall_nil.
Defined.

(** On sales at 100 and at 120. *)
Lemma calculatePriceElasticity_magnitude_witness :
  calculatePriceElasticity [obs 100 5; obs 120 3] = NaN
  \/ (calculatePriceElasticity [obs 100 5; obs 120 3] >=? lit 0) = true.
Proof.
  apply (@calculatePriceElasticity_magnitude [obs 100 5; obs 120 3]).
  cbn [List.length]. lia.
Defined.

(** On a window that ends five days before it starts. *)
Lemma optimizePrice_reversed_window_witness :
  exists r,
    @optimizePrice (UTC.host 0%Z) OLS (lit 100) (lit 50)
      [obs 100 5; obs 120 3] profit (lit 0) (lit 50) (Some reversedWindow)
    = Ok r
    /\ optimalPrice r = JS.Math_round (lit 100)
    /\ eq_daily (expectedQuantity r) = lit 0
    /\ eq_total (expectedQuantity r) = lit 0.
Proof.
  apply (@optimizePrice_reversed_window (UTC.host 0%Z) OLS (lit 100)
           (lit 50) (obs 100 5) [obs 120 3] profit (lit 0) (lit 50)
           reversedWindow).
  vm_compute. discriminate.
Defined.

(** On two sales at the price of 10, where the least-squares line has
    the slope 0 / 0. *)
Lemma optimizePrice_nan_demand_keeps_price_witness :
  exists r,
    @optimizePrice (UTC.host 0%Z) OLS (lit 10) (lit 4) [obs 10 5; obs 10 7]
      profit (lit 0) (lit 50) None = Ok r
    /\ optimalPrice r = JS.Math_round (lit 10)
    /\ eq_daily (expectedQuantity r) = lit 0
    /\ eq_total (expectedQuantity r) = lit 0
    /\ (@campaignFactors (UTC.host 0%Z) None = []
        \/ dailyRevenue r = NaN /\ dailyProfit r = NaN
           /\ expectedRevenue r = NaN /\ expectedProfit r = NaN).
Proof.
  apply (@optimizePrice_nan_demand_keeps_price (UTC.host 0%Z) OLS (lit 10)
           (lit 4) (obs 10 5) [obs 10 7] profit (lit 0) (lit 50) None).
  intros v _. reflexivity.
Defined.

End PriceInstances.
